(** * Atlantis: command runner and locks controller

    A shallow embedding of [server/events/command_runner.go] and
    [server/locks_controller.go].

    Both files are orchestration code: they call collaborators through Go
    interfaces (the VCS client, the pull getters, the commit status updater,
    the project command builder and runner, the lock store, ...), write log
    lines and HTTP responses, and may panic.  The embedding keeps exactly
    that shape.  A handler is a computation in a small monad that threads
      - the state of the collaborators (an abstract type, answered by an
        oracle that may return a value or panic on every call),
      - the trace of everything the handler did, in order, and
      - the buffer of the history handler of the pull logger.
    [defer] and [recover] are combinators of that monad. *)

From Stdlib Require Import String Ascii List ZArith Bool Lia.
Import ListNotations.
Open Scope string_scope.
Open Scope Z_scope.

Set Implicit Arguments.

(* ================================================================== *)
(** ** Go values shared by both packages *)

Module Go.

(** The newline of Go's ["\n"]. *)
Definition nl : string := String (ascii_of_nat 10) EmptyString.

(** Go [error] values.  [errors.New] and [errors.Wrap] are the two
    constructors of github.com/pkg/errors the command runner uses;
    [url_EscapeError] is the error type of net/url.  Errors returned by
    collaborators are arbitrary values of this type. *)
Inductive error : Type :=
| errors_New (msg : string)
| errors_Wrap (cause : error) (msg : string)
| url_EscapeError (s : string).

(** An operand of [fmt.Sprintf] or a value of a log15 key/value pair. *)
Inductive Arg : Type :=
| AStr (s : string)          (* a string operand *)
| AInt (n : Z)               (* an int operand *)
| AErr (e : option error)    (* an error operand, possibly nil *)
| AVal (v : string)          (* an interface{} operand: a recovered panic value *)
| ABytes (b : string).       (* a []byte operand *)

(** A Go string as the code builds it.  Formatting is not evaluated: a
    formatted string is the format together with its operands, and
    [err.Error()] is kept as the error it renders. *)
Inductive Text : Type :=
| Str (s : string)
| Sprintf (format : string) (args : list Arg)
| ErrorString (e : error).

(** The outcome of running Go code: it returns, or it panics with a value.
    The value of a panic is kept as the text that [%s] prints for it, the
    only use the code makes of it; a panic is never the nil value. *)
Inductive Result (A : Type) : Type :=
| Returns (a : A)
| Panics (v : string).
Arguments Panics {A} v.

(** A Go [(value, error)] result where the value is only meaningful when
    the error is nil. *)
Inductive res (A : Type) : Type :=
| Ok (a : A)
| Err (e : error).
Arguments Err {A} e.

(** An interface-typed field: nil, or some implementation whose behaviour
    is given by the oracle. *)
Inductive Iface : Type := nil_iface | impl.

End Go.
Import Go.

(* ================================================================== *)
(** ** net/url: [QueryUnescape] and [PathUnescape]

    Both are [unescape] of the Go standard library, at the modes
    [encodeQueryComponent] and [encodePathSegment].  The host and zone
    branches of [unescape] are unreachable at these two modes and are left
    out. *)

Module url.

Inductive encoding : Type := encodePathSegment | encodeQueryComponent.

Definition is_query (mode : encoding) : bool :=
  match mode with encodeQueryComponent => true | encodePathSegment => false end.

Definition byte_in (lo hi : nat) (c : ascii) : bool :=
  (Nat.leb lo (nat_of_ascii c) && Nat.leb (nat_of_ascii c) hi)%bool.

(** ['0' <= c <= '9'], ['a' <= c <= 'f'] or ['A' <= c <= 'F']. *)
Definition ishex (c : ascii) : bool :=
  (byte_in 48 57 c || byte_in 97 102 c || byte_in 65 70 c)%bool.

Definition unhex (c : ascii) : nat :=
  if byte_in 48 57 c then nat_of_ascii c - 48
  else if byte_in 97 102 c then nat_of_ascii c - 97 + 10
  else if byte_in 65 70 c then nat_of_ascii c - 65 + 10
  else 0.

(** [s[:3]] when [len(s) > 3], else [s]. *)
Definition first3 (s : string) : string := substring 0 3 s.

(** The first loop of [unescape], a [switch s[i]]: it counts the ['%'] and
    checks that each is followed by two hex digits, and records whether a
    ['+'] has to be rewritten.  [n] and [hasPlus] are the loop's two
    variables; [s] is what is left of the string from index [i] on. *)
Fixpoint scan (mode : encoding) (s : string) (n : nat) (hasPlus : bool)
  : res (nat * bool) :=
  match s with
  | EmptyString => Ok (n, hasPlus)
  | String c rest =>
      if Ascii.eqb c "%" then
        match rest with
        | String a (String b rest') =>
            if (ishex a && ishex b)%bool
            then scan mode rest' (S n) hasPlus
            else Err (url_EscapeError (first3 s))
        | _ => Err (url_EscapeError (first3 s))
        end
      else if Ascii.eqb c "+" then scan mode rest n (is_query mode)
      else scan mode rest n hasPlus
  end.

(** The second loop of [unescape], run only on a string the first loop
    accepted, so that every ['%'] has its two digits. *)
Fixpoint decode (mode : encoding) (s : string) : string :=
  match s with
  | EmptyString => EmptyString
  | String c rest =>
      if Ascii.eqb c "%" then
        match rest with
        | String a (String b rest') =>
            String (ascii_of_nat (unhex a * 16 + unhex b)) (decode mode rest')
        | _ => EmptyString
        end
      else if Ascii.eqb c "+" then
        String (if is_query mode then " " else "+")%char (decode mode rest)
      else String c (decode mode rest)
  end.

Definition unescape (mode : encoding) (s : string) : res string :=
  match scan mode s 0 false with
  | Err e => Err e
  | Ok (n, hasPlus) =>
      if (Nat.eqb n 0 && negb hasPlus)%bool then Ok s
      else Ok (decode mode s)
  end.

Definition QueryUnescape (s : string) : res string :=
  unescape encodeQueryComponent s.

Definition PathUnescape (s : string) : res string :=
  unescape encodePathSegment s.

End url.

(* ================================================================== *)
(** ** strings.Split with a one-byte separator *)

Module strings.

(** [strings.Split(s, sep)] for a separator of one byte: the substrings
    between the separators, one more than there are separators. *)
Fixpoint Split (s : string) (sep : ascii) : list string :=
  match s with
  | EmptyString => [EmptyString]
  | String c rest =>
      if Ascii.eqb c sep then EmptyString :: Split rest sep
      else match Split rest sep with
           | hd :: tl => String c hd :: tl
           | [] => [String c EmptyString]
           end
  end.

(** [strings.Contains(s, string(c))]. *)
Fixpoint Contains (s : string) (c : ascii) : bool :=
  match s with
  | EmptyString => false
  | String c' rest => (Ascii.eqb c' c || Contains rest c)%bool
  end.

End strings.

(* ================================================================== *)
(** ** server/events/models *)

Module models.

(** Modelled from the spec: [models.VCSHostType] is not under src/.  It is
    a Go int type with the two named hosts; [OtherHost] stands for every
    other value of the type, which the [default:] branch of
    [RunCommentCommand] handles.  [Github] is the zero value. *)
Inductive VCSHostType : Type := Github | Gitlab | OtherHost (n : Z).

Module VCSHost.
Record t : Type := { Hostname : string; Type_ : VCSHostType }.
End VCSHost.
Definition VCSHost := VCSHost.t.

(** Modelled from the spec: [models.Repo] is not under src/; the fields
    are those of a repository identity (full name, owner, name, clone
    URLs, host). *)
Module Repo.
Record t : Type := {
  FullName : string;
  Owner : string;
  Name : string;
  CloneURL : string;
  SanitizedCloneURL : string;
  VCSHost : VCSHost.t
}.
(** [models.Repo{}]. *)
Definition zero : t :=
  {| FullName := ""; Owner := ""; Name := ""; CloneURL := "";
     SanitizedCloneURL := "";
     VCSHost := {| VCSHost.Hostname := ""; VCSHost.Type_ := Github |} |}.
End Repo.
Definition Repo := Repo.t.

Inductive PullRequestState : Type := Open | Closed.

(** Modelled from the spec: [models.PullRequest] is not under src/. *)
Module PullRequest.
Record t : Type := {
  Num : Z;
  HeadCommit : string;
  URL : string;
  Branch : string;
  Author : string;
  State : PullRequestState;
  BaseRepo : Repo.t
}.
(** [models.PullRequest{}]. *)
Definition zero : t :=
  {| Num := 0; HeadCommit := ""; URL := ""; Branch := ""; Author := "";
     State := Open; BaseRepo := Repo.zero |}.
End PullRequest.
Definition PullRequest := PullRequest.t.

Module User.
Record t : Type := { Username : string }.
End User.
Definition User := User.t.

Module Project.
Record t : Type := { RepoFullName : string; Path : string }.
End Project.
Definition Project := Project.t.

(** Modelled from the spec: [models.ProjectLock] is not under src/: the
    project, the owning pull request, the user, the workspace and the
    acquisition time. *)
Module ProjectLock.
Record t : Type := {
  Project : Project.t;
  Pull : PullRequest.t;
  User : User.t;
  Workspace : string;
  Time : Z
}.
End ProjectLock.
Definition ProjectLock := ProjectLock.t.

(** Go's [==] on [models.Repo]: equality of every field. *)
Definition VCSHostType_eq_dec (a b : VCSHostType) : {a = b} + {a <> b}.
Proof. decide equality. apply Z.eq_dec. Defined.

Definition VCSHost_eq_dec (a b : VCSHost) : {a = b} + {a <> b}.
Proof. decide equality; [apply VCSHostType_eq_dec | apply string_dec]. Defined.

Definition Repo_eq_dec (a b : Repo) : {a = b} + {a <> b}.
Proof. decide equality; try apply string_dec; apply VCSHost_eq_dec. Defined.

End models.
Import models.

(* ================================================================== *)
(** ** Running Go code: trace, collaborators, panics, defer *)

Module Exec.

(** log15 levels. *)
Inductive Lvl : Type := LvlCrit | LvlError | LvlWarn | LvlInfo | LvlDebug.

(** The handler of a logger: [HistoryHandler] is
    [logging.HistoryHandler], which also appends every record to its
    buffer. *)
Inductive HandlerKind : Type := PlainHandler | HistoryHandler.

Module Logger.
Record t : Type := {
  Ctx : list (string * Text);   (* the key/value context given to New *)
  Handler : HandlerKind
}.
End Logger.
Definition Logger := Logger.t.

Module LogRecord.
Record t : Type := {
  Level : Lvl;
  Msg : Text;
  KeyVals : list (string * Arg)
}.
End LogRecord.
Definition LogRecord := LogRecord.t.

Section Monad.

(** The methods of the collaborators, indexed by what they return. *)
Variable Call : Type -> Type.
(** The state of the collaborators. *)
Variable World : Type.

(** What a handler does, as seen from outside. *)
Inductive Event : Type :=
| EvCall (X : Type) (c : Call X) (r : Result X)
| EvLog (l : Logger) (r : LogRecord)
| EvWriteHeader (code : Z)
| EvWrite (body : Text).

Record State : Type := {
  collab : World;
  trace : list Event;
  history : list LogRecord
}.

Definition init (w : World) : State :=
  {| collab := w; trace := []; history := [] |}.

(** A collaborator answers a call from its state: it returns a value or
    panics, and moves to a new state. *)
Definition Oracle : Type := forall X, Call X -> World -> Result X * World.

Definition M (A : Type) : Type := State -> Result A * State.

Definition ret {A} (a : A) : M A := fun st => (Returns a, st).

Definition bind {A B} (m : M A) (k : A -> M B) : M B := fun st =>
  match m st with
  | (Returns a, st') => k a st'
  | (Panics v, st') => (Panics v, st')
  end.

Definition panic {A} (v : string) : M A := fun st => (Panics v, st).

Definition emit (e : Event) : M unit := fun st =>
  (Returns tt,
   {| collab := collab st; trace := trace st ++ [e]; history := history st |}).

(** A method call on a collaborator; the call and its outcome are
    recorded. *)
Definition call (oracle : Oracle) {X} (c : Call X) : M X := fun st =>
  let (r, w) := oracle X c (collab st) in
  (r, {| collab := w; trace := trace st ++ [EvCall c r];
         history := history st |}).

(** [l.Debug/Info/Warn/Error(msg, keyvals...)]. *)
Definition log (l : Logger) (lvl : Lvl) (msg : Text)
           (kv : list (string * Arg)) : M unit := fun st =>
  let r := {| LogRecord.Level := lvl; LogRecord.Msg := msg;
              LogRecord.KeyVals := kv |} in
  (Returns tt,
   {| collab := collab st; trace := trace st ++ [EvLog l r];
      history := match Logger.Handler l with
                 | HistoryHandler => history st ++ [r]
                 | PlainHandler => history st
                 end |}).

(** [logging.NewHistoryHandler]: a fresh, empty buffer. *)
Definition newHistory : M unit := fun st =>
  (Returns tt, {| collab := collab st; trace := trace st; history := [] |}).

(** [logHistory.History]. *)
Definition getHistory : M (list LogRecord) := fun st =>
  (Returns (history st), st).

(** [w.WriteHeader(code)] and [fmt.Fprintln(w, body)]. *)
Definition WriteHeader (code : Z) : M unit := emit (EvWriteHeader code).
Definition Fprintln (body : Text) : M unit := emit (EvWrite body).

(** [s[i]] on a slice: a run-time panic when [i] is out of range. *)
Definition index {A} (s : list A) (i : nat) : M A :=
  match nth_error s i with
  | Some a => ret a
  | None => panic "runtime error: index out of range"
  end.

(** [defer d()] followed by [body]: [d] runs when the rest of the
    function ends, by a return or by a panic, and a panic goes on after
    it. *)
Definition defer {A} (d : M unit) (body : M A) : M A := fun st =>
  match body st with
  | (Returns a, st') =>
      match d st' with
      | (Returns _, st'') => (Returns a, st'')
      | (Panics v, st'') => (Panics v, st'')
      end
  | (Panics v, st') =>
      match d st' with
      | (Returns _, st'') => (Panics v, st'')
      | (Panics v', st'') => (Panics v', st'')
      end
  end.

(** [defer h()] followed by [body], where [h] calls [recover()]: [h]
    receives the value of the panic in flight ([None] when the body
    returned), and the panic stops there: the function returns [zero]
    to its caller, unless [h] itself panics. *)
Definition defer_recover {A} (h : option string -> M unit) (zero : A)
           (body : M A) : M A := fun st =>
  match body st with
  | (Returns a, st') =>
      match h None st' with
      | (Returns _, st'') => (Returns a, st'')
      | (Panics v, st'') => (Panics v, st'')
      end
  | (Panics v, st') =>
      match h (Some v) st' with
      | (Returns _, st'') => (Returns zero, st'')
      | (Panics v', st'') => (Panics v', st'')
      end
  end.

End Monad.

Arguments init {Call World} w.
Arguments EvCall {Call X} c r.
Arguments EvLog {Call} l r.
Arguments EvWriteHeader {Call} code.
Arguments EvWrite {Call} body.
Arguments ret {Call World A} a.
Arguments panic {Call World A} v.
Arguments log {Call World} l lvl msg kv.
Arguments newHistory {Call World}.
Arguments getHistory {Call World}.
Arguments WriteHeader {Call World} code.
Arguments Fprintln {Call World} body.
Arguments index {Call World A} s i.

Declare Scope go_scope.
Delimit Scope go_scope with go.
Notation "x <- m ;; k" := (bind m (fun x => k))
  (at level 100, m at next level, right associativity) : go_scope.
Notation "m ;; k" := (bind m (fun _ => k))
  (at level 100, right associativity) : go_scope.

End Exec.
Import Exec.

(* ================================================================== *)
(** ** server/events: the command runner *)

Module events.

Open Scope go_scope.

(** Modelled from the spec: [events.CommandName] is not under src/.  It is
    a Go int type naming plan and apply; [OtherCommand] stands for every
    other value, which the [default:] branch of [RunCommentCommand]
    handles. *)
Inductive CommandName : Type := Plan | Apply | OtherCommand (n : Z).

(** [vcs.CommitStatus]. *)
Inductive CommitStatus : Type := Pending | Success | Failed.

(** The payloads of the host libraries, opaque to the runner. *)
Inductive github_PullRequest : Type := GithubPull (payload : string).
Inductive gitlab_MergeRequest : Type := GitlabMR (payload : string).

Module CommandContext.
Record t : Type := {
  User : models.User;
  Logger : Exec.Logger;
  Pull : models.PullRequest;
  HeadRepo : models.Repo;
  BaseRepo : models.Repo
}.
End CommandContext.
Definition CommandContext := CommandContext.t.

(** Modelled from the spec: [CommentCommand] is not under src/: the
    command name, the directory and workspace it is scoped to, and the
    verbosity flag. *)
Module CommentCommand.
Record t : Type := {
  Name : CommandName;
  RepoRelDir : string;
  Workspace : string;
  Verbose : bool
}.
End CommentCommand.
Definition CommentCommand := CommentCommand.t.

(** [AutoplanCommand{}]. *)
Inductive AutoplanCommand : Type := AutoplanCommand_lit.

(** Modelled from the spec: [CommandInterface] and its two
    implementations are not under src/.  An autoplan is always a plan,
    is never verbose and is an autoplan; a comment command answers with
    its own name and verbosity flag and is not an autoplan. *)
Class CommandInterface (T : Type) : Type := {
  CommandName_of : T -> CommandName;
  IsVerbose : T -> bool;
  IsAutoplan : T -> bool
}.

#[export] Instance AutoplanCommand_iface : CommandInterface AutoplanCommand :=
  {| CommandName_of := fun _ => Plan;
     IsVerbose := fun _ => false;
     IsAutoplan := fun _ => true |}.

#[export] Instance CommentCommand_iface : CommandInterface CommentCommand :=
  {| CommandName_of := CommentCommand.Name;
     IsVerbose := CommentCommand.Verbose;
     IsAutoplan := fun _ => false |}.

(** One unit of work produced by the builder; the runner reads its
    directory and workspace. *)
Module ProjectCommandContext.
Record t : Type := {
  RepoRelDir : string;
  Workspace : string;
  ProjectName : string
}.
End ProjectCommandContext.
Definition ProjectCommandContext := ProjectCommandContext.t.

(** What the project command runner returns for one unit. *)
Module ProjectCommandResult.
Record t : Type := {
  Error : option error;
  Failure : string;
  PlanSuccess : option string;
  ApplySuccess : string
}.
End ProjectCommandResult.
Definition ProjectCommandResult := ProjectCommandResult.t.

Module ProjectResult.
Record t : Type := {
  ProjectCommandResult : ProjectCommandResult.t;
  RepoRelDir : string;
  Workspace : string
}.
End ProjectResult.
Definition ProjectResult := ProjectResult.t.

Module CommandResult.
Record t : Type := {
  Error : option error;
  Failure : string;
  ProjectResults : list ProjectResult.t
}.
(** [CommandResult{Error: err}] and
    [CommandResult{ProjectResults: results}]. *)
Definition of_Error (err : error) : t :=
  {| Error := Some err; Failure := ""; ProjectResults := [] |}.
Definition of_ProjectResults (results : list ProjectResult.t) : t :=
  {| Error := None; Failure := ""; ProjectResults := results |}.
End CommandResult.
Definition CommandResult := CommandResult.t.

(** The methods the runner calls on its collaborators.  The markdown
    renderer and [recovery.Stack] belong to this repository but are not
    under src/: like the interfaces, they answer through the oracle.  The
    renderer receives the records of the history buffer in place of the
    text [logHistory.History.String()] makes of them. *)
Inductive Call : Type -> Type :=
| VCSClient_CreateComment (repo : Repo) (pullNum : Z) (comment : Text)
  : Call (option error)
| GithubPullGetter_GetPullRequest (repo : Repo) (pullNum : Z)
  : Call (res github_PullRequest)
| GitlabMergeRequestGetter_GetMergeRequest (repoFullName : string) (pullNum : Z)
  : Call (res gitlab_MergeRequest)
| EventParser_ParseGithubPull (ghPull : github_PullRequest)
  : Call (PullRequest * Repo * Repo * option error)
| EventParser_ParseGitlabMergeRequest (mr : gitlab_MergeRequest) (baseRepo : Repo)
  : Call PullRequest
| CommitStatusUpdater_Update (repo : Repo) (pull : PullRequest)
    (status : CommitStatus) (cmd : CommandName)
  : Call (option error)
| CommitStatusUpdater_UpdateProjectResult (ctx : CommandContext)
    (cmd : CommandName) (result : CommandResult)
  : Call (option error)
| ProjectCommandBuilder_BuildAutoplanCommands (ctx : CommandContext)
  : Call (res (list ProjectCommandContext))
| ProjectCommandBuilder_BuildPlanCommand (ctx : CommandContext) (cmd : CommentCommand)
  : Call (res ProjectCommandContext)
| ProjectCommandBuilder_BuildApplyCommand (ctx : CommandContext) (cmd : CommentCommand)
  : Call (res ProjectCommandContext)
| ProjectCommandRunner_Plan (cmd : ProjectCommandContext)
  : Call ProjectCommandResult
| ProjectCommandRunner_Apply (cmd : ProjectCommandContext)
  : Call ProjectCommandResult
| MarkdownRenderer_Render (result : CommandResult) (cmd : CommandName)
    (log : list LogRecord) (verbose : bool) (autoplan : bool)
  : Call string
| recovery_Stack (skip : Z)
  : Call string.

(** [DefaultCommandRunner]: the two pull getters may be nil; the other
    collaborators are reached through the oracle. *)
Module DefaultCommandRunner.
Record t : Type := {
  GithubPullGetter : Iface;
  GitlabMergeRequestGetter : Iface;
  AllowForkPRs : bool;
  AllowForkPRsFlag : string
}.
End DefaultCommandRunner.
Definition DefaultCommandRunner := DefaultCommandRunner.t.

Import DefaultCommandRunner.

Section Runner.

Variable World : Type.
Variable oracle : Oracle Call World.

Local Abbreviation M := (Exec.M Call World).
Local Abbreviation call := (Exec.call oracle).

Definition buildLogger (parentLogger : Logger) (repoFullName : string)
           (pullNum : Z) : M Logger :=
  let src := Sprintf "%s#%d" [AStr repoFullName; AInt pullNum] in
  newHistory ;;
  ret {| Logger.Ctx := Logger.Ctx parentLogger ++ [("pull", src)];
         Logger.Handler := HistoryHandler |}.

Definition getGithubData (c : DefaultCommandRunner) (baseRepo : Repo)
           (pullNum : Z) : M (PullRequest * Repo * option error) :=
  match GithubPullGetter c with
  | nil_iface =>
      ret (PullRequest.zero, Repo.zero,
           Some (errors_New "Atlantis not configured to support GitHub"))
  | impl =>
      r <- call (GithubPullGetter_GetPullRequest baseRepo pullNum) ;;
      match r with
      | Err err =>
          ret (PullRequest.zero, Repo.zero,
               Some (errors_Wrap err "making pull request API call to GitHub"))
      | Ok ghPull =>
          p <- call (EventParser_ParseGithubPull ghPull) ;;
          let '(pull, _, headRepo, err) := p in
          match err with
          | Some err =>
              ret (pull, headRepo,
                   Some (errors_Wrap err "extracting required fields from comment data"))
          | None => ret (pull, headRepo, None)
          end
      end
  end.

Definition getGitlabData (c : DefaultCommandRunner) (baseRepo : Repo)
           (pullNum : Z) : M (PullRequest * option error) :=
  match GitlabMergeRequestGetter c with
  | nil_iface =>
      ret (PullRequest.zero,
           Some (errors_New "Atlantis not configured to support GitLab"))
  | impl =>
      r <- call (GitlabMergeRequestGetter_GetMergeRequest
                   (Repo.FullName baseRepo) pullNum) ;;
      match r with
      | Err err =>
          ret (PullRequest.zero,
               Some (errors_Wrap err "making merge request API call to GitLab"))
      | Ok mr =>
          pull <- call (EventParser_ParseGitlabMergeRequest mr baseRepo) ;;
          ret (pull, None)
      end
  end.

Definition validateCtxAndComment (c : DefaultCommandRunner)
           (ctx : CommandContext) : M bool :=
  if (negb (AllowForkPRs c)
      && negb (String.eqb (Repo.Owner (CommandContext.HeadRepo ctx))
                          (Repo.Owner (CommandContext.BaseRepo ctx))))%bool
  then
    log (CommandContext.Logger ctx) LvlInfo
        (Str "command was run on a fork pull request which is disallowed") [] ;;
    call (VCSClient_CreateComment (CommandContext.BaseRepo ctx)
            (PullRequest.Num (CommandContext.Pull ctx))
            (Sprintf "Atlantis commands can't be run on fork pull requests. To enable, set --%s"
                     [AStr (AllowForkPRsFlag c)])) ;;
    ret false
  else
    match PullRequest.State (CommandContext.Pull ctx) with
    | Open => ret true
    | _ =>
        log (CommandContext.Logger ctx) LvlInfo
            (Str "command was run on closed pull request") [] ;;
        call (VCSClient_CreateComment (CommandContext.BaseRepo ctx)
                (PullRequest.Num (CommandContext.Pull ctx))
                (Str "Atlantis commands can't be run on closed pull requests")) ;;
        ret false
    end.

(** [if err != nil { ctx.Logger.Warn("unable to update commit status", "err", err) }] *)
Definition warnStatus (ctx : CommandContext) (err : option error) : M unit :=
  match err with
  | Some e =>
      log (CommandContext.Logger ctx) LvlWarn
          (Str "unable to update commit status") [("err", AErr (Some e))]
  | None => ret tt
  end.

Definition updatePull {T} `{CommandInterface T} (c : DefaultCommandRunner)
           (ctx : CommandContext) (command : T) (result : CommandResult)
  : M unit :=
  match CommandResult.Error result with
  | Some e => log (CommandContext.Logger ctx) LvlError (ErrorString e) []
  | None =>
      if String.eqb (CommandResult.Failure result) ""
      then ret tt
      else log (CommandContext.Logger ctx) LvlWarn
               (Str (CommandResult.Failure result)) []
  end ;;
  err <- call (CommitStatusUpdater_UpdateProjectResult ctx
                 (CommandName_of command) result) ;;
  warnStatus ctx err ;;
  match Logger.Handler (CommandContext.Logger ctx) with
  | PlainHandler =>
      log (CommandContext.Logger ctx) LvlError
          (Str "could not cast logger to logging.HistoryHandler; this is a bug!") []
  | HistoryHandler =>
      logHistory <- getHistory ;;
      comment <- call (MarkdownRenderer_Render result (CommandName_of command)
                         logHistory (IsVerbose command) (IsAutoplan command)) ;;
      call (VCSClient_CreateComment (CommandContext.BaseRepo ctx)
              (PullRequest.Num (CommandContext.Pull ctx)) (Str comment)) ;;
      ret tt
  end.

(** The format of the comment [logPanics] posts. *)
Definition panicCommentFormat : string :=
  "**Error: goroutine panic. This is a bug.**" ++ nl ++ "```" ++ nl
  ++ "%s" ++ nl ++ "%s```".

(** [logPanics]; [recovered] is the value of [recover()]. *)
Definition logPanics (c : DefaultCommandRunner) (ctx : CommandContext)
           (recovered : option string) : M unit :=
  match recovered with
  | Some err =>
      stack <- call (recovery_Stack 3) ;;
      call (VCSClient_CreateComment (CommandContext.BaseRepo ctx)
              (PullRequest.Num (CommandContext.Pull ctx))
              (Sprintf panicCommentFormat [AVal err; ABytes stack])) ;;
      log (CommandContext.Logger ctx) LvlError
          (Sprintf "PANIC: %s" [AVal err]) [("stack", ABytes stack)]
  | None => ret tt
  end.

(** The loop of [RunAutoplanCommand] over [projectCmds]; [results] is
    the slice built so far. *)
Fixpoint planAll (projectCmds : list ProjectCommandContext)
         (results : list ProjectResult) : M (list ProjectResult) :=
  match projectCmds with
  | [] => ret results
  | cmd :: rest =>
      r <- call (ProjectCommandRunner_Plan cmd) ;;
      planAll rest
        (results ++
         [{| ProjectResult.ProjectCommandResult := r;
             ProjectResult.RepoRelDir := ProjectCommandContext.RepoRelDir cmd;
             ProjectResult.Workspace := ProjectCommandContext.Workspace cmd |}])
  end.

(** The body of [RunAutoplanCommand] after [defer c.logPanics(ctx)]. *)
Definition autoplanBody (c : DefaultCommandRunner) (ctx : CommandContext)
  : M unit :=
  ok <- validateCtxAndComment c ctx ;;
  if negb ok then ret tt else
  err <- call (CommitStatusUpdater_Update (CommandContext.BaseRepo ctx)
                 (CommandContext.Pull ctx) Pending Plan) ;;
  warnStatus ctx err ;;
  r <- call (ProjectCommandBuilder_BuildAutoplanCommands ctx) ;;
  match r with
  | Err err =>
      updatePull c ctx AutoplanCommand_lit (CommandResult.of_Error err)
  | Ok projectCmds =>
      results <- planAll projectCmds [] ;;
      updatePull c ctx AutoplanCommand_lit
                 (CommandResult.of_ProjectResults results)
  end.

Definition RunAutoplanCommand (c : DefaultCommandRunner) (logger : Logger)
           (baseRepo headRepo : Repo) (pull : PullRequest) (user : User)
  : M unit :=
  pullLogger <- buildLogger logger (Repo.FullName baseRepo)
                            (PullRequest.Num pull) ;;
  let ctx := {| CommandContext.User := user;
                CommandContext.Logger := pullLogger;
                CommandContext.Pull := pull;
                CommandContext.HeadRepo := headRepo;
                CommandContext.BaseRepo := baseRepo |} in
  defer_recover (logPanics c ctx) tt (autoplanBody c ctx).

(** The [switch baseRepo.VCSHost.Type] of [RunCommentCommand]: the pull,
    the head repository and the error it leaves in the three
    variables. *)
Definition resolvePull (c : DefaultCommandRunner) (baseRepo headRepo : Repo)
           (pullNum : Z) : M (PullRequest * Repo * option error) :=
  match VCSHost.Type_ (Repo.VCSHost baseRepo) with
  | Github => getGithubData c baseRepo pullNum
  | Gitlab =>
      p <- getGitlabData c baseRepo pullNum ;;
      let '(pull, err) := p in
      ret (pull, headRepo, err)
  | OtherHost _ =>
      ret (PullRequest.zero, headRepo,
           Some (errors_New "Unknown VCS type, this is a bug!"))
  end.

(** The body of [RunCommentCommand] after [defer c.logPanics(ctx)]. *)
Definition commentBody (c : DefaultCommandRunner) (ctx : CommandContext)
           (cmd : CommentCommand) : M unit :=
  ok <- validateCtxAndComment c ctx ;;
  if negb ok then ret tt else
  err <- call (CommitStatusUpdater_Update (CommandContext.BaseRepo ctx)
                 (CommandContext.Pull ctx) Pending (CommandName_of cmd)) ;;
  warnStatus ctx err ;;
  let finish (result : ProjectCommandResult) : M unit :=
    updatePull c ctx cmd
      (CommandResult.of_ProjectResults
         [{| ProjectResult.ProjectCommandResult := result;
             ProjectResult.RepoRelDir := CommentCommand.RepoRelDir cmd;
             ProjectResult.Workspace := CommentCommand.Workspace cmd |}]) in
  match CommentCommand.Name cmd with
  | Plan =>
      r <- call (ProjectCommandBuilder_BuildPlanCommand ctx cmd) ;;
      match r with
      | Err err => updatePull c ctx cmd (CommandResult.of_Error err)
      | Ok projectCmd =>
          result <- call (ProjectCommandRunner_Plan projectCmd) ;;
          finish result
      end
  | Apply =>
      r <- call (ProjectCommandBuilder_BuildApplyCommand ctx cmd) ;;
      match r with
      | Err err => updatePull c ctx cmd (CommandResult.of_Error err)
      | Ok projectCmd =>
          result <- call (ProjectCommandRunner_Apply projectCmd) ;;
          finish result
      end
  | OtherCommand _ =>
      log (CommandContext.Logger ctx) LvlError
          (Str "failed to determine desired command, neither plan nor apply") []
  end.

(** [RunCommentCommand]; [maybeHeadRepo] is [None] for a nil pointer, and
    [cmd] is what the non-nil [*CommentCommand] points to. *)
Definition RunCommentCommand (c : DefaultCommandRunner) (logger : Logger)
           (baseRepo : Repo) (maybeHeadRepo : option Repo) (user : User)
           (pullNum : Z) (cmd : CommentCommand) : M unit :=
  pullLogger <- buildLogger logger (Repo.FullName baseRepo) pullNum ;;
  let headRepo := match maybeHeadRepo with
                  | Some r => r
                  | None => Repo.zero
                  end in
  p <- resolvePull c baseRepo headRepo pullNum ;;
  let '(pull, headRepo, err) := p in
  match err with
  | Some err => log pullLogger LvlError (ErrorString err) []
  | None =>
      let ctx := {| CommandContext.User := user;
                    CommandContext.Logger := pullLogger;
                    CommandContext.Pull := pull;
                    CommandContext.HeadRepo := headRepo;
                    CommandContext.BaseRepo := baseRepo |} in
      defer_recover (logPanics c ctx) tt (commentBody c ctx cmd)
  end.

End Runner.

End events.


(* ================================================================== *)
(** ** server: the locks controller *)

Module server.

Open Scope go_scope.

(** The status codes of net/http the controller uses. *)
Module http.
Definition StatusOK : Z := 200.
Definition StatusBadRequest : Z := 400.
Definition StatusNotFound : Z := 404.
Definition StatusInternalServerError : Z := 500.
End http.

(** The [func()] that [WorkingDirLocker.TryLock] returns, by identity. *)
Definition UnlockFn : Type := nat.

Module LockDetailData.
Record t : Type := {
  LockKeyEncoded : string;
  LockKey : string;
  RepoOwner : string;
  RepoName : string;
  PullRequestLink : string;
  LockedBy : string;
  Workspace : string;
  AtlantisVersion : string
}.
End LockDetailData.
Definition LockDetailData := LockDetailData.t.

(** The methods the controller calls on its collaborators. *)
Inductive Call : Type -> Type :=
| Locker_GetLock (key : string)
  : Call (res (option ProjectLock))
| Locker_Unlock (key : string)
  : Call (res (option ProjectLock))
| WorkingDirLocker_TryLock (repoFullName : string) (workspace : string) (pullNum : Z)
  : Call (res UnlockFn)
| unlock_ (f : UnlockFn)
  : Call unit
| WorkingDir_DeleteForWorkspace (r : Repo) (p : PullRequest) (workspace : string)
  : Call (option error)
| VCSClient_CreateComment (repo : Repo) (pullNum : Z) (comment : Text)
  : Call (option error)
| LockDetailTemplate_Execute (data : LockDetailData)
  : Call (option error).

Module LocksController.
Record t : Type := {
  AtlantisVersion : string;
  Logger : Exec.Logger
}.
End LocksController.
Definition LocksController := LocksController.t.

Section Controller.

Variable World : Type.
Variable oracle : Oracle Call World.

Local Abbreviation M := (Exec.M Call World).
Local Abbreviation call := (Exec.call oracle).

Definition respond (l : LocksController) (lvl : Lvl) (responseCode : Z)
           (response : Text) : M unit :=
  match lvl with
  | LvlDebug | LvlInfo | LvlWarn | LvlError =>
      log (LocksController.Logger l) lvl response []
  | LvlCrit => ret tt
  end ;;
  WriteHeader responseCode ;;
  Fprintln response.

(** [GetLock]; [id] is [mux.Vars(r)["id"]], [None] when the variable is
    not in the request. *)
Definition GetLock (l : LocksController) (id : option string) : M unit :=
  match id with
  | None =>
      respond l LvlWarn http.StatusBadRequest (Sprintf "No lock id in request" [])
  | Some id =>
      match url.QueryUnescape id with
      | Err err =>
          respond l LvlWarn http.StatusBadRequest
                  (Sprintf "Invalid lock id: %s" [AErr (Some err)])
      | Ok idUnencoded =>
          r <- call (Locker_GetLock idUnencoded) ;;
          match r with
          | Err err =>
              respond l LvlError http.StatusInternalServerError
                      (Sprintf "Failed getting lock: %s" [AErr (Some err)])
          | Ok None =>
              respond l LvlInfo http.StatusNotFound
                      (Sprintf "No lock found at id %q" [AStr idUnencoded])
          | Ok (Some lock) =>
              let repo :=
                strings.Split (Project.RepoFullName (ProjectLock.Project lock)) "/" in
              repo0 <- index repo 0 ;;
              repo1 <- index repo 1 ;;
              let viewData :=
                {| LockDetailData.LockKeyEncoded := id;
                   LockDetailData.LockKey := idUnencoded;
                   LockDetailData.RepoOwner := repo0;
                   LockDetailData.RepoName := repo1;
                   LockDetailData.PullRequestLink :=
                     PullRequest.URL (ProjectLock.Pull lock);
                   LockDetailData.LockedBy :=
                     PullRequest.Author (ProjectLock.Pull lock);
                   LockDetailData.Workspace := ProjectLock.Workspace lock;
                   LockDetailData.AtlantisVersion :=
                     LocksController.AtlantisVersion l |} in
              call (LockDetailTemplate_Execute viewData) ;;
              ret tt
          end
      end
  end.

(** The comment [DeleteLock] posts once the lock is gone. *)
Definition discardedComment (lock : ProjectLock) : Text :=
  Sprintf ("**Warning**: The plan for dir: `%s` workspace: `%s` was **discarded** via the Atlantis UI."
           ++ nl ++ nl ++ "To `apply` you must run `plan` again.")
          [AStr (Project.Path (ProjectLock.Project lock));
           AStr (ProjectLock.Workspace lock)].

(** The end of [DeleteLock] when the lock has a base repository: the
    comment back on the pull request, then the 500 or the final 200. *)
Definition commentBack (l : LocksController) (id : string) (lock : ProjectLock)
  : M unit :=
  err <- call (VCSClient_CreateComment
                 (PullRequest.BaseRepo (ProjectLock.Pull lock))
                 (PullRequest.Num (ProjectLock.Pull lock))
                 (discardedComment lock)) ;;
  match err with
  | Some err =>
      respond l LvlError http.StatusInternalServerError
              (Sprintf "Failed commenting on pull request: %s" [AErr (Some err)])
  | None =>
      respond l LvlInfo http.StatusOK (Sprintf "Deleted lock id %q" [AStr id])
  end.

(** [DeleteLock]; [id] is [mux.Vars(r)["id"]].  The deferred [unlock()]
    runs when the handler ends, so the rest of the handler is its body. *)
Definition DeleteLock (l : LocksController) (id : option string) : M unit :=
  match id with
  | None =>
      respond l LvlWarn http.StatusBadRequest (Sprintf "No lock id in request" [])
  | Some id =>
      if String.eqb id "" then
        respond l LvlWarn http.StatusBadRequest (Sprintf "No lock id in request" [])
      else
      match url.PathUnescape id with
      | Err err =>
          respond l LvlWarn http.StatusBadRequest
                  (Sprintf "Invalid lock id %q. Failed with error: %s"
                           [AStr id; AErr (Some err)])
      | Ok idUnencoded =>
          r <- call (Locker_Unlock idUnencoded) ;;
          match r with
          | Err err =>
              respond l LvlError http.StatusInternalServerError
                      (Sprintf "deleting lock failed with: %s" [AErr (Some err)])
          | Ok None =>
              respond l LvlInfo http.StatusNotFound
                      (Sprintf "No lock found at id %q" [AStr idUnencoded])
          | Ok (Some lock) =>
              if Repo_eq_dec (PullRequest.BaseRepo (ProjectLock.Pull lock)) Repo.zero
              then
                log (LocksController.Logger l) LvlDebug
                    (Str "skipping commenting on pull request and deleting workspace because BaseRepo field is empty") [] ;;
                respond l LvlInfo http.StatusOK
                        (Sprintf "Deleted lock id %q" [AStr id])
              else
                r <- call (WorkingDirLocker_TryLock
                             (Repo.FullName (PullRequest.BaseRepo (ProjectLock.Pull lock)))
                             (ProjectLock.Workspace lock)
                             (PullRequest.Num (ProjectLock.Pull lock))) ;;
                match r with
                | Err err =>
                    log (LocksController.Logger l) LvlError
                        (Str "unable to obtain working dir lock when trying to delete old plans")
                        [("err", AErr (Some err))] ;;
                    commentBack l id lock
                | Ok unlock =>
                    defer (call (unlock_ unlock))
                      (err <- call (WorkingDir_DeleteForWorkspace
                                      (PullRequest.BaseRepo (ProjectLock.Pull lock))
                                      (ProjectLock.Pull lock)
                                      (ProjectLock.Workspace lock)) ;;
                       log (LocksController.Logger l) LvlError
                           (Str "unable to delete workspace") [("err", AErr err)] ;;
                       commentBack l id lock)
                end
          end
      end
  end.

End Controller.

(** What the client of the HTTP server receives, by net/http: the code of
    the first [WriteHeader], 200 when the handler returns without one, and
    no response at all when the handler panics (the server drops the
    connection). *)
Fixpoint firstHeader (tr : list (Event Call)) : option Z :=
  match tr with
  | [] => None
  | EvWriteHeader code :: _ => Some code
  | _ :: rest => firstHeader rest
  end.

Definition status {World} (out : Result unit * State Call World) : option Z :=
  match fst out with
  | Panics _ => None
  | Returns _ =>
      match firstHeader (trace (snd out)) with
      | Some code => Some code
      | None => Some http.StatusOK
      end
  end.

End server.


(* ================================================================== *)
(** ** Reading a trace *)

(** The values [f] picks out of a list, in order. *)
Fixpoint collect {A B} (f : A -> option B) (l : list A) : list B :=
  match l with
  | [] => []
  | a :: rest =>
      match f a with
      | Some b => b :: collect f rest
      | None => collect f rest
      end
  end.

Module Obs.

Import events.

(** The text of a comment posted through the VCS client. *)
Definition commentOf (e : Event Call) : option Text :=
  match e with
  | EvCall c _ =>
      match c with
      | VCSClient_CreateComment _ _ comment => Some comment
      | _ => None
      end
  | _ => None
  end.

(** The comments an invocation posted. *)
Definition comments (tr : list (Event Call)) : list Text := collect commentOf tr.

(** A commit-status update: the pending status or the final one. *)
Definition statusOf (e : Event Call) : option CommandName :=
  match e with
  | EvCall c _ =>
      match c with
      | CommitStatusUpdater_Update _ _ _ cmd => Some cmd
      | CommitStatusUpdater_UpdateProjectResult _ cmd _ => Some cmd
      | _ => None
      end
  | _ => None
  end.

Definition statuses (tr : list (Event Call)) : list CommandName :=
  collect statusOf tr.

(** The result handed to [UpdateProjectResult]. *)
Definition reportedOf (e : Event Call) : option CommandResult :=
  match e with
  | EvCall c _ =>
      match c with
      | CommitStatusUpdater_UpdateProjectResult _ _ result => Some result
      | _ => None
      end
  | _ => None
  end.

Definition reported (tr : list (Event Call)) : list CommandResult :=
  collect reportedOf tr.

(** The value of a panic raised by a collaborator. *)
Definition panicOf (e : Event Call) : option string :=
  match e with
  | EvCall _ (Panics v) => Some v
  | _ => None
  end.

Definition panics (tr : list (Event Call)) : list string := collect panicOf tr.

(** The level of a log line. *)
Definition levelOf (e : Event Call) : option Lvl :=
  match e with
  | EvLog _ r => Some (LogRecord.Level r)
  | _ => None
  end.

Definition levels (tr : list (Event Call)) : list Lvl := collect levelOf tr.

(** A unit handed to [ProjectCommandRunner.Plan], with what came back. *)
Definition planOf (e : Event Call)
  : option (ProjectCommandContext * Result ProjectCommandResult) :=
  match e with
  | EvCall c r =>
      match c in Call X
            return Result X -> option (ProjectCommandContext * Result ProjectCommandResult)
      with
      | ProjectCommandRunner_Plan cmd => fun r => Some (cmd, r)
      | _ => fun _ => None
      end r
  | _ => None
  end.

Definition plans (tr : list (Event Call))
  : list (ProjectCommandContext * Result ProjectCommandResult) :=
  collect planOf tr.

(** The answer of the builder to [BuildAutoplanCommands]. *)
Definition builtOf (e : Event Call)
  : option (Result (res (list ProjectCommandContext))) :=
  match e with
  | EvCall c r =>
      match c in Call X
            return Result X -> option (Result (res (list ProjectCommandContext)))
      with
      | ProjectCommandBuilder_BuildAutoplanCommands _ => fun r => Some r
      | _ => fun _ => None
      end r
  | _ => None
  end.

Definition built (tr : list (Event Call))
  : list (Result (res (list ProjectCommandContext))) :=
  collect builtOf tr.

(** The comment client returns whenever it is called (with an error or
    without). *)
Definition comment_returns {World} (oracle : Oracle Call World) : Prop :=
  forall repo pullNum comment w,
  exists e w', oracle _ (VCSClient_CreateComment repo pullNum comment) w
               = (Returns e, w').

(** [recovery.Stack] returns whenever it is called. *)
Definition stack_returns {World} (oracle : Oracle Call World) : Prop :=
  forall skip w,
  exists s w', oracle _ (recovery_Stack skip) w = (Returns s, w').

(** The two calls [logPanics] reports through return. *)
Definition reporting_returns {World} (oracle : Oracle Call World) : Prop :=
  comment_returns oracle /\ stack_returns oracle.

(** The logger [buildLogger] returns. *)
Definition pullLogger (logger : Logger) (repoFullName : string) (pullNum : Z)
  : Logger :=
  {| Logger.Ctx := Logger.Ctx logger
                   ++ [("pull", Sprintf "%s#%d" [AStr repoFullName; AInt pullNum])];
     Logger.Handler := HistoryHandler |}.

(** The context both entry points build, around the pull logger [log]. *)
Definition mkCtx (log : Logger) (baseRepo headRepo : Repo)
           (pull : PullRequest) (user : User) : CommandContext :=
  {| CommandContext.User := user;
     CommandContext.Logger := log;
     CommandContext.Pull := pull;
     CommandContext.HeadRepo := headRepo;
     CommandContext.BaseRepo := baseRepo |}.

(** [headRepo] as [RunCommentCommand] initialises it from [maybeHeadRepo]. *)
Definition headOf (maybeHeadRepo : option Repo) : Repo :=
  match maybeHeadRepo with
  | Some r => r
  | None => Repo.zero
  end.

(** The pull request comes from a fork and forks are not allowed. *)
Definition forkRefused (c : DefaultCommandRunner) (ctx : CommandContext) : bool :=
  (negb (DefaultCommandRunner.AllowForkPRs c)
   && negb (String.eqb (Repo.Owner (CommandContext.HeadRepo ctx))
                       (Repo.Owner (CommandContext.BaseRepo ctx))))%bool.

(** The condition [validateCtxAndComment] accepts. *)
Definition valid (c : DefaultCommandRunner) (ctx : CommandContext) : bool :=
  (negb (forkRefused c ctx)
   && match PullRequest.State (CommandContext.Pull ctx) with
      | Open => true
      | Closed => false
      end)%bool.

(** A log line at info level without key/values. *)
Definition infoLine (msg : Text) : LogRecord :=
  {| LogRecord.Level := LvlInfo; LogRecord.Msg := msg; LogRecord.KeyVals := [] |}.

(** The log line and the comment of a context that is not [valid]. *)
Definition rejectionLine (c : DefaultCommandRunner) (ctx : CommandContext) : Text :=
  if forkRefused c ctx
  then Str "command was run on a fork pull request which is disallowed"
  else Str "command was run on closed pull request".

Definition rejection (c : DefaultCommandRunner) (ctx : CommandContext) : Text :=
  if forkRefused c ctx
  then Sprintf "Atlantis commands can't be run on fork pull requests. To enable, set --%s"
               [AStr (DefaultCommandRunner.AllowForkPRsFlag c)]
  else Str "Atlantis commands can't be run on closed pull requests".

(** What [logPanics] does for the panic value [v]. *)
Definition panicReport (ctx : CommandContext) (v stack : string)
           (e : option error) : list (Event Call) :=
  [ EvCall (recovery_Stack 3) (Returns stack);
    EvCall (VCSClient_CreateComment (CommandContext.BaseRepo ctx)
              (PullRequest.Num (CommandContext.Pull ctx))
              (Sprintf panicCommentFormat [AVal v; ABytes stack]))
           (Returns e);
    EvLog (CommandContext.Logger ctx)
          {| LogRecord.Level := LvlError;
             LogRecord.Msg := Sprintf "PANIC: %s" [AVal v];
             LogRecord.KeyVals := [("stack", ABytes stack)] |} ].

(** The events of the guarded part of an invocation: either no
    collaborator panicked, or exactly one did, no comment had been posted
    by then, and the events end with the report of [logPanics] for that
    panic. *)
Definition guarded (ctx : CommandContext) (evs : list (Event Call)) : Prop :=
  panics evs = []
  \/ exists pre v stack e,
       evs = (pre ++ panicReport ctx v stack e)%list
       /\ panics pre = [v]
       /\ comments pre = [].

(** What the outcome of a guarded step says about its events: a step that
    returns had no panic and posted [n] comments; a step that panics had
    exactly that panic and posted nothing. *)
Definition outcome (r : Result unit) (n : nat) (evs : list (Event Call)) : Prop :=
  match r with
  | Returns _ => panics evs = [] /\ length (comments evs) = n
  | Panics v => panics evs = [v] /\ comments evs = []
  end.

(** A comment command whose name is neither plan nor apply. *)
Definition unknownCommand (cmd : CommentCommand) : bool :=
  match CommentCommand.Name cmd with
  | OtherCommand _ => true
  | _ => false
  end.

(** The plans of [cmds] that returned [rs], as events. *)
Definition planEvents (cmds : list ProjectCommandContext)
           (rs : list ProjectCommandResult) : list (Event Call) :=
  map (fun p => EvCall (ProjectCommandRunner_Plan (fst p)) (Returns (snd p)))
      (combine cmds rs).

(** The [ProjectResult]s the loop of [RunAutoplanCommand] builds from
    them. *)
Definition zipResults (cmds : list ProjectCommandContext)
           (rs : list ProjectCommandResult) : list ProjectResult :=
  map (fun p =>
         {| ProjectResult.ProjectCommandResult := snd p;
            ProjectResult.RepoRelDir := ProjectCommandContext.RepoRelDir (fst p);
            ProjectResult.Workspace := ProjectCommandContext.Workspace (fst p) |})
      (combine cmds rs).

(** The configuration error of a runner that lacks the pull getter of the
    host of [baseRepo]. *)
Definition notConfigured (c : DefaultCommandRunner) (baseRepo : Repo)
  : option string :=
  match VCSHost.Type_ (Repo.VCSHost baseRepo) with
  | Github =>
      match DefaultCommandRunner.GithubPullGetter c with
      | nil_iface => Some "Atlantis not configured to support GitHub"
      | impl => None
      end
  | Gitlab =>
      match DefaultCommandRunner.GitlabMergeRequestGetter c with
      | nil_iface => Some "Atlantis not configured to support GitLab"
      | impl => None
      end
  | OtherHost _ => None
  end.

End Obs.


(* ================================================================== *)
(** ** Scripted collaborators and sample data *)

Module Sample.

Definition github : VCSHost :=
  {| VCSHost.Hostname := "github.com"; VCSHost.Type_ := Github |}.

Definition repo : Repo :=
  {| Repo.FullName := "acme/infra"; Repo.Owner := "acme"; Repo.Name := "infra";
     Repo.CloneURL := "https://github.com/acme/infra.git";
     Repo.SanitizedCloneURL := "https://github.com/acme/infra.git";
     Repo.VCSHost := github |}.

Definition fork : Repo :=
  {| Repo.FullName := "mallory/infra"; Repo.Owner := "mallory"; Repo.Name := "infra";
     Repo.CloneURL := "https://github.com/mallory/infra.git";
     Repo.SanitizedCloneURL := "https://github.com/mallory/infra.git";
     Repo.VCSHost := github |}.

Definition pull : PullRequest :=
  {| PullRequest.Num := 7; PullRequest.HeadCommit := "c0ffee";
     PullRequest.URL := "https://github.com/acme/infra/pull/7";
     PullRequest.Branch := "feature"; PullRequest.Author := "alice";
     PullRequest.State := Open; PullRequest.BaseRepo := repo |}.


Definition alice : User := {| User.Username := "alice" |}.

Definition rootLogger : Logger :=
  {| Logger.Ctx := []; Logger.Handler := PlainHandler |}.

Definition lockOf (fullName : string) (p : PullRequest) : ProjectLock :=
  {| ProjectLock.Project := {| Project.RepoFullName := fullName; Project.Path := "." |};
     ProjectLock.Pull := p;
     ProjectLock.User := alice;
     ProjectLock.Workspace := "default";
     ProjectLock.Time := 0 |}.

End Sample.

(** Collaborators of the command runner that answer from a script; their
    state counts the calls they received. *)
Module RunnerScript.

Import events.

Record t : Type := {
  createComment : Result (option error);
  getPullRequest : Result (res github_PullRequest);
  getMergeRequest : Result (res gitlab_MergeRequest);
  parseGithubPull : Result (PullRequest * Repo * Repo * option error);
  parseGitlabMergeRequest : Result PullRequest;
  update : Result (option error);
  updateProjectResult : Result (option error);
  buildAutoplanCommands : Result (res (list ProjectCommandContext));
  buildPlanCommand : Result (res ProjectCommandContext);
  buildApplyCommand : Result (res ProjectCommandContext);
  plan : ProjectCommandContext -> Result ProjectCommandResult;
  apply : ProjectCommandContext -> Result ProjectCommandResult;
  render : Result string;
  stack : Result string
}.

Definition answer (s : t) X (c : Call X) : Result X :=
  match c in Call X return Result X with
  | VCSClient_CreateComment _ _ _ => createComment s
  | GithubPullGetter_GetPullRequest _ _ => getPullRequest s
  | GitlabMergeRequestGetter_GetMergeRequest _ _ => getMergeRequest s
  | EventParser_ParseGithubPull _ => parseGithubPull s
  | EventParser_ParseGitlabMergeRequest _ _ => parseGitlabMergeRequest s
  | CommitStatusUpdater_Update _ _ _ _ => update s
  | CommitStatusUpdater_UpdateProjectResult _ _ _ => updateProjectResult s
  | ProjectCommandBuilder_BuildAutoplanCommands _ => buildAutoplanCommands s
  | ProjectCommandBuilder_BuildPlanCommand _ _ => buildPlanCommand s
  | ProjectCommandBuilder_BuildApplyCommand _ _ => buildApplyCommand s
  | ProjectCommandRunner_Plan cmd => plan s cmd
  | ProjectCommandRunner_Apply cmd => apply s cmd
  | MarkdownRenderer_Render _ _ _ _ _ => render s
  | recovery_Stack _ => stack s
  end.

Definition oracle (s : t) : Oracle Call nat :=
  fun X c n => (answer s c, S n).

Definition unit_ (dir : string) : ProjectCommandContext :=
  {| ProjectCommandContext.RepoRelDir := dir;
     ProjectCommandContext.Workspace := "default";
     ProjectCommandContext.ProjectName := "" |}.

Definition planned : ProjectCommandResult :=
  {| ProjectCommandResult.Error := None;
     ProjectCommandResult.Failure := "";
     ProjectCommandResult.PlanSuccess := Some "Plan: 1 to add";
     ProjectCommandResult.ApplySuccess := "" |}.

Definition failed : ProjectCommandResult :=
  {| ProjectCommandResult.Error := Some (errors_New "exit status 1");
     ProjectCommandResult.Failure := "";
     ProjectCommandResult.PlanSuccess := None;
     ProjectCommandResult.ApplySuccess := "" |}.

(** Every collaborator answers without error; the builder finds two units
    and the plan of the first one, [network], fails. *)
Definition steady : t :=
  {| createComment := Returns None;
     getPullRequest := Returns (Ok (GithubPull "pull 7"));
     getMergeRequest := Returns (Ok (GitlabMR "mr 7"));
     parseGithubPull := Returns (Sample.pull, Sample.repo, Sample.repo, None);
     parseGitlabMergeRequest := Returns Sample.pull;
     update := Returns None;
     updateProjectResult := Returns None;
     buildAutoplanCommands := Returns (Ok [unit_ "network"; unit_ "compute"]);
     buildPlanCommand := Returns (Ok (unit_ "network"));
     buildApplyCommand := Returns (Ok (unit_ "network"));
     plan := fun cmd =>
       if String.eqb (ProjectCommandContext.RepoRelDir cmd) "network"
       then Returns failed else Returns planned;
     apply := fun _ => Returns planned;
     render := Returns "Ran Plan";
     stack := Returns "goroutine 1 [running]" |}.

(** As [steady], but the GitHub pull getter panics. *)
Definition getterPanics : t :=
  {| createComment := createComment steady;
     getPullRequest := Panics "nil pointer dereference";
     getMergeRequest := getMergeRequest steady;
     parseGithubPull := parseGithubPull steady;
     parseGitlabMergeRequest := parseGitlabMergeRequest steady;
     update := update steady;
     updateProjectResult := updateProjectResult steady;
     buildAutoplanCommands := buildAutoplanCommands steady;
     buildPlanCommand := buildPlanCommand steady;
     buildApplyCommand := buildApplyCommand steady;
     plan := plan steady;
     apply := apply steady;
     render := render steady;
     stack := stack steady |}.

(** As [steady], but the project command runner panics on every plan. *)
Definition planPanics : t :=
  {| createComment := createComment steady;
     getPullRequest := getPullRequest steady;
     getMergeRequest := getMergeRequest steady;
     parseGithubPull := parseGithubPull steady;
     parseGitlabMergeRequest := parseGitlabMergeRequest steady;
     update := update steady;
     updateProjectResult := updateProjectResult steady;
     buildAutoplanCommands := buildAutoplanCommands steady;
     buildPlanCommand := buildPlanCommand steady;
     buildApplyCommand := buildApplyCommand steady;
     plan := fun _ => Panics "index out of range";
     apply := apply steady;
     render := render steady;
     stack := stack steady |}.

Definition runner : DefaultCommandRunner :=
  {| DefaultCommandRunner.GithubPullGetter := impl;
     DefaultCommandRunner.GitlabMergeRequestGetter := nil_iface;
     DefaultCommandRunner.AllowForkPRs := false;
     DefaultCommandRunner.AllowForkPRsFlag := "allow-fork-prs" |}.

(** A runner of an installation with no GitHub integration. *)
Definition gitlabOnly : DefaultCommandRunner :=
  {| DefaultCommandRunner.GithubPullGetter := nil_iface;
     DefaultCommandRunner.GitlabMergeRequestGetter := impl;
     DefaultCommandRunner.AllowForkPRs := false;
     DefaultCommandRunner.AllowForkPRsFlag := "allow-fork-prs" |}.

Definition planComment : CommentCommand :=
  {| CommentCommand.Name := Plan; CommentCommand.RepoRelDir := "network";
     CommentCommand.Workspace := "default"; CommentCommand.Verbose := false |}.


End RunnerScript.

(** Collaborators of the locks controller that answer from a script. *)
Module LocksScript.

Import server.

Record t : Type := {
  getLock : Result (res (option ProjectLock));
  unlock : Result (res (option ProjectLock));
  tryLock : Result (res UnlockFn);
  release : Result unit;
  deleteForWorkspace : Result (option error);
  createComment : Result (option error);
  execute : Result (option error)
}.

Definition answer (s : t) X (c : Call X) : Result X :=
  match c in Call X return Result X with
  | Locker_GetLock _ => getLock s
  | Locker_Unlock _ => unlock s
  | WorkingDirLocker_TryLock _ _ _ => tryLock s
  | unlock_ _ => release s
  | WorkingDir_DeleteForWorkspace _ _ _ => deleteForWorkspace s
  | VCSClient_CreateComment _ _ _ => createComment s
  | LockDetailTemplate_Execute _ => execute s
  end.

Definition oracle (s : t) : Oracle Call nat :=
  fun X c n => (answer s c, S n).

(** The store holds [lock]; the working directory is busy and cannot be
    deleted; the comment client answers [commented]. *)
Definition holding (lock : ProjectLock) (commented : option error) : t :=
  {| getLock := Returns (Ok (Some lock));
     unlock := Returns (Ok (Some lock));
     tryLock := Returns (Err (errors_New "the default workspace is currently locked"));
     release := Returns tt;
     deleteForWorkspace := Returns (Some (errors_New "permission denied"));
     createComment := Returns commented;
     execute := Returns None |}.

Definition controller : LocksController :=
  {| LocksController.AtlantisVersion := "0.4.0";
     LocksController.Logger := Sample.rootLogger |}.

End LocksScript.


(* ================================================================== *)
(** ** Reading the trace of the locks controller *)

Module LockObs.

Import server.

(** The key the lock store was asked about, by [GetLock] or [Unlock]. *)
Definition storeKeyOf (e : Event Call) : option string :=
  match e with
  | EvCall c _ =>
      match c with
      | Locker_GetLock key => Some key
      | Locker_Unlock key => Some key
      | _ => None
      end
  | _ => None
  end.

Definition storeKeys (tr : list (Event Call)) : list string :=
  collect storeKeyOf tr.

(** What [Locker.Unlock] answered. *)
Definition unlockedOf (e : Event Call)
  : option (Result (res (option ProjectLock))) :=
  match e with
  | EvCall c r =>
      match c in Call X
            return Result X -> option (Result (res (option ProjectLock)))
      with
      | Locker_Unlock _ => fun r => Some r
      | _ => fun _ => None
      end r
  | _ => None
  end.

Definition unlocked (tr : list (Event Call))
  : list (Result (res (option ProjectLock))) :=
  collect unlockedOf tr.

(** What [WorkingDirLocker.TryLock] answered. *)
Definition tryLockedOf (e : Event Call) : option (Result (res UnlockFn)) :=
  match e with
  | EvCall c r =>
      match c in Call X return Result X -> option (Result (res UnlockFn)) with
      | WorkingDirLocker_TryLock _ _ _ => fun r => Some r
      | _ => fun _ => None
      end r
  | _ => None
  end.

Definition tryLocked (tr : list (Event Call)) : list (Result (res UnlockFn)) :=
  collect tryLockedOf tr.

(** What [WorkingDir.DeleteForWorkspace] answered. *)
Definition deletedOf (e : Event Call) : option (Result (option error)) :=
  match e with
  | EvCall c r =>
      match c in Call X return Result X -> option (Result (option error)) with
      | WorkingDir_DeleteForWorkspace _ _ _ => fun r => Some r
      | _ => fun _ => None
      end r
  | _ => None
  end.

Definition deleted (tr : list (Event Call)) : list (Result (option error)) :=
  collect deletedOf tr.

(** What [VCSClient.CreateComment] answered. *)
Definition commentedOf (e : Event Call) : option (Result (option error)) :=
  match e with
  | EvCall c r =>
      match c in Call X return Result X -> option (Result (option error)) with
      | VCSClient_CreateComment _ _ _ => fun r => Some r
      | _ => fun _ => None
      end r
  | _ => None
  end.

Definition commented (tr : list (Event Call)) : list (Result (option error)) :=
  collect commentedOf tr.

(** The error-level lines of the controller's log, with their key/values. *)
Definition errorLineOf (e : Event Call) : option (Text * list (string * Arg)) :=
  match e with
  | EvLog _ r =>
      match LogRecord.Level r with
      | LvlError => Some (LogRecord.Msg r, LogRecord.KeyVals r)
      | _ => None
      end
  | _ => None
  end.

Definition errorLines (tr : list (Event Call))
  : list (Text * list (string * Arg)) :=
  collect errorLineOf tr.

(** Whether the comment back on the pull request failed. *)
Definition commentFailed (tr : list (Event Call)) : bool :=
  existsb (fun r => match r with Returns (Some _) => true | _ => false end)
          (commented tr).

(** The lock detail [GetLock] renders for [lock]. *)
Definition detail (l : LocksController) (id key : string) (lock : ProjectLock)
           (owner name : string) : LockDetailData :=
  {| LockDetailData.LockKeyEncoded := id;
     LockDetailData.LockKey := key;
     LockDetailData.RepoOwner := owner;
     LockDetailData.RepoName := name;
     LockDetailData.PullRequestLink := PullRequest.URL (ProjectLock.Pull lock);
     LockDetailData.LockedBy := PullRequest.Author (ProjectLock.Pull lock);
     LockDetailData.Workspace := ProjectLock.Workspace lock;
     LockDetailData.AtlantisVersion := LocksController.AtlantisVersion l |}.

End LockObs.

(** The request path read as a query component reads it: every ['+'] is
    the escape of a space. *)
Fixpoint plusAsSpace (s : string) : string :=
  match s with
  | EmptyString => EmptyString
  | String c rest =>
      if Ascii.eqb c "+" then "%20" ++ plusAsSpace rest
      else String c (plusAsSpace rest)
  end.

(* ================================================================== *)
(** ** More vocabulary: joined and replaced strings, more readings of a trace *)

Module strings_more.

(** What [strings.Join(parts, string(sep))] would give: the inverse of
    [strings.Split], used to say what the pieces of a split are. *)
Fixpoint Join (parts : list string) (sep : ascii) : string :=
  match parts with
  | [] => EmptyString
  | p :: rest =>
      match rest with
      | [] => p
      | _ :: _ => p ++ String sep (Join rest sep)
      end
  end.

(** [s] with every ['+'] replaced by a space. *)
Fixpoint plusToSpace (s : string) : string :=
  match s with
  | EmptyString => EmptyString
  | String c rest =>
      String (if Ascii.eqb c "+" then " "%char else c) (plusToSpace rest)
  end.

End strings_more.

(** The last element of a list. *)
Fixpoint lastOf {A} (l : list A) : option A :=
  match l with
  | [] => None
  | a :: rest =>
      match rest with
      | [] => Some a
      | _ :: _ => lastOf rest
      end
  end.

(** The values of the calls that returned. *)
Definition returned {A} (rs : list (Result A)) : list A :=
  collect (fun r => match r with Returns a => Some a | Panics _ => None end) rs.

Module LockObsMore.

Import server LockObs.

(** The release functions the handler called. *)
Definition releasedOf (e : Event Call) : option UnlockFn :=
  match e with
  | EvCall c _ =>
      match c with
      | unlock_ f => Some f
      | _ => None
      end
  | _ => None
  end.

Definition released (tr : list (Event Call)) : list UnlockFn :=
  collect releasedOf tr.

(** The comments the handler asked the VCS client to post. *)
Definition commentCallOf (e : Event Call) : option (Repo * Z * Text) :=
  match e with
  | EvCall c _ =>
      match c with
      | VCSClient_CreateComment repo pullNum comment => Some (repo, pullNum, comment)
      | _ => None
      end
  | _ => None
  end.

Definition commentCalls (tr : list (Event Call)) : list (Repo * Z * Text) :=
  collect commentCallOf tr.

(** The status codes and the bodies written to the response. *)
Definition headerOf (e : Event Call) : option Z :=
  match e with
  | EvWriteHeader code => Some code
  | _ => None
  end.

Definition headers (tr : list (Event Call)) : list Z := collect headerOf tr.

Definition bodyOf (e : Event Call) : option Text :=
  match e with
  | EvWrite body => Some body
  | _ => None
  end.

Definition bodies (tr : list (Event Call)) : list Text := collect bodyOf tr.

(** The messages written to the log. *)
Definition messageOf (e : Event Call) : option Text :=
  match e with
  | EvLog _ r => Some (LogRecord.Msg r)
  | _ => None
  end.

Definition messages (tr : list (Event Call)) : list Text := collect messageOf tr.

(** The lock details handed to the template. *)
Definition renderedOf (e : Event Call) : option LockDetailData :=
  match e with
  | EvCall c _ =>
      match c with
      | LockDetailTemplate_Execute data => Some data
      | _ => None
      end
  | _ => None
  end.

Definition rendered (tr : list (Event Call)) : list LockDetailData :=
  collect renderedOf tr.

(** What [Locker.GetLock] answered. *)
Definition foundOf (e : Event Call)
  : option (Result (res (option ProjectLock))) :=
  match e with
  | EvCall c r =>
      match c in Call X
            return Result X -> option (Result (res (option ProjectLock)))
      with
      | Locker_GetLock _ => fun r => Some r
      | _ => fun _ => None
      end r
  | _ => None
  end.

Definition found (tr : list (Event Call))
  : list (Result (res (option ProjectLock))) :=
  collect foundOf tr.

(** The [err] of the error-level lines [unable to delete workspace]. *)
Definition deleteLineOf (e : Event Call) : option (option error) :=
  match e with
  | EvLog _ r =>
      match LogRecord.Level r, LogRecord.Msg r, LogRecord.KeyVals r with
      | LvlError, Str s, [(_, AErr err)] =>
          if String.eqb s "unable to delete workspace" then Some err else None
      | _, _, _ => None
      end
  | _ => None
  end.

Definition deleteLines (tr : list (Event Call)) : list (option error) :=
  collect deleteLineOf tr.

(** Nothing was done beyond the lock store: no working-directory lock, no
    deletion, no comment, no release. *)
Definition untouched (tr : list (Event Call)) : Prop :=
  tryLocked tr = [] /\ deleted tr = [] /\ commentCalls tr = [] /\ released tr = [].

End LockObsMore.

(** More scripted collaborators of the locks controller. *)
Module LocksCases.

Import server.

(** The lock store is down. *)
Definition storeDown : LocksScript.t :=
  {| LocksScript.getLock := Returns (Err (errors_New "database is closed"));
     LocksScript.unlock := Returns (Err (errors_New "database is closed"));
     LocksScript.tryLock := Returns (Ok 1%nat);
     LocksScript.release := Returns tt;
     LocksScript.deleteForWorkspace := Returns None;
     LocksScript.createComment := Returns None;
     LocksScript.execute := Returns None |}.

(** The store holds [lock], the working directory is free and is deleted
    without error; the comment client answers [commented]. *)
Definition free (lock : ProjectLock) (commented : Result (option error))
  : LocksScript.t :=
  {| LocksScript.getLock := Returns (Ok (Some lock));
     LocksScript.unlock := Returns (Ok (Some lock));
     LocksScript.tryLock := Returns (Ok 1%nat);
     LocksScript.release := Returns tt;
     LocksScript.deleteForWorkspace := Returns None;
     LocksScript.createComment := commented;
     LocksScript.execute := Returns None |}.

(** The store holds [lock] and the working directory is free, but its
    deletion fails; the comment client answers [commented]. *)
Definition undeletable (lock : ProjectLock) (commented : Result (option error))
  : LocksScript.t :=
  {| LocksScript.getLock := Returns (Ok (Some lock));
     LocksScript.unlock := Returns (Ok (Some lock));
     LocksScript.tryLock := Returns (Ok 1%nat);
     LocksScript.release := Returns tt;
     LocksScript.deleteForWorkspace := Returns (Some (errors_New "permission denied"));
     LocksScript.createComment := commented;
     LocksScript.execute := Returns None |}.

End LocksCases.

Module ObsMore.

Import events Obs.

(** A unit handed to [ProjectCommandRunner.Apply], with what came back. *)
Definition applyOf (e : Event Call)
  : option (ProjectCommandContext * Result ProjectCommandResult) :=
  match e with
  | EvCall c r =>
      match c in Call X
            return Result X -> option (ProjectCommandContext * Result ProjectCommandResult)
      with
      | ProjectCommandRunner_Apply cmd => fun r => Some (cmd, r)
      | _ => fun _ => None
      end r
  | _ => None
  end.

Definition applies (tr : list (Event Call))
  : list (ProjectCommandContext * Result ProjectCommandResult) :=
  collect applyOf tr.

(** The answers of the builder to [BuildPlanCommand] and to
    [BuildApplyCommand]. *)
Definition planBuiltOf (e : Event Call)
  : option (Result (res ProjectCommandContext)) :=
  match e with
  | EvCall c r =>
      match c in Call X
            return Result X -> option (Result (res ProjectCommandContext))
      with
      | ProjectCommandBuilder_BuildPlanCommand _ _ => fun r => Some r
      | _ => fun _ => None
      end r
  | _ => None
  end.

Definition planBuilt (tr : list (Event Call))
  : list (Result (res ProjectCommandContext)) :=
  collect planBuiltOf tr.

Definition applyBuiltOf (e : Event Call)
  : option (Result (res ProjectCommandContext)) :=
  match e with
  | EvCall c r =>
      match c in Call X
            return Result X -> option (Result (res ProjectCommandContext))
      with
      | ProjectCommandBuilder_BuildApplyCommand _ _ => fun r => Some r
      | _ => fun _ => None
      end r
  | _ => None
  end.

Definition applyBuilt (tr : list (Event Call))
  : list (Result (res ProjectCommandContext)) :=
  collect applyBuiltOf tr.

(** A call to the commit status updater: a status set directly, or the
    status of a result. *)
Inductive StatusCall : Type :=
| DirectStatus (repo : Repo) (pull : PullRequest) (status : CommitStatus)
    (cmd : CommandName)
| ResultStatus (cmd : CommandName) (result : CommandResult).

Definition statusCallOf (e : Event Call) : option StatusCall :=
  match e with
  | EvCall c _ =>
      match c with
      | CommitStatusUpdater_Update repo pull status cmd =>
          Some (DirectStatus repo pull status cmd)
      | CommitStatusUpdater_UpdateProjectResult _ cmd result =>
          Some (ResultStatus cmd result)
      | _ => None
      end
  | _ => None
  end.

Definition statusCalls (tr : list (Event Call)) : list StatusCall :=
  collect statusCallOf tr.

(** The errors the commit status updater returned. *)
Definition statusErrorOf (e : Event Call) : option error :=
  match e with
  | EvCall c r =>
      match c in Call X return Result X -> option error with
      | CommitStatusUpdater_Update _ _ _ _ =>
          fun r => match r with Returns (Some err) => Some err | _ => None end
      | CommitStatusUpdater_UpdateProjectResult _ _ _ =>
          fun r => match r with Returns (Some err) => Some err | _ => None end
      | _ => fun _ => None
      end r
  | _ => None
  end.

Definition statusErrors (tr : list (Event Call)) : list error :=
  collect statusErrorOf tr.

(** What was logged at warning level: the message and the key-value
    pairs. *)
Definition warningOf (e : Event Call) : option (Text * list (string * Arg)) :=
  match e with
  | EvLog _ r =>
      match LogRecord.Level r with
      | LvlWarn => Some (LogRecord.Msg r, LogRecord.KeyVals r)
      | _ => None
      end
  | _ => None
  end.

Definition warnings (tr : list (Event Call))
  : list (Text * list (string * Arg)) :=
  collect warningOf tr.

(** The warning for the error [err] of a status update. *)
Definition statusWarning (err : error) : Text * list (string * Arg) :=
  (Str "unable to update commit status", [("err", AErr (Some err))]).

(** The messages logged at error level. *)
Definition errorMessageOf (e : Event Call) : option Text :=
  match e with
  | EvLog _ r =>
      match LogRecord.Level r with
      | LvlError => Some (LogRecord.Msg r)
      | _ => None
      end
  | _ => None
  end.

Definition errorMessages (tr : list (Event Call)) : list Text :=
  collect errorMessageOf tr.

(** The log line of a failed pull resolution. *)
Definition failureLine (err : error) : LogRecord :=
  {| LogRecord.Level := LvlError;
     LogRecord.Msg := ErrorString err;
     LogRecord.KeyVals := [] |}.

(** Where a comment was posted. *)
Definition commentPlaceOf (e : Event Call) : option (Repo * Z) :=
  match e with
  | EvCall c _ =>
      match c with
      | VCSClient_CreateComment repo pullNum _ => Some (repo, pullNum)
      | _ => None
      end
  | _ => None
  end.

Definition commentPlaces (tr : list (Event Call)) : list (Repo * Z) :=
  collect commentPlaceOf tr.

(** What the renderer was asked to render, but for the log. *)
Definition renderOf (e : Event Call)
  : option (CommandResult * CommandName * bool * bool) :=
  match e with
  | EvCall c _ =>
      match c with
      | MarkdownRenderer_Render result cmd _ verbose autoplan =>
          Some (result, cmd, verbose, autoplan)
      | _ => None
      end
  | _ => None
  end.

Definition renders (tr : list (Event Call))
  : list (CommandResult * CommandName * bool * bool) :=
  collect renderOf tr.

(** The pull request the event parser returned. *)
Definition resolvedOf (e : Event Call) : option PullRequest :=
  match e with
  | EvCall c r =>
      match c in Call X return Result X -> option PullRequest with
      | EventParser_ParseGithubPull _ =>
          fun r => match r with
                   | Returns (pull, _, _, _) => Some pull
                   | Panics _ => None
                   end
      | EventParser_ParseGitlabMergeRequest _ _ =>
          fun r => match r with
                   | Returns pull => Some pull
                   | Panics _ => None
                   end
      | _ => fun _ => None
      end r
  | _ => None
  end.

Definition resolved (tr : list (Event Call)) : list PullRequest :=
  collect resolvedOf tr.

(** The calls of pull resolution: the two getters and the event parser. *)
Definition resolves (e : Event Call) : bool :=
  match e with
  | EvCall c _ =>
      match c with
      | GithubPullGetter_GetPullRequest _ _
      | GitlabMergeRequestGetter_GetMergeRequest _ _
      | EventParser_ParseGithubPull _
      | EventParser_ParseGitlabMergeRequest _ _ => true
      | _ => false
      end
  | _ => false
  end.

(** What [logPanics] leaves behind for the panic value [v], and how it
    ends: [recovery.Stack] panics, or the comment client does, or both
    return and the panic is logged. *)
Definition panicTail (ctx : CommandContext) (v : string) (out : Result unit)
           (evs : list (Event Call)) : Prop :=
  (exists v', out = Panics v'
              /\ evs = [EvCall (recovery_Stack 3) (Panics v')])
  \/ (exists stack v',
        out = Panics v'
        /\ evs = [EvCall (recovery_Stack 3) (Returns stack);
                  EvCall (VCSClient_CreateComment (CommandContext.BaseRepo ctx)
                            (PullRequest.Num (CommandContext.Pull ctx))
                            (Sprintf panicCommentFormat [AVal v; ABytes stack]))
                         (Panics v')])
  \/ (exists stack e, out = Returns tt /\ evs = panicReport ctx v stack e).

(** The status updates of an invocation that got as far as it could: the
    pending status of the pull, then the status of the result. *)
Definition pendingThenResult (repo : Repo) (pull : PullRequest)
           (name : CommandName) (calls : list StatusCall) : Prop :=
  calls = []
  \/ calls = [DirectStatus repo pull Pending name]
  \/ exists result,
      calls = [DirectStatus repo pull Pending name; ResultStatus name result].

(** [CommandResult{ProjectResults: []ProjectResult{{...}}}] of
    [RunCommentCommand]. *)
Definition stepResult (cmd : CommentCommand) (result : ProjectCommandResult)
  : CommandResult :=
  CommandResult.of_ProjectResults
    [{| ProjectResult.ProjectCommandResult := result;
        ProjectResult.RepoRelDir := CommentCommand.RepoRelDir cmd;
        ProjectResult.Workspace := CommentCommand.Workspace cmd |}].

(** The one step of a comment command: the unit the builder returned is
    run, once, and what it returns is reported with the directory and the
    workspace of the command; no step runs without a unit. *)
Definition oneStep (cmd : CommentCommand)
           (steps : list (ProjectCommandContext * Result ProjectCommandResult))
           (builds : list (Result (res ProjectCommandContext)))
           (reports : list CommandResult) : Prop :=
  match steps with
  | [] => forall p, ~ In (Returns (Ok p)) builds
  | [(p, r)] =>
      builds = [Returns (Ok p)]
      /\ match r with
         | Returns result => reports = [stepResult cmd result]
         | Panics _ => reports = []
         end
  | _ => False
  end.

(** The [switch cmd.Name] of [RunCommentCommand], seen from the events: a
    plan command builds and runs a plan only, an apply command an apply
    only, and any other command builds, runs and reports nothing. *)
Definition dispatched (cmd : CommentCommand) (evs : list (Event Call)) : Prop :=
  match CommentCommand.Name cmd with
  | Plan =>
      applies evs = [] /\ applyBuilt evs = []
      /\ oneStep cmd (plans evs) (planBuilt evs) (reported evs)
  | Apply =>
      plans evs = [] /\ planBuilt evs = []
      /\ oneStep cmd (applies evs) (applyBuilt evs) (reported evs)
  | OtherCommand _ =>
      plans evs = [] /\ applies evs = []
      /\ planBuilt evs = [] /\ applyBuilt evs = [] /\ reported evs = []
  end.

(** The end of an invocation that panics under the recovery boundary:
    [body] is the panic [logPanics] recovered, [v] the panic of
    [logPanics] itself, raised by the last call. *)
Definition reportPanicked (repo : Repo) (pull : PullRequest) (v : string)
           (tr : list (Event Call)) : Prop :=
  exists body,
    panics tr = [body; v]
    /\ (lastOf tr = Some (EvCall (recovery_Stack 3) (Panics v))
        \/ exists stack,
            lastOf tr
            = Some (EvCall (VCSClient_CreateComment repo (PullRequest.Num pull)
                              (Sprintf panicCommentFormat [AVal body; ABytes stack]))
                           (Panics v))).

(** The results whose status update returned. *)
Definition reportReturnedOf (e : Event Call) : option CommandResult :=
  match e with
  | EvCall c r =>
      match c in Call X return Result X -> option CommandResult with
      | CommitStatusUpdater_UpdateProjectResult _ _ result =>
          fun r => match r with
                   | Returns _ => Some result
                   | Panics _ => None
                   end
      | _ => fun _ => None
      end r
  | _ => None
  end.

Definition reportsReturned (tr : list (Event Call)) : list CommandResult :=
  collect reportReturnedOf tr.

(** At most one call of the renderer: for the one result that was
    reported, after its status update returned, and with the name and the
    flags given. *)
Definition renderedOnce (name : CommandName) (verbose autoplan : bool)
           (evs : list (Event Call)) : Prop :=
  renders evs = []
  \/ exists result,
      reported evs = [result]
      /\ reportsReturned evs = [result]
      /\ renders evs = [(result, name, verbose, autoplan)].



(** The loggers the records were written to. *)
Definition loggerOf (e : Event Call) : option Logger :=
  match e with
  | EvLog l _ => Some l
  | _ => None
  end.

Definition loggers (tr : list (Event Call)) : list Logger :=
  collect loggerOf tr.

(** The calls of [recovery.Stack]. *)
Definition stackOf (e : Event Call) : option Z :=
  match e with
  | EvCall c _ =>
      match c with
      | recovery_Stack skip => Some skip
      | _ => None
      end
  | _ => None
  end.

Definition stacks (tr : list (Event Call)) : list Z := collect stackOf tr.

End ObsMore.

(** More scripted collaborators of the command runner, and a GitLab
    repository. *)
Module RunnerCases.

Import events.

Definition gitlabRepo : Repo :=
  {| Repo.FullName := "acme/infra"; Repo.Owner := "acme"; Repo.Name := "infra";
     Repo.CloneURL := "https://gitlab.com/acme/infra.git";
     Repo.SanitizedCloneURL := "https://gitlab.com/acme/infra.git";
     Repo.VCSHost := {| VCSHost.Hostname := "gitlab.com";
                        VCSHost.Type_ := Gitlab |} |}.

(** As [RunnerScript.steady], with other answers of the pull getter, of
    the builder of an autoplan and of the comment client. *)
Definition script (getPull : Result (res github_PullRequest))
           (units : Result (res (list ProjectCommandContext)))
           (commented : Result (option error)) : RunnerScript.t :=
  {| RunnerScript.createComment := commented;
     RunnerScript.getPullRequest := getPull;
     RunnerScript.getMergeRequest := RunnerScript.getMergeRequest RunnerScript.steady;
     RunnerScript.parseGithubPull := RunnerScript.parseGithubPull RunnerScript.steady;
     RunnerScript.parseGitlabMergeRequest :=
       RunnerScript.parseGitlabMergeRequest RunnerScript.steady;
     RunnerScript.update := RunnerScript.update RunnerScript.steady;
     RunnerScript.updateProjectResult :=
       RunnerScript.updateProjectResult RunnerScript.steady;
     RunnerScript.buildAutoplanCommands := units;
     RunnerScript.buildPlanCommand := RunnerScript.buildPlanCommand RunnerScript.steady;
     RunnerScript.buildApplyCommand := RunnerScript.buildApplyCommand RunnerScript.steady;
     RunnerScript.plan := RunnerScript.plan RunnerScript.steady;
     RunnerScript.apply := RunnerScript.apply RunnerScript.steady;
     RunnerScript.render := RunnerScript.render RunnerScript.steady;
     RunnerScript.stack := RunnerScript.stack RunnerScript.steady |}.

(** As [RunnerScript.steady], with other answers of the builder of a plan
    command, of the plans and of [recovery.Stack]. *)
Definition planning (buildPlan : Result (res ProjectCommandContext))
           (plan : ProjectCommandContext -> Result ProjectCommandResult)
           (stack : Result string) : RunnerScript.t :=
  {| RunnerScript.createComment := RunnerScript.createComment RunnerScript.steady;
     RunnerScript.getPullRequest := RunnerScript.getPullRequest RunnerScript.steady;
     RunnerScript.getMergeRequest := RunnerScript.getMergeRequest RunnerScript.steady;
     RunnerScript.parseGithubPull := RunnerScript.parseGithubPull RunnerScript.steady;
     RunnerScript.parseGitlabMergeRequest :=
       RunnerScript.parseGitlabMergeRequest RunnerScript.steady;
     RunnerScript.update := RunnerScript.update RunnerScript.steady;
     RunnerScript.updateProjectResult :=
       RunnerScript.updateProjectResult RunnerScript.steady;
     RunnerScript.buildAutoplanCommands :=
       RunnerScript.buildAutoplanCommands RunnerScript.steady;
     RunnerScript.buildPlanCommand := buildPlan;
     RunnerScript.buildApplyCommand := RunnerScript.buildApplyCommand RunnerScript.steady;
     RunnerScript.plan := plan;
     RunnerScript.apply := RunnerScript.apply RunnerScript.steady;
     RunnerScript.render := RunnerScript.render RunnerScript.steady;
     RunnerScript.stack := stack |}.

End RunnerCases.

(* ================================================================== *)
(** * Properties *)

(** ** net/url and strings *)

Module UrlFacts.

Import url.

Lemma string_length_ind (P : string -> Prop) :
  (forall s, (forall t, (String.length t < String.length s)%nat -> P t) -> P s) ->
  forall s, P s.
Proof.
  intros step s.
  remember (String.length s) as k eqn:Hk.
  revert s Hk.
  induction k as [k IH] using lt_wf_ind.
  intros s ->. apply step. intros t Ht. eapply IH; eauto.
Qed.

(** Whether the first loop accepts does not depend on the mode nor on the
    values of its two variables; neither does the error. *)
Lemma scan_Err_any m1 m2 s :
  forall n1 h1 n2 h2 e,
    scan m1 s n1 h1 = Err e -> scan m2 s n2 h2 = Err e.
Proof.
  induction s as [s IH] using string_length_ind.
  intros n1 h1 n2 h2 e.
  destruct s as [|c rest]; simpl; [discriminate|].
  destruct (Ascii.eqb c "%").
  - destruct rest as [|a [|b rest']]; auto.
    destruct (ishex a && ishex b)%bool; auto.
    apply IH. simpl. lia.
  - destruct (Ascii.eqb c "+"); apply IH; simpl; lia.
Qed.

Lemma scan_Ok_any m1 m2 s :
  forall n1 h1 n2 h2 r,
    scan m1 s n1 h1 = Ok r -> exists r', scan m2 s n2 h2 = Ok r'.
Proof.
  intros n1 h1 n2 h2 r H.
  destruct (scan m2 s n2 h2) as [r'|e] eqn:E; [eauto|].
  rewrite (scan_Err_any m2 m1 s n2 h2 n1 h1 E) in H. discriminate.
Qed.

(** When the first loop finds no ['%'] and leaves [hasPlus] unset, the
    second loop would rebuild the string as it is. *)
Lemma scan_nothing_to_do mode s :
  forall h h',
    scan mode s 0 h = Ok (0%nat, h') -> h' = false -> decode mode s = s.
Proof.
  induction s as [s IH] using string_length_ind.
  intros h h' H Hh.
  destruct s as [|c rest]; simpl in *; [reflexivity|].
  destruct (Ascii.eqb c "%") eqn:Ep.
  - destruct rest as [|a [|b rest']]; try discriminate.
    destruct (ishex a && ishex b)%bool; [|discriminate].
    exfalso. clear - H.
    assert (G : forall t n h r, scan mode t (S n) h = Ok r -> fst r <> 0%nat).
    { induction t as [t IHt] using string_length_ind.
      intros n h0 r0 Hs. destruct t as [|c' t']; simpl in Hs.
      - inversion Hs; subst; simpl; lia.
      - destruct (Ascii.eqb c' "%").
        + destruct t' as [|a' [|b' t'']]; try discriminate.
          destruct (ishex a' && ishex b')%bool; [|discriminate].
          eapply IHt; [|exact Hs]. simpl; lia.
        + destruct (Ascii.eqb c' "+"); (eapply IHt; [|exact Hs]; simpl; lia). }
    apply (G _ _ _ _ H). reflexivity.
  - destruct (Ascii.eqb c "+") eqn:Eplus.
    + destruct (is_query mode) eqn:Eq.
      * exfalso. subst h'. clear - H Eq.
        assert (G : forall t n r, scan mode t n true = Ok r -> snd r = true).
        { induction t as [t IHt] using string_length_ind.
          intros n r0 Hs. destruct t as [|c' t']; simpl in Hs.
          - inversion Hs; reflexivity.
          - destruct (Ascii.eqb c' "%").
            + destruct t' as [|a' [|b' t'']]; try discriminate.
              destruct (ishex a' && ishex b')%bool; [|discriminate].
              eapply IHt; [|exact Hs]. simpl; lia.
            + destruct (Ascii.eqb c' "+").
              * rewrite Eq in Hs. eapply IHt; [|exact Hs]. simpl; lia.
              * eapply IHt; [|exact Hs]. simpl; lia. }
        specialize (G _ _ _ H). discriminate.
      * apply Ascii.eqb_eq in Eplus. subst c.
        f_equal. eapply IH; eauto.
    + f_equal. eapply IH; eauto.
Qed.

(** [unescape] answers with what the second loop builds. *)
Lemma unescape_Ok mode s k :
  unescape mode s = Ok k -> k = decode mode s.
Proof.
  unfold unescape.
  destruct (scan mode s 0 false) as [[n h]|e] eqn:E; [|discriminate].
  destruct (Nat.eqb n 0 && negb h)%bool eqn:B; intros H; inversion H; subst; auto.
  apply andb_true_iff in B. destruct B as [Bn Bh].
  apply Nat.eqb_eq in Bn. apply negb_true_iff in Bh. subst.
  symmetry. eapply scan_nothing_to_do; eauto.
Qed.

(** Both modes refuse the same strings, with the same error. *)
Lemma unescape_Err m1 m2 s e :
  unescape m1 s = Err e -> unescape m2 s = Err e.
Proof.
  unfold unescape.
  destruct (scan m1 s 0 false) as [[n h]|e1] eqn:E.
  - destruct (Nat.eqb n 0 && negb h)%bool; discriminate.
  - intros H; inversion H; subst.
    rewrite (scan_Err_any m1 m2 s 0 false 0 false E). reflexivity.
Qed.

Lemma unescape_Ok_any m1 m2 s k :
  unescape m1 s = Ok k -> unescape m2 s = Ok (decode m2 s).
Proof.
  intros H.
  destruct (unescape m2 s) as [k'|e] eqn:E.
  - f_equal. apply unescape_Ok; assumption.
  - rewrite (unescape_Err m2 m1 s E) in H. discriminate.
Qed.

End UrlFacts.


(** ** Tactics for running a handler symbolically *)

Ltac go_unfold :=
  unfold Exec.bind, Exec.call, Exec.ret, Exec.log, Exec.panic, Exec.emit,
    Exec.WriteHeader, Exec.Fprintln, Exec.index, Exec.defer,
    Exec.defer_recover, Exec.newHistory, Exec.getHistory, Exec.init in *.

(** Case analysis on the answer of the next collaborator call, or on the
    value the code branches on next. *)
Ltac ask oracle :=
  match goal with
  | |- context [oracle ?X ?c ?w] =>
      let E := fresh "E" in
      destruct (oracle X c w) as [[?|?] ?] eqn:E; cbn
  end.

Ltac branch :=
  match goal with
  | |- context [match ?x with _ => _ end] =>
      lazymatch x with
      | context [match _ with _ => _ end] => fail
      | _ => first [ is_var x; destruct x
                   | let E := fresh "E" in destruct x eqn:E ]; cbn
      end
  end.

Ltac run oracle := cbn; repeat first [ ask oracle | branch ].

(** ** The locks controller *)

Module LocksSpec.

Import url server LockObs UrlFacts.

Lemma ishex_not_plus a : ishex a = true -> Ascii.eqb a "+" = false.
Proof.
  intros H. destruct (Ascii.eqb_spec a "+"%char) as [->|]; [|reflexivity].
  vm_compute in H. discriminate.
Qed.

Lemma decode_differs s :
  forall n h r,
    scan encodeQueryComponent s n h = Ok r ->
    strings.Contains s "+" = true ->
    decode encodeQueryComponent s <> decode encodePathSegment s.
Proof.
  induction s as [s IH] using string_length_ind.
  intros n h r Hs Hc.
  destruct s as [|c rest]; simpl in *; [discriminate|].
  destruct (Ascii.eqb c "%") eqn:Ep.
  - destruct rest as [|a [|b rest']]; try discriminate.
    destruct (ishex a && ishex b)%bool eqn:Hx; [|discriminate].
    apply andb_true_iff in Hx. destruct Hx as [Ha Hb].
    apply Ascii.eqb_eq in Ep. subst c. simpl in Hc.
    rewrite (ishex_not_plus a Ha), (ishex_not_plus b Hb) in Hc. simpl in Hc.
    intros Heq. inversion Heq as [Heq'].
    revert Heq'. eapply IH; eauto. simpl; lia.
  - destruct (Ascii.eqb c "+") eqn:Eplus.
    + simpl. intros Heq. inversion Heq.
    + simpl in Hc. intros Heq. inversion Heq as [Heq'].
      revert Heq'. eapply IH; eauto.
Qed.

Lemma decode_path_keeps_plus s :
  forall n h r,
    scan encodePathSegment s n h = Ok r ->
    strings.Contains s "+" = true ->
    strings.Contains (decode encodePathSegment s) "+" = true.
Proof.
  induction s as [s IH] using string_length_ind.
  intros n h r Hs Hc.
  destruct s as [|c rest]; simpl in *; [discriminate|].
  destruct (Ascii.eqb c "%") eqn:Ep.
  - destruct rest as [|a [|b rest']]; try discriminate.
    destruct (ishex a && ishex b)%bool eqn:Hx; [|discriminate].
    apply andb_true_iff in Hx. destruct Hx as [Ha Hb].
    apply Ascii.eqb_eq in Ep. subst c. simpl in Hc.
    rewrite (ishex_not_plus a Ha), (ishex_not_plus b Hb) in Hc. simpl in Hc.
    simpl. apply orb_true_iff. right. eapply IH; eauto. simpl; lia.
  - destruct (Ascii.eqb c "+") eqn:Eplus; simpl.
    + reflexivity.
    + rewrite Eplus. simpl. simpl in Hc. eapply IH; eauto.
Qed.

Lemma scan_plusAsSpace s :
  forall n h r n' h',
    scan encodeQueryComponent s n h = Ok r ->
    exists r', scan encodePathSegment (plusAsSpace s) n' h' = Ok r'.
Proof.
  induction s as [s IH] using string_length_ind.
  intros n h r n' h' Hs.
  destruct s as [|c rest]; simpl in *; [eauto|].
  destruct (Ascii.eqb c "%") eqn:Ep.
  - destruct rest as [|a [|b rest']]; try discriminate.
    destruct (ishex a && ishex b)%bool eqn:Hx; [|discriminate].
    pose proof Hx as Hx'.
    apply andb_true_iff in Hx'. destruct Hx' as [Ha Hb].
    apply Ascii.eqb_eq in Ep. subst c. simpl.
    rewrite (ishex_not_plus a Ha), (ishex_not_plus b Hb). simpl.
    rewrite Hx. eapply IH; eauto. simpl; lia.
  - destruct (Ascii.eqb c "+") eqn:Eplus; simpl.
    + eapply IH; eauto.
    + rewrite Ep, Eplus. eapply IH; eauto.
Qed.

Lemma decode_plusAsSpace s :
  forall n h r,
    scan encodeQueryComponent s n h = Ok r ->
    decode encodePathSegment (plusAsSpace s) = decode encodeQueryComponent s.
Proof.
  induction s as [s IH] using string_length_ind.
  intros n h r Hs.
  destruct s as [|c rest]; simpl in *; [reflexivity|].
  destruct (Ascii.eqb c "%") eqn:Ep.
  - destruct rest as [|a [|b rest']]; try discriminate.
    destruct (ishex a && ishex b)%bool eqn:Hx; [|discriminate].
    apply andb_true_iff in Hx. destruct Hx as [Ha Hb].
    apply Ascii.eqb_eq in Ep. subst c. simpl.
    rewrite (ishex_not_plus a Ha), (ishex_not_plus b Hb). simpl.
    f_equal. eapply IH; eauto. simpl; lia.
  - destruct (Ascii.eqb c "+") eqn:Eplus; simpl.
    + f_equal. eapply IH; eauto.
    + rewrite Ep, Eplus. f_equal. eapply IH; eauto.
Qed.

Lemma unescape_scan mode s k :
  unescape mode s = Ok k -> exists r, scan mode s 0 false = Ok r.
Proof.
  unfold unescape. destruct (scan mode s 0 false); [eauto|discriminate].
Qed.

Lemma contains_nonempty s c : strings.Contains s c = true -> String.eqb s "" = false.
Proof. destruct s; simpl; [discriminate|reflexivity]. Qed.

(** The store is asked about exactly one key by [GetLock], the id as
    [QueryUnescape] decodes it. *)
Lemma GetLock_storeKeys World (oracle : Oracle Call World) l id key w :
  QueryUnescape id = Ok key ->
  storeKeys (trace (snd (GetLock oracle l (Some id) (init w)))) = [key].
Proof.
  intros Hq. unfold GetLock, respond. rewrite Hq. go_unfold.
  run oracle; reflexivity.
Qed.

(** And by [DeleteLock], the id as [PathUnescape] decodes it. *)
Lemma DeleteLock_storeKeys World (oracle : Oracle Call World) l id key w :
  String.eqb id "" = false ->
  PathUnescape id = Ok key ->
  storeKeys (trace (snd (DeleteLock oracle l (Some id) (init w)))) = [key].
Proof.
  intros Hne Hp. unfold DeleteLock, commentBack, respond. rewrite Hne, Hp.
  go_unfold.
  run oracle; reflexivity.
Qed.

(** C10.  For an id that contains a ['+'] and that [GetLock] decodes, the
    two routes ask the lock store about different keys: [GetLock] reads
    every ['+'] as the escape of a space, [DeleteLock] keeps the ['+']. *)
Theorem GetLock_DeleteLock_keys_differ :
  forall World (oracle : Oracle Call World) l id key w,
    strings.Contains id "+" = true ->
    QueryUnescape id = Ok key ->
    exists key',
      PathUnescape id = Ok key'
      /\ key <> key'
      /\ PathUnescape (plusAsSpace id) = Ok key
      /\ strings.Contains key' "+" = true
      /\ storeKeys (trace (snd (GetLock oracle l (Some id) (init w)))) = [key]
      /\ storeKeys (trace (snd (DeleteLock oracle l (Some id) (init w)))) = [key'].
Proof.
  intros World oracle l id key w Hplus Hq.
  pose proof (unescape_Ok _ _ Hq) as Hk.
  pose proof (unescape_Ok_any encodeQueryComponent encodePathSegment _ Hq) as Hp.
  destruct (unescape_scan _ _ Hq) as [r Hr].
  destruct (unescape_scan _ _ Hp) as [r' Hr'].
  exists (decode encodePathSegment id).
  split; [exact Hp|].
  split; [subst key; eapply decode_differs; eauto|].
  split.
  { destruct (scan_plusAsSpace id 0 false 0 false Hr) as [r2 Hr2].
    assert (Hex : exists k2, PathUnescape (plusAsSpace id) = Ok k2).
    { unfold PathUnescape, unescape. rewrite Hr2. destruct r2 as [n2 h2].
      destruct (Nat.eqb n2 0 && negb h2)%bool; eauto. }
    destruct Hex as [k2 Hk2]. rewrite Hk2. f_equal.
    rewrite (unescape_Ok _ _ Hk2), Hk. eapply decode_plusAsSpace; eauto. }
  split; [eapply decode_path_keeps_plus; eauto|].
  split; [apply GetLock_storeKeys; assumption|].
  apply DeleteLock_storeKeys; [eapply contains_nonempty; eauto|assumption].
Qed.

Lemma GetLock_DeleteLock_keys_differ_witness :
  exists key',
    PathUnescape "acme%2Finfra+prod" = Ok key'
    /\ "acme/infra prod" <> key'
    /\ PathUnescape (plusAsSpace "acme%2Finfra+prod") = Ok "acme/infra prod"
    /\ strings.Contains key' "+" = true
    /\ storeKeys (trace (snd (GetLock
         (LocksScript.oracle (LocksScript.holding (Sample.lockOf "acme/infra" Sample.pull) None))
         LocksScript.controller (Some "acme%2Finfra+prod") (init 0%nat))))
       = ["acme/infra prod"]
    /\ storeKeys (trace (snd (DeleteLock
         (LocksScript.oracle (LocksScript.holding (Sample.lockOf "acme/infra" Sample.pull) None))
         LocksScript.controller (Some "acme%2Finfra+prod") (init 0%nat))))
       = [key'].
Proof.
  apply (GetLock_DeleteLock_keys_differ
           (LocksScript.oracle (LocksScript.holding (Sample.lockOf "acme/infra" Sample.pull) None))
           LocksScript.controller "acme%2Finfra+prod" 0%nat);
    reflexivity.
Defined.

Lemma Split_without_sep s sep :
  strings.Contains s sep = false -> strings.Split s sep = [s].
Proof.
  induction s as [|c rest IH]; simpl; [reflexivity|].
  intros H. apply orb_false_iff in H. destruct H as [Hc Hrest].
  rewrite Hc, (IH Hrest). reflexivity.
Qed.

Lemma Split_with_sep s sep :
  strings.Contains s sep = true ->
  exists a b rest, strings.Split s sep = a :: b :: rest.
Proof.
  induction s as [|c rest IH]; simpl; [discriminate|].
  intros H. destruct (Ascii.eqb c sep) eqn:Ec.
  - destruct rest as [|c' rest']; simpl; [eauto|].
    destruct (Ascii.eqb c' sep); [eauto|].
    destruct (strings.Split rest' sep); eauto.
  - simpl in H. destruct (IH H) as (a & b & tl & ->). eauto.
Qed.

(** [GetLock] on a lock whose repository full name has no ['/']. *)
Lemma GetLock_found_without_slash :
  forall World (oracle : Oracle Call World) l id key lock w w',
    QueryUnescape id = Ok key ->
    oracle _ (Locker_GetLock key) w = (Returns (Ok (Some lock)), w') ->
    strings.Contains (Project.RepoFullName (ProjectLock.Project lock)) "/" = false ->
    GetLock oracle l (Some id) (init w)
    = (Panics "runtime error: index out of range",
       {| collab := w';
          trace := [EvCall (Locker_GetLock key) (Returns (Ok (Some lock)))];
          history := [] |}).
Proof.
  intros World oracle l id key lock w w' Hq Hget Hc.
  unfold GetLock. rewrite Hq. go_unfold. cbn.
  rewrite Hget. cbn. rewrite (Split_without_sep _ _ Hc). reflexivity.
Qed.

(** [GetLock] on a lock whose repository full name has a ['/']. *)
Lemma GetLock_found_with_slash :
  forall World (oracle : Oracle Call World) l id key lock w w',
    QueryUnescape id = Ok key ->
    oracle _ (Locker_GetLock key) w = (Returns (Ok (Some lock)), w') ->
    strings.Contains (Project.RepoFullName (ProjectLock.Project lock)) "/" = true ->
    exists owner name rest r w'',
      strings.Split (Project.RepoFullName (ProjectLock.Project lock)) "/"
      = owner :: name :: rest
      /\ oracle _ (LockDetailTemplate_Execute (detail l id key lock owner name)) w'
         = (r, w'')
      /\ trace (snd (GetLock oracle l (Some id) (init w)))
         = [EvCall (Locker_GetLock key) (Returns (Ok (Some lock)));
            EvCall (LockDetailTemplate_Execute (detail l id key lock owner name)) r]
      /\ (forall a, r = Returns a ->
            status (GetLock oracle l (Some id) (init w)) = Some 200).
Proof.
  intros World oracle l id key lock w w' Hq Hget Hc.
  unfold status, GetLock. rewrite Hq. go_unfold. cbn.
  rewrite Hget. cbn.
  destruct (Split_with_sep _ _ Hc) as (owner & name & rest & Hs).
  rewrite Hs. cbn.
  destruct (oracle _ (LockDetailTemplate_Execute
                        (detail l id key lock owner name)) w') as [r w''] eqn:Ex.
  exists owner, name, rest, r, w''.
  split; [reflexivity|]. split; [exact Ex|].
  unfold detail in Ex. rewrite Ex. cbn.
  split; [destruct r; reflexivity|].
  intros a ->. reflexivity.
Qed.

(** C9.  When the store holds a lock at the id, [GetLock] panics with an
    index out of range, before anything is written to the response, if the
    repository full name of the lock has no ['/']; and it reaches the
    template, with the first two parts of the name, if it has one. *)
Theorem GetLock_needs_a_slash :
  forall World (oracle : Oracle Call World) l id key lock w w',
    QueryUnescape id = Ok key ->
    oracle _ (Locker_GetLock key) w = (Returns (Ok (Some lock)), w') ->
    let fullName := Project.RepoFullName (ProjectLock.Project lock) in
    let out := GetLock oracle l (Some id) (init w) in
    (strings.Contains fullName "/" = false ->
       out = (Panics "runtime error: index out of range",
              {| collab := w';
                 trace := [EvCall (Locker_GetLock key) (Returns (Ok (Some lock)))];
                 history := [] |})
       /\ status out = None)
    /\ (strings.Contains fullName "/" = true ->
        exists owner name rest r w'',
          strings.Split fullName "/" = owner :: name :: rest
          /\ oracle _ (LockDetailTemplate_Execute (detail l id key lock owner name)) w'
             = (r, w'')
          /\ trace (snd out)
             = [EvCall (Locker_GetLock key) (Returns (Ok (Some lock)));
                EvCall (LockDetailTemplate_Execute (detail l id key lock owner name)) r]
          /\ (forall a, r = Returns a -> status out = Some 200)).
Proof.
  intros World oracle l id key lock w w' Hq Hget fullName out.
  subst out fullName. split; intros Hc.
  - rewrite (GetLock_found_without_slash oracle l id w Hq Hget Hc).
    split; reflexivity.
  - apply (GetLock_found_with_slash oracle l id w Hq Hget Hc).
Qed.

Lemma GetLock_needs_a_slash_witness :
  url.QueryUnescape "norepo%2F.%2Fdefault" = Ok "norepo/./default"
  /\ strings.Contains "norepo" "/" = false
  /\ GetLock (LocksScript.oracle (LocksScript.holding (Sample.lockOf "norepo" Sample.pull) None))
             LocksScript.controller (Some "norepo%2F.%2Fdefault") (init 0%nat)
     = (Panics "runtime error: index out of range",
        {| collab := 1%nat;
           trace := [EvCall (Locker_GetLock "norepo/./default")
                            (Returns (Ok (Some (Sample.lockOf "norepo" Sample.pull))))];
           history := [] |})
  /\ status (GetLock (LocksScript.oracle
                        (LocksScript.holding (Sample.lockOf "norepo" Sample.pull) None))
                     LocksScript.controller (Some "norepo%2F.%2Fdefault") (init 0%nat))
     = None.
Proof.
  split; [reflexivity|]. split; [reflexivity|].
  apply (proj1 (GetLock_needs_a_slash
                  (LocksScript.oracle
                     (LocksScript.holding (Sample.lockOf "norepo" Sample.pull) None))
                  LocksScript.controller "norepo%2F.%2Fdefault" 0%nat
                  eq_refl eq_refl)).
  reflexivity.
Defined.

(** C3.  Once [Locker.Unlock] has removed a lock whose pull request has a
    base repository, a [DeleteLock] that returns has asked for the
    working-directory lock once, has logged at error level the failure to
    obtain it (and then deleted nothing) or what the deletion returned,
    and has posted the comment on the pull request whatever the two
    answered.  The response is decided by the comment alone: [respond]
    writes 500 with the error of the comment when posting it failed, and
    200 otherwise. *)
Theorem DeleteLock_after_unlock :
  forall World (oracle : Oracle Call World) l id w lock,
    let out := DeleteLock oracle l id (init w) in
    let tr := trace (snd out) in
    fst out = Returns tt ->
    unlocked tr = [Returns (Ok (Some lock))] ->
    PullRequest.BaseRepo (ProjectLock.Pull lock) <> Repo.zero ->
    exists id0 t c,
      id = Some id0
      /\ tryLocked tr = [Returns t]
      /\ match t with
         | Err e =>
             In (Str "unable to obtain working dir lock when trying to delete old plans",
                 [("err", AErr (Some e))])
                (errorLines tr)
             /\ deleted tr = []
         | Ok _ =>
             exists d,
               deleted tr = [Returns d]
               /\ In (Str "unable to delete workspace", [("err", AErr d)])
                     (errorLines tr)
         end
      /\ LockObsMore.commentCalls tr
         = [(PullRequest.BaseRepo (ProjectLock.Pull lock),
             PullRequest.Num (ProjectLock.Pull lock),
             discardedComment lock)]
      /\ commented tr = [Returns c]
      /\ match c with
         | Some e =>
             status out = Some 500
             /\ LockObsMore.headers tr = [500]
             /\ LockObsMore.bodies tr
                = [Sprintf "Failed commenting on pull request: %s" [AErr (Some e)]]
         | None =>
             status out = Some 200
             /\ LockObsMore.headers tr = [200]
             /\ LockObsMore.bodies tr = [Sprintf "Deleted lock id %q" [AStr id0]]
         end.
Proof.
  intros World oracle l id w lock out tr. subst tr out.
  unfold status, DeleteLock, commentBack, respond. go_unfold.
  destruct l as [version [lctx handler]].
  run oracle;
    intros Hret Hun Hbase; try discriminate Hret; try discriminate Hun;
    inversion Hun; subst; clear Hun; try contradiction;
    eexists _, _, _; (split; [reflexivity|]); (split; [reflexivity|]);
    cbn; repeat split; eauto.
Qed.

Lemma DeleteLock_after_unlock_witness :
  let lock := Sample.lockOf "acme/infra" Sample.pull in
  let busy := DeleteLock
                (LocksScript.oracle
                   (LocksScript.holding lock (Some (errors_New "502 Bad Gateway"))))
                LocksScript.controller (Some "acme%2Finfra%2F.%2Fdefault")
                (init 0%nat) in
  let stuck := DeleteLock
                 (LocksScript.oracle (LocksCases.undeletable lock (Returns None)))
                 LocksScript.controller (Some "acme%2Finfra%2F.%2Fdefault")
                 (init 0%nat) in
  (tryLocked (trace (snd busy))
   = [Returns (Err (errors_New "the default workspace is currently locked"))]
   /\ commented (trace (snd busy)) = [Returns (Some (errors_New "502 Bad Gateway"))]
   /\ status busy = Some 500)
  /\ (deleted (trace (snd stuck)) = [Returns (Some (errors_New "permission denied"))]
      /\ commented (trace (snd stuck)) = [Returns None]
      /\ status stuck = Some 200)
  /\ (exists id0 t c,
        Some "acme%2Finfra%2F.%2Fdefault" = Some id0
        /\ tryLocked (trace (snd busy)) = [Returns t]
        /\ match t with
           | Err e =>
               In (Str "unable to obtain working dir lock when trying to delete old plans",
                   [("err", AErr (Some e))])
                  (errorLines (trace (snd busy)))
               /\ deleted (trace (snd busy)) = []
           | Ok _ =>
               exists d,
                 deleted (trace (snd busy)) = [Returns d]
                 /\ In (Str "unable to delete workspace", [("err", AErr d)])
                       (errorLines (trace (snd busy)))
           end
        /\ LockObsMore.commentCalls (trace (snd busy))
           = [(PullRequest.BaseRepo (ProjectLock.Pull lock),
               PullRequest.Num (ProjectLock.Pull lock),
               discardedComment lock)]
        /\ commented (trace (snd busy)) = [Returns c]
        /\ match c with
           | Some e =>
               status busy = Some 500
               /\ LockObsMore.headers (trace (snd busy)) = [500]
               /\ LockObsMore.bodies (trace (snd busy))
                  = [Sprintf "Failed commenting on pull request: %s" [AErr (Some e)]]
           | None =>
               status busy = Some 200
               /\ LockObsMore.headers (trace (snd busy)) = [200]
               /\ LockObsMore.bodies (trace (snd busy)) = [Sprintf "Deleted lock id %q" [AStr id0]]
           end)
  /\ (exists id0 t c,
        Some "acme%2Finfra%2F.%2Fdefault" = Some id0
        /\ tryLocked (trace (snd stuck)) = [Returns t]
        /\ match t with
           | Err e =>
               In (Str "unable to obtain working dir lock when trying to delete old plans",
                   [("err", AErr (Some e))])
                  (errorLines (trace (snd stuck)))
               /\ deleted (trace (snd stuck)) = []
           | Ok _ =>
               exists d,
                 deleted (trace (snd stuck)) = [Returns d]
                 /\ In (Str "unable to delete workspace", [("err", AErr d)])
                       (errorLines (trace (snd stuck)))
           end
        /\ LockObsMore.commentCalls (trace (snd stuck))
           = [(PullRequest.BaseRepo (ProjectLock.Pull lock),
               PullRequest.Num (ProjectLock.Pull lock),
               discardedComment lock)]
        /\ commented (trace (snd stuck)) = [Returns c]
        /\ match c with
           | Some e =>
               status stuck = Some 500
               /\ LockObsMore.headers (trace (snd stuck)) = [500]
               /\ LockObsMore.bodies (trace (snd stuck))
                  = [Sprintf "Failed commenting on pull request: %s" [AErr (Some e)]]
           | None =>
               status stuck = Some 200
               /\ LockObsMore.headers (trace (snd stuck)) = [200]
               /\ LockObsMore.bodies (trace (snd stuck)) = [Sprintf "Deleted lock id %q" [AStr id0]]
           end).
Proof.
  intros lock busy stuck.
  assert (Hb1 : fst busy = Returns tt) by (vm_compute; reflexivity).
  assert (Hb2 : unlocked (trace (snd busy)) = [Returns (Ok (Some lock))])
    by (vm_compute; reflexivity).
  assert (Hs1 : fst stuck = Returns tt) by (vm_compute; reflexivity).
  assert (Hs2 : unlocked (trace (snd stuck)) = [Returns (Ok (Some lock))])
    by (vm_compute; reflexivity).
  assert (Hbase : PullRequest.BaseRepo (ProjectLock.Pull lock) <> Repo.zero)
    by discriminate.
  split; [repeat split; vm_compute; reflexivity|].
  split; [repeat split; vm_compute; reflexivity|].
  split.
  - exact (DeleteLock_after_unlock _ _ _ _ Hb1 Hb2 Hbase).
  - exact (DeleteLock_after_unlock _ _ _ _ Hs1 Hs2 Hbase).
Defined.



(** The store answers [GetLock] with a lock whose repository full name is
    [norepo]: the handler panics, and the client gets no 200. *)
Lemma GetLock_found_is_not_always_200 :
  let oracle := LocksScript.oracle
                  (LocksScript.holding (Sample.lockOf "norepo" Sample.pull) None) in
  let out := GetLock oracle LocksScript.controller
                     (Some "norepo%2F.%2Fdefault") (init 0%nat) in
  url.QueryUnescape "norepo%2F.%2Fdefault" = Ok "norepo/./default"
  /\ oracle _ (Locker_GetLock "norepo/./default") 0%nat
     = (Returns (Ok (Some (Sample.lockOf "norepo" Sample.pull))), 1%nat)
  /\ fst out = Panics "runtime error: index out of range"
  /\ status out <> Some 200.
Proof.
  repeat split; try reflexivity. vm_compute. discriminate.
Qed.

(** C5.  [GetLock]: an id that [QueryUnescape] refuses is
    answered 400 and the store is neither asked nor changed; a store error
    is answered 500; no lock at the id, 404; a lock whose repository full
    name has a ['/'] is rendered through the template, which is a 200 when
    the template returns.  [DeleteLock]: an id that [PathUnescape] refuses
    is answered 400 and the store is neither asked nor changed. *)
Theorem lock_routes_status :
  forall World (oracle : Oracle Call World) l id w,
    let get := GetLock oracle l (Some id) (init w) in
    let del := DeleteLock oracle l (Some id) (init w) in
    (forall e, QueryUnescape id = Err e ->
       status get = Some 400
       /\ trace (snd get)
          = [EvLog (LocksController.Logger l)
                   {| LogRecord.Level := LvlWarn;
                      LogRecord.Msg := Sprintf "Invalid lock id: %s" [AErr (Some e)];
                      LogRecord.KeyVals := [] |};
             EvWriteHeader 400;
             EvWrite (Sprintf "Invalid lock id: %s" [AErr (Some e)])]
       /\ collab (snd get) = w)
    /\ (forall key e w',
          QueryUnescape id = Ok key ->
          oracle _ (Locker_GetLock key) w = (Returns (Err e), w') ->
          status get = Some 500)
    /\ (forall key w',
          QueryUnescape id = Ok key ->
          oracle _ (Locker_GetLock key) w = (Returns (Ok None), w') ->
          status get = Some 404)
    /\ (forall key lock w',
          QueryUnescape id = Ok key ->
          oracle _ (Locker_GetLock key) w = (Returns (Ok (Some lock)), w') ->
          strings.Contains (Project.RepoFullName (ProjectLock.Project lock)) "/" = true ->
          exists owner name rest r w'',
            strings.Split (Project.RepoFullName (ProjectLock.Project lock)) "/"
            = owner :: name :: rest
            /\ oracle _ (LockDetailTemplate_Execute (detail l id key lock owner name)) w'
               = (r, w'')
            /\ trace (snd get)
               = [EvCall (Locker_GetLock key) (Returns (Ok (Some lock)));
                  EvCall (LockDetailTemplate_Execute (detail l id key lock owner name)) r]
            /\ (forall a, r = Returns a -> status get = Some 200))
    /\ (forall e, PathUnescape id = Err e ->
          status del = Some 400
          /\ trace (snd del)
             = [EvLog (LocksController.Logger l)
                      {| LogRecord.Level := LvlWarn;
                         LogRecord.Msg :=
                           Sprintf "Invalid lock id %q. Failed with error: %s"
                                   [AStr id; AErr (Some e)];
                         LogRecord.KeyVals := [] |};
                EvWriteHeader 400;
                EvWrite (Sprintf "Invalid lock id %q. Failed with error: %s"
                                 [AStr id; AErr (Some e)])]
          /\ collab (snd del) = w).
Proof.
  intros World oracle l id w get del. subst get del.
  split; [|split; [|split; [|split]]].
  - intros e Hq. unfold status, GetLock, respond. rewrite Hq. go_unfold. cbn.
    repeat split.
  - intros key e w' Hq Hget. unfold status, GetLock, respond. rewrite Hq.
    go_unfold. cbn. rewrite Hget. reflexivity.
  - intros key w' Hq Hget. unfold status, GetLock, respond. rewrite Hq.
    go_unfold. cbn. rewrite Hget. reflexivity.
  - intros key lock w' Hq Hget Hc.
    apply (GetLock_found_with_slash oracle l id w Hq Hget Hc).
  - intros e Hp. unfold status, DeleteLock, respond.
    destruct (String.eqb id "") eqn:Hid.
    + apply String.eqb_eq in Hid. subst id. discriminate Hp.
    + rewrite Hp. go_unfold. cbn. repeat split.
Qed.

Lemma lock_routes_status_witness :
  QueryUnescape "acme%2" = Err (url_EscapeError "%2")
  /\ let get := GetLock (LocksScript.oracle
                           (LocksScript.holding (Sample.lockOf "acme/infra" Sample.pull) None))
                        LocksScript.controller (Some "acme%2") (init 0%nat) in
     status get = Some 400
     /\ trace (snd get)
        = [EvLog (LocksController.Logger LocksScript.controller)
                 {| LogRecord.Level := LvlWarn;
                    LogRecord.Msg :=
                      Sprintf "Invalid lock id: %s"
                              [AErr (Some (url_EscapeError "%2"))];
                    LogRecord.KeyVals := [] |};
           EvWriteHeader 400;
           EvWrite (Sprintf "Invalid lock id: %s"
                            [AErr (Some (url_EscapeError "%2"))])]
     /\ collab (snd get) = 0%nat.
Proof.
  split; [reflexivity|].
  exact (proj1 (lock_routes_status
                  (LocksScript.oracle
                     (LocksScript.holding (Sample.lockOf "acme/infra" Sample.pull) None))
                  LocksScript.controller "acme%2" 0%nat)
               (url_EscapeError "%2") eq_refl).
Defined.

End LocksSpec.

(** ** The command runner *)

Module RunnerSpec.

Import events Obs.
Local Open Scope list_scope.
Local Unset Implicit Arguments.

Lemma collect_app {A B} (f : A -> option B) (l1 l2 : list A) :
  collect f (l1 ++ l2) = collect f l1 ++ collect f l2.
Proof.
  induction l1 as [|a l1 IH]; simpl; [reflexivity|].
  destruct (f a); simpl; rewrite IH; reflexivity.
Qed.

Lemma collect_none {A B} (f : A -> option B) (l : list A) :
  (forall a, In a l -> f a = None) -> collect f l = [].
Proof.
  induction l as [|a l IH]; simpl; intros H; [reflexivity|].
  rewrite (H a (or_introl eq_refl)). apply IH. auto.
Qed.

(** A collaborator that the hypothesis says returns cannot have panicked. *)
Ltac returned Hc Hs :=
  match goal with
  | E : _ _ (VCSClient_CreateComment ?r ?n ?t) ?w = (Panics _, _) |- _ =>
      let e := fresh in let w' := fresh in let He := fresh in
      destruct (Hc r n t w) as (e & w' & He); rewrite He in E; discriminate E
  | E : _ _ (recovery_Stack ?k) ?w = (Panics _, _) |- _ =>
      let e := fresh in let w' := fresh in let He := fresh in
      destruct (Hs k w) as (e & w' & He); rewrite He in E; discriminate E
  end.

(** C8.  A comment command for a host whose pull getter is
    nil ends at once: the configuration error is written to the log of the
    pull request at error level, and nothing else happens: no collaborator
    is called, so no commit status is updated and no comment is posted. *)
Theorem missing_pull_getter_is_only_logged :
  forall World (oracle : Oracle Call World) c logger baseRepo maybeHeadRepo
         user pullNum cmd w msg,
    notConfigured c baseRepo = Some msg ->
    let line := {| LogRecord.Level := LvlError;
                   LogRecord.Msg := ErrorString (errors_New msg);
                   LogRecord.KeyVals := [] |} in
    let out := RunCommentCommand oracle c logger baseRepo maybeHeadRepo user
                                 pullNum cmd (init w) in
    out = (Returns tt,
           {| collab := w;
              trace := [EvLog (pullLogger logger (Repo.FullName baseRepo) pullNum) line];
              history := [line] |})
    /\ statuses (trace (snd out)) = []
    /\ reported (trace (snd out)) = []
    /\ comments (trace (snd out)) = [].
Proof.
  intros World oracle c logger baseRepo maybeHeadRepo user pullNum cmd w msg Hn
         line out.
  assert (Hout : out = (Returns tt,
           {| collab := w;
              trace := [EvLog (pullLogger logger (Repo.FullName baseRepo) pullNum) line];
              history := [line] |})).
  { subst out line. unfold notConfigured in Hn.
    unfold RunCommentCommand, resolvePull, getGithubData, getGitlabData, buildLogger.
    go_unfold.
    destruct (VCSHost.Type_ (Repo.VCSHost baseRepo)); [| |discriminate].
    - destruct (DefaultCommandRunner.GithubPullGetter c); [|discriminate].
      inversion Hn; subst. reflexivity.
    - destruct (DefaultCommandRunner.GitlabMergeRequestGetter c); [|discriminate].
      inversion Hn; subst. reflexivity. }
  rewrite Hout. repeat split.
Qed.

Lemma missing_pull_getter_is_only_logged_witness :
  let line := {| LogRecord.Level := LvlError;
                 LogRecord.Msg :=
                   ErrorString (errors_New "Atlantis not configured to support GitHub");
                 LogRecord.KeyVals := [] |} in
  let out := RunCommentCommand (RunnerScript.oracle RunnerScript.steady)
               RunnerScript.gitlabOnly Sample.rootLogger Sample.repo None
               Sample.alice 7 RunnerScript.planComment (init 0%nat) in
  out = (Returns tt,
         {| collab := 0%nat;
            trace := [EvLog (pullLogger Sample.rootLogger
                                        (Repo.FullName Sample.repo) 7) line];
            history := [line] |})
  /\ statuses (trace (snd out)) = []
  /\ reported (trace (snd out)) = []
  /\ comments (trace (snd out)) = [].
Proof.
  exact (missing_pull_getter_is_only_logged
           nat (RunnerScript.oracle RunnerScript.steady) RunnerScript.gitlabOnly
           Sample.rootLogger Sample.repo None Sample.alice 7
           RunnerScript.planComment 0%nat _ eq_refl).
Defined.

(** A runner with no GitHub pull getter receives a plan comment on a
    GitHub pull request: the error reaches neither the commit status nor a
    comment. *)
Lemma missing_pull_getter_not_reported :
  let out := RunCommentCommand (RunnerScript.oracle RunnerScript.steady)
               RunnerScript.gitlabOnly Sample.rootLogger Sample.repo None
               Sample.alice 7 RunnerScript.planComment (init 0%nat) in
  DefaultCommandRunner.GithubPullGetter RunnerScript.gitlabOnly = nil_iface
  /\ VCSHost.Type_ (Repo.VCSHost Sample.repo) = Github
  /\ fst out = Returns tt
  /\ reported (trace (snd out)) = []
  /\ statuses (trace (snd out)) = []
  /\ comments (trace (snd out)) = []
  /\ levels (trace (snd out)) = [LvlError].
Proof. repeat split. Qed.

(** *** Validation *)

Lemma validate_valid World (oracle : Oracle Call World) c ctx st :
  valid c ctx = true ->
  validateCtxAndComment oracle c ctx st = (Returns true, st).
Proof.
  unfold valid, forkRefused, validateCtxAndComment. intros H.
  apply andb_true_iff in H. destruct H as [Hf Hs].
  apply negb_true_iff in Hf. rewrite Hf.
  destruct (PullRequest.State (CommandContext.Pull ctx)); [reflexivity|discriminate].
Qed.

Lemma validate_invalid World (oracle : Oracle Call World) c ctx st :
  comment_returns oracle ->
  valid c ctx = false ->
  exists e st',
    validateCtxAndComment oracle c ctx st = (Returns false, st')
    /\ trace st'
       = trace st
         ++ [EvLog (CommandContext.Logger ctx) (infoLine (rejectionLine c ctx));
             EvCall (VCSClient_CreateComment (CommandContext.BaseRepo ctx)
                       (PullRequest.Num (CommandContext.Pull ctx))
                       (rejection c ctx))
                    (Returns e)].
Proof.
  intros Hc Hv. unfold valid in Hv.
  unfold validateCtxAndComment, rejection, rejectionLine, infoLine.
  fold (forkRefused c ctx).
  destruct (forkRefused c ctx) eqn:Hf; go_unfold; cbn.
  - match goal with
    | |- context [oracle ?X ?call ?w] =>
        destruct (Hc (CommandContext.BaseRepo ctx)
                     (PullRequest.Num (CommandContext.Pull ctx))
                     (Sprintf "Atlantis commands can't be run on fork pull requests. To enable, set --%s"
                              [AStr (DefaultCommandRunner.AllowForkPRsFlag c)])
                     w) as (e & w' & He)
    end.
    rewrite He. cbn. eexists e, _. split; [reflexivity|].
    cbn. rewrite <- app_assoc. reflexivity.
  - cbn in Hv.
    destruct (PullRequest.State (CommandContext.Pull ctx)); [discriminate|].
    cbn.
    match goal with
    | |- context [oracle ?X ?call ?w] =>
        destruct (Hc (CommandContext.BaseRepo ctx)
                     (PullRequest.Num (CommandContext.Pull ctx))
                     (Str "Atlantis commands can't be run on closed pull requests")
                     w) as (e & w' & He)
    end.
    rewrite He. cbn. eexists e, _. split; [reflexivity|].
    cbn. rewrite <- app_assoc. reflexivity.
Qed.

(** *** Pull resolution *)

(** Pull resolution calls the getter and the parser only: it posts no
    comment, updates no status and writes no log line; it returns unless
    one of the two panics. *)
Lemma resolvePull_quiet World (oracle : Oracle Call World) c baseRepo headRepo
      pullNum st r st' :
  resolvePull oracle c baseRepo headRepo pullNum st = (r, st') ->
  exists evs,
    trace st' = trace st ++ evs
    /\ history st' = history st
    /\ comments evs = [] /\ statuses evs = [] /\ reported evs = []
    /\ levels evs = [] /\ plans evs = [] /\ built evs = []
    /\ match r with
       | Returns _ => panics evs = []
       | Panics v => panics evs = [v]
       end.
Proof.
  unfold resolvePull, getGithubData, getGitlabData. go_unfold.
  run oracle; intros H; inversion H; subst; clear H; cbn;
    rewrite <- ?app_assoc;
    (eexists; split; [try reflexivity; symmetry; apply app_nil_r|]);
    repeat split.
Qed.

(** *** The loop over the units *)

Lemma planAll_returns World (oracle : Oracle Call World) cmds :
  forall results st out st',
    planAll oracle cmds results st = (Returns out, st') ->
    exists rs,
      length rs = length cmds
      /\ out = results ++ zipResults cmds rs
      /\ trace st' = trace st ++ planEvents cmds rs
      /\ history st' = history st.
Proof.
  induction cmds as [|cmd rest IH]; intros results st out st' H; simpl in H.
  - inversion H; subst. exists []. cbn. rewrite !app_nil_r. auto.
  - unfold bind, call in H.
    destruct (oracle _ (ProjectCommandRunner_Plan cmd) (collab st)) as [[r|v] w'];
      [|discriminate].
    apply IH in H. destruct H as (rs & Hlen & Hout & Htr & Hh).
    exists (r :: rs). cbn in *.
    rewrite Hout, Htr, Hh, <- !app_assoc. cbn. auto.
Qed.

Lemma planAll_panics World (oracle : Oracle Call World) cmds :
  forall results st v st',
    planAll oracle cmds results st = (Panics v, st') ->
    exists rs cmd,
      (length rs < length cmds)%nat
      /\ trace st' = trace st ++ planEvents cmds rs
                     ++ [EvCall (ProjectCommandRunner_Plan cmd) (Panics v)]
      /\ history st' = history st.
Proof.
  induction cmds as [|cmd rest IH]; intros results st v st' H; simpl in H.
  - discriminate.
  - unfold bind, call in H.
    destruct (oracle _ (ProjectCommandRunner_Plan cmd) (collab st)) as [[r|v'] w'].
    + apply IH in H. destruct H as (rs & cmd' & Hlen & Htr & Hh).
      exists (r :: rs), cmd'. cbn in *.
      rewrite Htr, Hh, <- !app_assoc. cbn. split; [lia|auto].
    + inversion H; subst. exists [], cmd. cbn. split; [lia|auto].
Qed.

Lemma planEvents_silent {B} (f : Event Call -> option B) cmds rs :
  (forall cmd r, f (EvCall (ProjectCommandRunner_Plan cmd) (Returns r)) = None) ->
  collect f (planEvents cmds rs) = [].
Proof.
  intros Hf. apply collect_none. intros a Ha.
  unfold planEvents in Ha. apply in_map_iff in Ha.
  destruct Ha as ([cmd r] & <- & _). apply Hf.
Qed.

Lemma plans_planEvents cmds rs :
  plans (planEvents cmds rs) = combine cmds (map (@Returns _) rs).
Proof.
  unfold plans, planEvents. revert rs.
  induction cmds as [|cmd cmds IH]; intros [|r rs]; cbn; try reflexivity.
  rewrite IH. reflexivity.
Qed.

Lemma comments_planEvents cmds rs : comments (planEvents cmds rs) = [].
Proof. apply planEvents_silent. reflexivity. Qed.

Lemma panics_planEvents cmds rs : panics (planEvents cmds rs) = [].
Proof. apply planEvents_silent. reflexivity. Qed.

Lemma reported_planEvents cmds rs : reported (planEvents cmds rs) = [].
Proof. apply planEvents_silent. reflexivity. Qed.

Lemma built_planEvents cmds rs : built (planEvents cmds rs) = [].
Proof. apply planEvents_silent. reflexivity. Qed.

Lemma comments_app l1 l2 : comments (l1 ++ l2) = comments l1 ++ comments l2.
Proof. apply collect_app. Qed.

Lemma panics_app l1 l2 : panics (l1 ++ l2) = panics l1 ++ panics l2.
Proof. apply collect_app. Qed.

Lemma plans_app l1 l2 : plans (l1 ++ l2) = plans l1 ++ plans l2.
Proof. apply collect_app. Qed.

Lemma reported_app l1 l2 : reported (l1 ++ l2) = reported l1 ++ reported l2.
Proof. apply collect_app. Qed.

Lemma built_app l1 l2 : built (l1 ++ l2) = built l1 ++ built l2.
Proof. apply collect_app. Qed.

Create Rewrite HintDb trace_proj.
#[local] Hint Rewrite comments_app panics_app plans_app reported_app built_app
  comments_planEvents panics_planEvents reported_planEvents built_planEvents
  plans_planEvents : trace_proj.

(** *** Reporting the result *)

(** [updatePull] hands [result] to the status updater exactly once, runs
    no plan, and - on the history logger, with a comment client that
    returns - posts exactly one comment unless a collaborator panics, in
    which case it has posted none. *)
Lemma updatePull_spec World (oracle : Oracle Call World) T
      (I : CommandInterface T) c ctx (command : T) result st r st' :
  updatePull oracle c ctx command result st = (r, st') ->
  exists evs,
    trace st' = trace st ++ evs
    /\ plans evs = [] /\ built evs = [] /\ reported evs = [result]
    /\ (CommandResult.Error result = None ->
        CommandResult.Failure result = ""%string ->
        exists r0 post,
          evs = EvCall (CommitStatusUpdater_UpdateProjectResult ctx
                          (CommandName_of command) result) r0 :: post)
    /\ (comment_returns oracle ->
        Logger.Handler (CommandContext.Logger ctx) = HistoryHandler ->
        outcome r 1 evs).
Proof.
  unfold updatePull, warnStatus, outcome. go_unfold.
  destruct result as [rerr rfail rres].
  run oracle;
    intros Heq; inversion Heq; subst; clear Heq; cbn;
    rewrite <- ?app_assoc;
    (eexists; split; [reflexivity|]);
    cbn; repeat split; intros; try discriminate; subst; cbn in *;
    try discriminate; eauto;
    try (exfalso; returned H H);
    try congruence.
Qed.

(** [logPanics] runs no plan and reports no result; with a comment client
    and a stack helper that return, it returns, having posted the panic
    and logged it at error level. *)
Lemma logPanics_quiet World (oracle : Oracle Call World) c ctx recovered st :
  exists evs,
    trace (snd (logPanics oracle c ctx recovered st)) = trace st ++ evs
    /\ plans evs = [] /\ built evs = [] /\ reported evs = [].
Proof.
  unfold logPanics. go_unfold. destruct recovered as [v|]; cbn.
  - run oracle; rewrite <- ?app_assoc;
      (eexists; split; [reflexivity|]); repeat split.
  - exists []. rewrite app_nil_r. repeat split.
Qed.

Lemma logPanics_reports World (oracle : Oracle Call World) c ctx v st :
  reporting_returns oracle ->
  exists stack e,
    fst (logPanics oracle c ctx (Some v) st) = Returns tt
    /\ trace (snd (logPanics oracle c ctx (Some v) st))
       = trace st ++ panicReport ctx v stack e.
Proof.
  intros [Hc Hs]. unfold logPanics, panicReport. go_unfold. cbn.
  destruct (Hs 3 (collab st)) as (stack & w1 & E1). rewrite E1. cbn.
  match goal with
  | |- context [oracle _ (VCSClient_CreateComment ?r ?n ?t) ?w] =>
      destruct (Hc r n t w) as (e & w2 & E2)
  end.
  rewrite E2. cbn. exists stack, e. rewrite <- !app_assoc. split; reflexivity.
Qed.

(** *** The guarded part of the two entry points *)

#[local] Arguments updatePull : simpl never.
#[local] Arguments planAll : simpl never.
#[local] Arguments validateCtxAndComment : simpl never.

Lemma validate_cases World (oracle : Oracle Call World) c ctx st r st' :
  comment_returns oracle ->
  validateCtxAndComment oracle c ctx st = (r, st') ->
  (valid c ctx = true /\ r = Returns true /\ st' = st)
  \/ (valid c ctx = false /\ r = Returns false
      /\ exists e,
          trace st'
          = trace st
            ++ [EvLog (CommandContext.Logger ctx) (infoLine (rejectionLine c ctx));
                EvCall (VCSClient_CreateComment (CommandContext.BaseRepo ctx)
                          (PullRequest.Num (CommandContext.Pull ctx))
                          (rejection c ctx))
                       (Returns e)]).
Proof.
  intros Hc H. destruct (valid c ctx) eqn:Hv.
  - left. rewrite (validate_valid _ oracle c ctx st Hv) in H.
    inversion H; subst. auto.
  - right. destruct (validate_invalid _ oracle c ctx st Hc Hv) as (e & st1 & H1 & Htr).
    rewrite H1 in H. inversion H; subst. eauto.
Qed.

(** The end of a guarded body: the body has returned or panicked with the
    events [pre] behind it, or it ends in [updatePull]. *)
Ltac finish Hc Hh :=
  let Heq := fresh "Heq" in
  intros Heq;
  lazymatch type of Heq with
  | updatePull _ _ _ _ _ _ = _ =>
      let uevs := fresh "uevs" in
      let Hutr := fresh "Hutr" in
      let Huout := fresh "Huout" in
      apply updatePull_spec in Heq;
      destruct Heq as (uevs & Hutr & _ & _ & _ & _ & Huout);
      specialize (Huout Hc Hh); rewrite Hutr
  | _ => inversion Heq; subst; clear Heq
  end;
  repeat match goal with
         | E : planAll _ _ _ _ = (Returns _, _) |- _ =>
             let rs := fresh "rs" in
             apply planAll_returns in E;
             destruct E as (rs & _ & _ & E & _); rewrite E
         | E : planAll _ _ _ _ = (Panics _, _) |- _ =>
             let rs := fresh "rs" in
             let cmd := fresh "cmd" in
             apply planAll_panics in E;
             destruct E as (rs & cmd & _ & E & _); rewrite E
         end;
  cbn; rewrite <- ?app_assoc;
  (eexists; split; [reflexivity|]);
  unfold outcome in *;
  try match goal with
      | |- match ?r with _ => _ end => destruct r
      end;
  autorewrite with trace_proj; cbn;
  try match goal with
      | H : _ /\ _ |- _ => destruct H as [-> ->]
      end;
  try (split; reflexivity).

Lemma autoplanBody_outcome World (oracle : Oracle Call World) c ctx st r st' :
  comment_returns oracle ->
  Logger.Handler (CommandContext.Logger ctx) = HistoryHandler ->
  autoplanBody oracle c ctx st = (r, st') ->
  exists evs, trace st' = trace st ++ evs /\ outcome r 1 evs.
Proof.
  intros Hc Hh. unfold autoplanBody. unfold bind at 1.
  destruct (validateCtxAndComment oracle c ctx st) as [rv stv] eqn:Ev.
  destruct (validate_cases _ oracle c ctx st rv stv Hc Ev)
    as [(Hv & -> & ->)|(Hv & -> & e & Htr)]; cbn.
  - unfold warnStatus. go_unfold. rewrite ?Hh.
    run oracle; finish Hc Hh.
  - unfold ret. intros H. inversion H; subst. rewrite Htr.
    eexists; split; [reflexivity|]. split; reflexivity.
Qed.

Lemma commentBody_outcome World (oracle : Oracle Call World) c ctx cmd st r st' :
  comment_returns oracle ->
  Logger.Handler (CommandContext.Logger ctx) = HistoryHandler ->
  commentBody oracle c ctx cmd st = (r, st') ->
  exists evs,
    trace st' = trace st ++ evs
    /\ outcome r (if (valid c ctx && unknownCommand cmd)%bool then 0 else 1) evs.
Proof.
  intros Hc Hh. unfold commentBody, unknownCommand. unfold bind at 1.
  destruct (validateCtxAndComment oracle c ctx st) as [rv stv] eqn:Ev.
  destruct (validate_cases _ oracle c ctx st rv stv Hc Ev)
    as [(Hv & -> & ->)|(Hv & -> & e & Htr)]; rewrite Hv; cbn.
  - unfold warnStatus. go_unfold. rewrite ?Hh.
    destruct (CommentCommand.Name cmd); run oracle; finish Hc Hh.
  - unfold ret. intros H. inversion H; subst. rewrite Htr.
    eexists; split; [reflexivity|]. split; reflexivity.
Qed.

(** *** The units of an autoplan *)

Ltac use_planAll :=
  repeat match goal with
         | E : planAll _ _ _ _ = (Returns _, _) |- _ =>
             let rs := fresh "rs" in
             let Hlen := fresh "Hlen" in
             let Hout := fresh "Hout" in
             apply planAll_returns in E;
             destruct E as (rs & Hlen & Hout & E & _); rewrite E; cbn in Hout;
             subst
         | E : planAll _ _ _ _ = (Panics _, _) |- _ =>
             let rs := fresh "rs" in
             let cmd := fresh "cmd" in
             apply planAll_panics in E;
             destruct E as (rs & cmd & _ & E & _); rewrite E
         end.

Ltac units_leaf :=
  let Heq := fresh "Heq" in
  let Hb := fresh "Hb" in
  let Hnp := fresh "Hnp" in
  let uevs := fresh "uevs" in
  let Hutr := fresh "Hutr" in
  let Hupl := fresh "Hupl" in
  let Hubt := fresh "Hubt" in
  let Hurp := fresh "Hurp" in
  let Hush := fresh "Hush" in
  intros Heq;
  lazymatch type of Heq with
  | updatePull _ _ _ _ _ _ = _ =>
      apply updatePull_spec in Heq;
      destruct Heq as (uevs & Hutr & Hupl & Hubt & Hurp & Hush & _);
      rewrite Hutr; use_planAll;
      cbn; rewrite <- ?app_assoc;
      (eexists; split; [reflexivity|]);
      intros Hb Hnp;
      autorewrite with trace_proj in Hb; cbn in Hb; rewrite ?Hubt in Hb;
      try discriminate Hb;
      inversion Hb; subst; clear Hb
  | _ =>
      inversion Heq; subst; clear Heq; use_planAll;
      cbn; rewrite <- ?app_assoc;
      (eexists; split; [reflexivity|]);
      intros Hb Hnp;
      autorewrite with trace_proj in Hb; cbn in Hb;
      try discriminate Hb;
      inversion Hb; subst; clear Hb
  end.

Lemma autoplanBody_units World (oracle : Oracle Call World) c ctx st r st' cmds :
  autoplanBody oracle c ctx st = (r, st') ->
  exists evs,
    trace st' = trace st ++ evs
    /\ (built evs = [Returns (Ok cmds)] ->
        (forall cmd v, ~ In (cmd, Panics v) (plans evs)) ->
        exists rs pre r0 post,
          length rs = length cmds
          /\ evs = pre
                   ++ [EvCall (ProjectCommandBuilder_BuildAutoplanCommands ctx)
                              (Returns (Ok cmds))]
                   ++ planEvents cmds rs
                   ++ [EvCall (CommitStatusUpdater_UpdateProjectResult ctx Plan
                                 (CommandResult.of_ProjectResults (zipResults cmds rs)))
                              r0]
                   ++ post
          /\ plans pre = [] /\ plans post = []
          /\ reported pre = [] /\ reported post = []).
Proof.
  unfold autoplanBody, validateCtxAndComment, warnStatus. go_unfold.
  run oracle; units_leaf.
  all: try (exfalso;
            match goal with
            | H : forall cmd v, ~ In _ _ |- _ =>
                eapply H; autorewrite with trace_proj; cbn;
                apply in_or_app; right; left; reflexivity
            end).
  all: match goal with
       | H : _ -> _ -> exists r0 post, _ = _ :: post |- _ =>
           destruct (H eq_refl eq_refl) as (r0 & post & ->)
       end.
  all: match goal with
       | Hl : length ?rs = length _ |- _ => exists rs
       end.
  all: first [ eexists [_], _, _; split; [assumption|]; split; [reflexivity|]
             | eexists [_; _], _, _; split; [assumption|]; split; [reflexivity|] ].
  all: cbn in *; repeat split; auto.
  all: match goal with
       | H : _ :: collect reportedOf _ = [_] |- _ => inversion H; reflexivity
       end.
Qed.

(** An invocation of [RunAutoplanCommand], seen as its guarded body
    followed by [logPanics]. *)
Lemma RunAutoplanCommand_split World (oracle : Oracle Call World) c logger
      baseRepo headRepo pull user w :
  let ctx := mkCtx (pullLogger logger (Repo.FullName baseRepo) (PullRequest.Num pull))
                   baseRepo headRepo pull user in
  RunAutoplanCommand oracle c logger baseRepo headRepo pull user (init w)
  = defer_recover (logPanics oracle c ctx) tt (autoplanBody oracle c ctx) (init w).
Proof. reflexivity. Qed.

(** An invocation of [RunCommentCommand], seen as pull resolution followed
    by the guarded body and [logPanics]. *)
Lemma RunCommentCommand_split World (oracle : Oracle Call World) c logger
      baseRepo maybeHeadRepo user pullNum cmd w :
  let log := pullLogger logger (Repo.FullName baseRepo) pullNum in
  RunCommentCommand oracle c logger baseRepo maybeHeadRepo user pullNum cmd (init w)
  = match resolvePull oracle c baseRepo (headOf maybeHeadRepo) pullNum (init w) with
    | (Returns (pull, headRepo, Some err), st1) =>
        Exec.log log LvlError (ErrorString err) [] st1
    | (Returns (pull, headRepo, None), st1) =>
        let ctx := mkCtx log baseRepo headRepo pull user in
        defer_recover (logPanics oracle c ctx) tt (commentBody oracle c ctx cmd) st1
    | (Panics v, st1) => (Panics v, st1)
    end.
Proof.
  cbv zeta. unfold RunCommentCommand, buildLogger, headOf, pullLogger, mkCtx.
  unfold bind at 1 2. unfold newHistory, ret at 1. cbn. unfold bind at 1.
  destruct (resolvePull _ _ _ _ _ _) as [[[[pull headRepo] [err|]]|v] st1];
    reflexivity.
Qed.

(** C7.  In [RunAutoplanCommand], when the builder returns the units
    [cmds] and no plan panics, the runner is asked to plan every unit of
    [cmds], once and in the order of [cmds], whatever the plans of the
    earlier units returned; the result handed to [UpdateProjectResult] has
    one [ProjectResult] per unit, in that order, each with the directory
    and workspace of its unit. *)
Theorem autoplan_runs_every_unit_in_order :
  forall World (oracle : Oracle Call World) c logger baseRepo headRepo pull
         user w cmds,
    let ctx := mkCtx (pullLogger logger (Repo.FullName baseRepo) (PullRequest.Num pull))
                     baseRepo headRepo pull user in
    let tr := trace (snd (RunAutoplanCommand oracle c logger baseRepo headRepo
                                             pull user (init w))) in
    built tr = [Returns (Ok cmds)] ->
    (forall cmd v, ~ In (cmd, Panics v) (plans tr)) ->
    exists rs,
      length rs = length cmds
      /\ plans tr = combine cmds (map (@Returns _) rs)
      /\ reported tr = [CommandResult.of_ProjectResults (zipResults cmds rs)]
      /\ exists pre r0 post,
          tr = pre
               ++ [EvCall (ProjectCommandBuilder_BuildAutoplanCommands ctx)
                          (Returns (Ok cmds))]
               ++ planEvents cmds rs
               ++ [EvCall (CommitStatusUpdater_UpdateProjectResult ctx Plan
                             (CommandResult.of_ProjectResults (zipResults cmds rs)))
                          r0]
               ++ post.
Proof.
  intros World oracle c logger baseRepo headRepo pull user w cmds ctx tr.
  subst tr. rewrite RunAutoplanCommand_split. fold ctx.
  unfold defer_recover.
  destruct (autoplanBody oracle c ctx (init w)) as [r st1] eqn:Eb.
  destruct (autoplanBody_units _ oracle c ctx (init w) r st1 cmds Eb)
    as (evs & Htr & Hunits).
  cbn in Htr.
  assert (Hfin : exists evs',
             trace (snd (match r with
                         | Returns a =>
                             match logPanics oracle c ctx None st1 with
                             | (Returns _, st'') => (Returns a, st'')
                             | (Panics v, st'') => (Panics v, st'')
                             end
                         | Panics v =>
                             match logPanics oracle c ctx (Some v) st1 with
                             | (Returns _, st'') => (Returns tt, st'')
                             | (Panics v', st'') => (Panics v', st'')
                             end
                         end)) = evs ++ evs'
             /\ plans evs' = [] /\ built evs' = [] /\ reported evs' = []).
  { destruct r as [a|v].
    - destruct (logPanics_quiet _ oracle c ctx None st1) as (evs' & H1 & H2).
      exists evs'. rewrite <- Htr.
      destruct (logPanics oracle c ctx None st1) as [[?|?] ?]; auto.
    - destruct (logPanics_quiet _ oracle c ctx (Some v) st1) as (evs' & H1 & H2).
      exists evs'. rewrite <- Htr.
      destruct (logPanics oracle c ctx (Some v) st1) as [[?|?] ?]; auto. }
  destruct Hfin as (evs' & -> & Hpl' & Hbt' & Hrp').
  autorewrite with trace_proj. rewrite Hpl', Hbt', Hrp', !app_nil_r.
  intros Hb Hnp.
  destruct (Hunits Hb Hnp) as (rs & pre & r0 & post & Hlen & -> & Hp1 & Hp2 & Hr1 & Hr2).
  exists rs. split; [exact Hlen|].
  autorewrite with trace_proj. cbn. rewrite Hp1, Hp2, Hr1, Hr2, !app_nil_r.
  split; [reflexivity|]. split; [reflexivity|].
  exists pre, r0, (post ++ evs').
  rewrite <- ?app_assoc; cbn; rewrite <- ?app_assoc; cbn; rewrite <- ?app_assoc.
  reflexivity.
Qed.

Lemma autoplan_runs_every_unit_in_order_witness :
  let cmds := [RunnerScript.unit_ "network"; RunnerScript.unit_ "compute"] in
  let ctx := mkCtx (pullLogger Sample.rootLogger (Repo.FullName Sample.repo)
                               (PullRequest.Num Sample.pull))
                   Sample.repo Sample.repo Sample.pull Sample.alice in
  let tr := trace (snd (RunAutoplanCommand (RunnerScript.oracle RunnerScript.steady)
                          RunnerScript.runner Sample.rootLogger Sample.repo
                          Sample.repo Sample.pull Sample.alice (init 0%nat))) in
  built tr = [Returns (Ok cmds)]
  /\ plans tr = [(RunnerScript.unit_ "network", Returns RunnerScript.failed);
                 (RunnerScript.unit_ "compute", Returns RunnerScript.planned)]
  /\ exists rs,
      length rs = length cmds
      /\ plans tr = combine cmds (map (@Returns _) rs)
      /\ reported tr = [CommandResult.of_ProjectResults (zipResults cmds rs)]
      /\ exists pre r0 post,
          tr = pre
               ++ [EvCall (ProjectCommandBuilder_BuildAutoplanCommands ctx)
                          (Returns (Ok cmds))]
               ++ planEvents cmds rs
               ++ [EvCall (CommitStatusUpdater_UpdateProjectResult ctx Plan
                             (CommandResult.of_ProjectResults (zipResults cmds rs)))
                          r0]
               ++ post.
Proof.
  intros cmds ctx tr.
  assert (Hb : built tr = [Returns (Ok cmds)]) by (vm_compute; reflexivity).
  assert (Hp : plans tr = [(RunnerScript.unit_ "network", Returns RunnerScript.failed);
                           (RunnerScript.unit_ "compute", Returns RunnerScript.planned)])
    by (vm_compute; reflexivity).
  split; [exact Hb|]. split; [exact Hp|].
  apply (autoplan_runs_every_unit_in_order nat
           (RunnerScript.oracle RunnerScript.steady) RunnerScript.runner
           Sample.rootLogger Sample.repo Sample.repo Sample.pull Sample.alice
           0%nat cmds Hb).
  intros cmd v Hin. fold tr in Hin. rewrite Hp in Hin.
  destruct Hin as [Hin|[Hin|[]]]; discriminate Hin.
Defined.



(** *** The recovery boundary *)

Lemma guarded_run World (oracle : Oracle Call World) c ctx (body : M Call World unit)
      n st r st1 :
  reporting_returns oracle ->
  body st = (r, st1) ->
  (exists evs, trace st1 = trace st ++ evs /\ outcome r n evs) ->
  exists evs,
    fst (defer_recover (logPanics oracle c ctx) tt body st) = Returns tt
    /\ trace (snd (defer_recover (logPanics oracle c ctx) tt body st))
       = trace st ++ evs
    /\ guarded ctx evs
    /\ (length (comments evs) = match r with Returns _ => n | Panics _ => 1%nat end)
    /\ length (panics evs) = match r with Returns _ => 0%nat | Panics _ => 1%nat end.
Proof.
  intros Hr Hb (evs & Htr & Hout). unfold defer_recover. rewrite Hb.
  destruct r as [[]|v]; cbn in Hout; destruct Hout as [Hp Hcm].
  - cbn. exists evs. split; [reflexivity|]. split; [exact Htr|].
    split; [left; exact Hp|]. rewrite Hp. split; [exact Hcm|reflexivity].
  - destruct (logPanics_reports _ oracle c ctx v st1 Hr) as (stack & e & Hfst & Htr2).
    destruct (logPanics oracle c ctx (Some v) st1) as [[[]|v'] st2];
      cbn in Hfst, Htr2; [|discriminate].
    cbn. exists (evs ++ panicReport ctx v stack e).
    split; [reflexivity|].
    split; [rewrite Htr2, Htr, app_assoc; reflexivity|].
    split; [right; exists evs, v, stack, e; auto|].
    autorewrite with trace_proj. rewrite Hp, Hcm. split; reflexivity.
Qed.

(** In [RunCommentCommand] the pull getter panics: the panic reaches the
    caller, no comment is posted and nothing is logged. *)
Lemma getter_panic_escapes :
  RunCommentCommand (RunnerScript.oracle RunnerScript.getterPanics)
    RunnerScript.runner Sample.rootLogger Sample.repo None Sample.alice 7
    RunnerScript.planComment (init 0%nat)
  = (Panics "nil pointer dereference",
     {| collab := 1%nat;
        trace := [EvCall (GithubPullGetter_GetPullRequest Sample.repo 7)
                         (Panics "nil pointer dereference")];
        history := [] |})
  /\ comments [EvCall (GithubPullGetter_GetPullRequest Sample.repo 7)
                      (Panics "nil pointer dereference")] = []
  /\ levels [EvCall (GithubPullGetter_GetPullRequest Sample.repo 7)
                    (Panics "nil pointer dereference")] = [].
Proof. repeat split. Qed.

(** C1.  With a comment client and a stack helper that
    return, every panic raised under the recovery boundary is caught: the
    invocation returns to its caller, and the events of the guarded part
    end with the stack, one comment carrying the panic value and the
    stack, and one line at error level; no comment was posted before.  The
    boundary covers all of [RunAutoplanCommand]; in [RunCommentCommand] it
    starts after pull resolution, and a panic of pull resolution goes to
    the caller as it is. *)
Theorem panics_are_caught_under_the_boundary :
  forall World (oracle : Oracle Call World) c logger,
    reporting_returns oracle ->
    (forall baseRepo headRepo pull user w,
        let ctx := mkCtx (pullLogger logger (Repo.FullName baseRepo)
                                     (PullRequest.Num pull))
                         baseRepo headRepo pull user in
        let out := RunAutoplanCommand oracle c logger baseRepo headRepo pull
                                      user (init w) in
        fst out = Returns tt /\ guarded ctx (trace (snd out)))
    /\ (forall baseRepo maybeHeadRepo user pullNum cmd w r st1,
          resolvePull oracle c baseRepo (headOf maybeHeadRepo) pullNum (init w)
          = (r, st1) ->
          let out := RunCommentCommand oracle c logger baseRepo maybeHeadRepo
                                       user pullNum cmd (init w) in
          match r with
          | Panics v => out = (Panics v, st1)
          | Returns (pull, headRepo, Some err) =>
              fst out = Returns tt /\ panics (trace (snd out)) = []
          | Returns (pull, headRepo, None) =>
              let ctx := mkCtx (pullLogger logger (Repo.FullName baseRepo) pullNum)
                               baseRepo headRepo pull user in
              fst out = Returns tt
              /\ panics (trace st1) = []
              /\ exists evs,
                  trace (snd out) = trace st1 ++ evs /\ guarded ctx evs
          end).
Proof.
  intros World oracle c logger Hr. split.
  - intros baseRepo headRepo pull user w ctx out. subst out.
    rewrite RunAutoplanCommand_split. fold ctx.
    destruct (autoplanBody oracle c ctx (init w)) as [r st1] eqn:Eb.
    destruct (guarded_run _ oracle c ctx (autoplanBody oracle c ctx) 1 (init w)
                          r st1 Hr Eb
                          (autoplanBody_outcome _ oracle c ctx (init w) r st1
                                                (proj1 Hr) eq_refl Eb))
      as (evs & Hfst & Htr & Hg & _).
    rewrite Htr. cbn. auto.
  - intros baseRepo maybeHeadRepo user pullNum cmd w r st1 Hres out. subst out.
    rewrite RunCommentCommand_split. rewrite Hres.
    destruct (resolvePull_quiet _ _ _ _ _ _ _ _ _ Hres)
      as (revs & Hrtr & _ & _ & _ & _ & _ & _ & _ & Hrp).
    cbn in Hrtr.
    destruct r as [[[pull headRepo] [err|]]|v]; [| |reflexivity].
    + unfold Exec.log. cbn. rewrite Hrtr.
      unfold panics in *. rewrite collect_app, Hrp. split; reflexivity.
    + cbv zeta.
      set (ctx := mkCtx (pullLogger logger (Repo.FullName baseRepo) pullNum)
                        baseRepo headRepo pull user).
      destruct (commentBody oracle c ctx cmd st1) as [rb st2] eqn:Eb.
      destruct (guarded_run _ oracle c ctx (commentBody oracle c ctx cmd) _ st1
                            rb st2 Hr Eb
                            (commentBody_outcome _ oracle c ctx cmd st1 rb st2
                                                 (proj1 Hr) eq_refl Eb))
        as (evs & Hfst & Htr & Hg & _).
      split; [exact Hfst|]. split; [rewrite Hrtr; exact Hrp|].
      exists evs. auto.
Qed.

Lemma panics_are_caught_under_the_boundary_witness :
  reporting_returns (RunnerScript.oracle RunnerScript.planPanics)
  /\ let ctx := mkCtx (pullLogger Sample.rootLogger (Repo.FullName Sample.repo)
                                  (PullRequest.Num Sample.pull))
                      Sample.repo Sample.repo Sample.pull Sample.alice in
     let out := RunAutoplanCommand (RunnerScript.oracle RunnerScript.planPanics)
                  RunnerScript.runner Sample.rootLogger Sample.repo Sample.repo
                  Sample.pull Sample.alice (init 0%nat) in
     panics (trace (snd out)) = ["index out of range"%string]
     /\ fst out = Returns tt /\ guarded ctx (trace (snd out)).
Proof.
  assert (Hr : reporting_returns (RunnerScript.oracle RunnerScript.planPanics)).
  { split; intros; eexists _, _; reflexivity. }
  split; [exact Hr|]. intros ctx out. split; [vm_compute; reflexivity|].
  exact (proj1 (panics_are_caught_under_the_boundary nat
                  (RunnerScript.oracle RunnerScript.planPanics)
                  RunnerScript.runner Sample.rootLogger Hr)
               Sample.repo Sample.repo Sample.pull Sample.alice 0%nat).
Defined.




(** *** A context that fails validation *)

Lemma validate_invalid_any World (oracle : Oracle Call World) c ctx st :
  valid c ctx = false ->
  exists r st',
    validateCtxAndComment oracle c ctx st
    = (match r with
       | Returns _ => Returns false
       | Panics v => Panics v
       end, st')
    /\ trace st'
       = trace st
         ++ [EvLog (CommandContext.Logger ctx) (infoLine (rejectionLine c ctx));
             EvCall (VCSClient_CreateComment (CommandContext.BaseRepo ctx)
                       (PullRequest.Num (CommandContext.Pull ctx))
                       (rejection c ctx))
                    r].
Proof.
  intros Hv. unfold valid in Hv.
  unfold validateCtxAndComment, rejection, rejectionLine, infoLine.
  fold (forkRefused c ctx).
  destruct (forkRefused c ctx) eqn:Hf; go_unfold; cbn.
  - ask oracle; [eexists (Returns _), _ | eexists (Panics _), _];
      (split; [reflexivity|]; cbn; rewrite <- app_assoc; reflexivity).
  - cbn in Hv.
    destruct (PullRequest.State (CommandContext.Pull ctx)); [discriminate|].
    cbn.
    ask oracle; [eexists (Returns _), _ | eexists (Panics _), _];
      (split; [reflexivity|]; cbn; rewrite <- app_assoc; reflexivity).
Qed.

(** [logPanics] updates no commit status. *)
Lemma logPanics_no_status World (oracle : Oracle Call World) c ctx recovered st :
  exists evs,
    trace (snd (logPanics oracle c ctx recovered st)) = trace st ++ evs
    /\ statuses evs = [].
Proof.
  unfold logPanics. go_unfold. destruct recovered as [v|]; cbn.
  - run oracle; rewrite <- ?app_assoc;
      (eexists; split; [reflexivity|]); reflexivity.
  - exists []. rewrite app_nil_r. split; reflexivity.
Qed.

(** A guarded body that starts with the validation of a context that is
    not valid, and ends when validation says no. *)
Lemma rejected_run World (oracle : Oracle Call World) c ctx
      (k : bool -> M Call World unit) st :
  valid c ctx = false ->
  k false = ret tt ->
  exists r rest,
    trace (snd (defer_recover (logPanics oracle c ctx) tt
                  (bind (validateCtxAndComment oracle c ctx) k) st))
    = trace st
      ++ [EvLog (CommandContext.Logger ctx) (infoLine (rejectionLine c ctx));
          EvCall (VCSClient_CreateComment (CommandContext.BaseRepo ctx)
                    (PullRequest.Num (CommandContext.Pull ctx))
                    (rejection c ctx))
                 r]
      ++ rest
    /\ statuses rest = []
    /\ (forall e, r = Returns e ->
          rest = []
          /\ fst (defer_recover (logPanics oracle c ctx) tt
                    (bind (validateCtxAndComment oracle c ctx) k) st)
             = Returns tt).
Proof.
  intros Hv Hk.
  destruct (validate_invalid_any _ oracle c ctx st Hv) as (r & st' & Hval & Htr).
  unfold defer_recover, bind. rewrite Hval.
  destruct r as [e|v].
  - rewrite Hk. cbn. exists (Returns e), []. cbn. rewrite Htr.
    repeat split.
  - destruct (logPanics_no_status _ oracle c ctx (Some v) st')
      as (evs & Hev & Hst).
    exists (Panics v), evs. split.
    + destruct (logPanics oracle c ctx (Some v) st') as [[[]|v'] st''];
        cbn in *; rewrite Hev, Htr, <- app_assoc; reflexivity.
    + split; [exact Hst|]. intros e He. discriminate He.
Qed.

(** C6.  A context that fails validation ends the run with one log line
    at info level followed by one comment, the explanation: no commit
    status is updated on any such run, and when the comment client returns
    from that call nothing else happens - the run has posted exactly that
    comment and logged nothing at error level.  For a comment command the
    context is the one pull resolution produced. *)
Theorem rejected_context_gets_one_comment :
  forall World (oracle : Oracle Call World) c logger,
    (forall baseRepo headRepo pull user w,
        let ctx := mkCtx (pullLogger logger (Repo.FullName baseRepo)
                                     (PullRequest.Num pull))
                         baseRepo headRepo pull user in
        valid c ctx = false ->
        let out := RunAutoplanCommand oracle c logger baseRepo headRepo pull
                                      user (init w) in
        exists r rest,
          trace (snd out)
          = [EvLog (CommandContext.Logger ctx) (infoLine (rejectionLine c ctx));
             EvCall (VCSClient_CreateComment baseRepo (PullRequest.Num pull)
                       (rejection c ctx))
                    r]
            ++ rest
          /\ statuses (trace (snd out)) = []
          /\ (forall e, r = Returns e ->
                rest = []
                /\ fst out = Returns tt
                /\ comments (trace (snd out)) = [rejection c ctx]
                /\ levels (trace (snd out)) = [LvlInfo]))
    /\ (forall baseRepo maybeHeadRepo user pullNum cmd w pull headRepo st1,
          resolvePull oracle c baseRepo (headOf maybeHeadRepo) pullNum (init w)
          = (Returns (pull, headRepo, None), st1) ->
          let ctx := mkCtx (pullLogger logger (Repo.FullName baseRepo) pullNum)
                           baseRepo headRepo pull user in
          valid c ctx = false ->
          let out := RunCommentCommand oracle c logger baseRepo maybeHeadRepo
                                       user pullNum cmd (init w) in
          exists r rest,
            trace (snd out)
            = trace st1
              ++ [EvLog (CommandContext.Logger ctx) (infoLine (rejectionLine c ctx));
                  EvCall (VCSClient_CreateComment baseRepo (PullRequest.Num pull)
                            (rejection c ctx))
                         r]
              ++ rest
            /\ statuses (trace (snd out)) = []
            /\ (forall e, r = Returns e ->
                  rest = []
                  /\ fst out = Returns tt
                  /\ comments (trace (snd out)) = [rejection c ctx]
                  /\ levels (trace (snd out)) = [LvlInfo])).
Proof.
  intros World oracle c logger. split.
  - intros baseRepo headRepo pull user w ctx Hv out. subst out.
    rewrite RunAutoplanCommand_split. fold ctx. unfold autoplanBody.
    match goal with
    | |- context [bind (validateCtxAndComment oracle c ctx) ?k] =>
        destruct (rejected_run _ oracle c ctx k (init w) Hv eq_refl)
          as (r & rest & Htr & Hst & Hret)
    end.
    exists r, rest. rewrite Htr.
    split; [reflexivity|]. split; [cbn; exact Hst|].
    intros e He. destruct (Hret e He) as [-> Hfst]. subst r.
    repeat split. exact Hfst.
  - intros baseRepo maybeHeadRepo user pullNum cmd w pull headRepo st1 Hres ctx
           Hv out. subst out.
    rewrite RunCommentCommand_split. rewrite Hres. cbv zeta. fold ctx.
    unfold commentBody.
    destruct (resolvePull_quiet _ _ _ _ _ _ _ _ _ Hres)
      as (revs & Hrtr & _ & Hrc & Hrs & _ & Hrl & _).
    cbn in Hrtr.
    match goal with
    | |- context [bind (validateCtxAndComment oracle c ctx) ?k] =>
        destruct (rejected_run _ oracle c ctx k st1 Hv eq_refl)
          as (r & rest & Htr & Hst & Hret)
    end.
    exists r, rest. rewrite Htr.
    split; [reflexivity|].
    split.
    { rewrite Hrtr. unfold statuses in *. rewrite collect_app, Hrs.
      cbn. exact Hst. }
    intros e He. destruct (Hret e He) as [-> Hfst]. subst r.
    split; [reflexivity|]. split; [exact Hfst|].
    rewrite Hrtr. unfold comments, levels in *.
    rewrite !collect_app, Hrc, Hrl. split; reflexivity.
Qed.

Lemma rejected_context_gets_one_comment_witness :
  let ctx := mkCtx (pullLogger Sample.rootLogger (Repo.FullName Sample.repo)
                               (PullRequest.Num Sample.pull))
                   Sample.repo Sample.fork Sample.pull Sample.alice in
  let out := RunAutoplanCommand (RunnerScript.oracle RunnerScript.steady)
               RunnerScript.runner Sample.rootLogger Sample.repo Sample.fork
               Sample.pull Sample.alice (init 0%nat) in
  valid RunnerScript.runner ctx = false
  /\ comments (trace (snd out))
     = [Sprintf "Atlantis commands can't be run on fork pull requests. To enable, set --%s"
                [AStr "allow-fork-prs"]]
  /\ exists r rest,
      trace (snd out)
      = [EvLog (CommandContext.Logger ctx)
               (infoLine (rejectionLine RunnerScript.runner ctx));
         EvCall (VCSClient_CreateComment Sample.repo (PullRequest.Num Sample.pull)
                   (rejection RunnerScript.runner ctx))
                r]
        ++ rest
      /\ statuses (trace (snd out)) = []
      /\ (forall e, r = Returns e ->
            rest = []
            /\ fst out = Returns tt
            /\ comments (trace (snd out)) = [rejection RunnerScript.runner ctx]
            /\ levels (trace (snd out)) = [LvlInfo]).
Proof.
  intros ctx out. split; [reflexivity|]. split; [reflexivity|].
  exact (proj1 (rejected_context_gets_one_comment nat
                  (RunnerScript.oracle RunnerScript.steady) RunnerScript.runner
                  Sample.rootLogger)
               Sample.repo Sample.fork Sample.pull Sample.alice 0%nat eq_refl).
Defined.

End RunnerSpec.


(* ================================================================== *)
(** * Further properties *)

(** ** net/url and strings, again *)

Module UrlMore.

Import url strings_more UrlFacts.

Lemma scan_without_plus m1 m2 s :
  strings.Contains s "+" = false ->
  forall n h, scan m1 s n h = scan m2 s n h.
Proof.
  induction s as [s IH] using string_length_ind.
  intros Hc n h. destruct s as [|c rest]; simpl in *; [reflexivity|].
  apply orb_false_iff in Hc. destruct Hc as [Hc Hrest]. rewrite Hc.
  destruct (Ascii.eqb c "%").
  - destruct rest as [|a [|b rest']]; try reflexivity.
    destruct (ishex a && ishex b)%bool; [|reflexivity].
    apply IH; [simpl; lia|].
    simpl in Hrest. apply orb_false_iff in Hrest. destruct Hrest as [_ Hrest].
    apply orb_false_iff in Hrest. apply Hrest.
  - apply IH; [simpl; lia|assumption].
Qed.

Lemma decode_without_plus m1 m2 s :
  strings.Contains s "+" = false -> decode m1 s = decode m2 s.
Proof.
  induction s as [s IH] using string_length_ind.
  intros Hc. destruct s as [|c rest]; simpl in *; [reflexivity|].
  apply orb_false_iff in Hc. destruct Hc as [Hc Hrest]. rewrite Hc.
  destruct (Ascii.eqb c "%").
  - destruct rest as [|a [|b rest']]; try reflexivity.
    f_equal. apply IH; [simpl; lia|].
    simpl in Hrest. apply orb_false_iff in Hrest. destruct Hrest as [_ Hrest].
    apply orb_false_iff in Hrest. apply Hrest.
  - f_equal. apply IH; [simpl; lia|assumption].
Qed.

(** The two decoders refuse the same strings, each with the same error. *)
Lemma unescape_modes_refuse_alike :
  forall s e, QueryUnescape s = Err e <-> PathUnescape s = Err e.
Proof.
  intros s e. unfold QueryUnescape, PathUnescape.
  split; apply unescape_Err.
Qed.

(** On a string without ['+'] the two decoders agree. *)
Lemma unescape_modes_agree_without_plus :
  forall s, strings.Contains s "+" = false -> QueryUnescape s = PathUnescape s.
Proof.
  intros s Hc. unfold QueryUnescape, PathUnescape, unescape.
  rewrite (scan_without_plus encodeQueryComponent encodePathSegment s Hc 0 false).
  rewrite (decode_without_plus encodeQueryComponent encodePathSegment s Hc).
  reflexivity.
Qed.

Lemma scan_without_percent mode s :
  strings.Contains s "%" = false ->
  forall n h,
    scan mode s n h
    = Ok (n, if strings.Contains s "+" then is_query mode else h).
Proof.
  induction s as [|c rest IH]; simpl; intros Hc n h; [reflexivity|].
  apply orb_false_iff in Hc. destruct Hc as [Hc Hrest]. rewrite Hc.
  destruct (Ascii.eqb c "+"); simpl; rewrite (IH Hrest).
  - destruct (strings.Contains rest "+"); reflexivity.
  - reflexivity.
Qed.

Lemma decode_without_percent mode s :
  strings.Contains s "%" = false ->
  decode mode s = if is_query mode then plusToSpace s else s.
Proof.
  induction s as [|c rest IH]; simpl; intros Hc.
  - destruct (is_query mode); reflexivity.
  - apply orb_false_iff in Hc. destruct Hc as [Hc Hrest]. rewrite Hc.
    rewrite (IH Hrest).
    destruct (Ascii.eqb c "+") eqn:Ep; destruct (is_query mode); try reflexivity.
    apply Ascii.eqb_eq in Ep. subst c. reflexivity.
Qed.

Lemma plusToSpace_without_plus s :
  strings.Contains s "+" = false -> plusToSpace s = s.
Proof.
  induction s as [|c rest IH]; simpl; intros Hc; [reflexivity|].
  apply orb_false_iff in Hc. destruct Hc as [Hc Hrest].
  rewrite Hc, (IH Hrest). reflexivity.
Qed.

(** A string without ['%'] is never refused: [PathUnescape] returns it as
    it is, and [QueryUnescape] returns it with every ['+'] turned into a
    space. *)
Lemma unescape_without_percent :
  forall s,
    strings.Contains s "%" = false ->
    PathUnescape s = Ok s /\ QueryUnescape s = Ok (plusToSpace s).
Proof.
  intros s Hc. unfold PathUnescape, QueryUnescape, unescape.
  rewrite !(scan_without_percent _ s Hc), !(decode_without_percent _ s Hc).
  cbn. split.
  - destruct (strings.Contains s "+"); reflexivity.
  - destruct (strings.Contains s "+") eqn:Hp; cbn; [reflexivity|].
    rewrite (plusToSpace_without_plus s Hp). reflexivity.
Qed.

Lemma Split_nonempty s sep : strings.Split s sep <> [].
Proof.
  destruct s as [|c rest]; simpl; [discriminate|].
  destruct (Ascii.eqb c sep); [discriminate|].
  destruct (strings.Split rest sep); discriminate.
Qed.

(** [strings.Split] loses nothing: joining the pieces with the separator
    gives the string back, and no piece contains the separator. *)
Lemma Split_facts :
  forall s sep,
    Join (strings.Split s sep) sep = s
    /\ Forall (fun p => strings.Contains p sep = false) (strings.Split s sep).
Proof.
  intros s sep. induction s as [|c rest IH].
  - simpl. repeat split. constructor; [reflexivity|constructor].
  - destruct IH as (IHj & IHf).
    cbn [strings.Split].
    destruct (strings.Split rest sep) as [|p ps] eqn:Es.
    { exfalso. exact (Split_nonempty rest sep Es). }
    destruct (Ascii.eqb c sep) eqn:Ec.
    + apply Ascii.eqb_eq in Ec. subst c.
      change (Join (EmptyString :: p :: ps) sep)
        with (String sep (Join (p :: ps) sep)).
      rewrite IHj.
      split; [reflexivity|].
      constructor; [reflexivity|exact IHf].
    + apply Forall_cons_iff in IHf. destruct IHf as [Hp Hps].
      split.
      * rewrite <- IHj. destruct ps as [|q qs]; reflexivity.
      * constructor; [simpl; rewrite Ec, Hp; reflexivity|exact Hps].
Qed.

End UrlMore.

(** ** The locks controller *)

Module LocksMore.

Import url server LockObs LockObsMore strings_more.

(** X1.  When the store fails to unlock, [DeleteLock] answers 500, and when
    there is no lock at the id, 404; in both cases nothing else is done. *)
Theorem DeleteLock_without_a_lock :
  forall World (oracle : Oracle Call World) l id w r,
    let out := DeleteLock oracle l id (init w) in
    unlocked (trace (snd out)) = [Returns r] ->
    match r with
    | Err _ => status out = Some 500 /\ untouched (trace (snd out))
    | Ok None => status out = Some 404 /\ untouched (trace (snd out))
    | Ok (Some _) => True
    end.
Proof.
  intros World oracle l id w r out. subst out.
  unfold status, untouched, DeleteLock, commentBack, respond. go_unfold.
  destruct l as [version [lctx handler]].
  run oracle; intros H; try discriminate H;
    inversion H; subst; clear H; cbn; auto.
Qed.

Lemma DeleteLock_without_a_lock_witness :
  let out := DeleteLock (LocksScript.oracle LocksCases.storeDown)
               LocksScript.controller (Some "acme%2Finfra%2F.%2Fdefault")
               (init 0%nat) in
  unlocked (trace (snd out)) = [Returns (Err (errors_New "database is closed"))]
  /\ status out = Some 500 /\ untouched (trace (snd out)).
Proof.
  intros out.
  assert (H : unlocked (trace (snd out))
              = [Returns (Err (errors_New "database is closed"))])
    by (vm_compute; reflexivity).
  split; [exact H|].
  exact (DeleteLock_without_a_lock (LocksScript.oracle LocksCases.storeDown)
           LocksScript.controller (Some "acme%2Finfra%2F.%2Fdefault") 0%nat
           (r := Err (errors_New "database is closed")) H).
Defined.

(** X2.  A request without an id is answered 400 by both handlers, and so is a
    [DeleteLock] with the empty id, the store left alone; [GetLock] with
    the empty id asks the store about the empty key. *)
Theorem lock_id_missing_or_empty :
  forall World (oracle : Oracle Call World) l w,
    let quiet (out : Result unit * State Call World) :=
      status out = Some 400
      /\ storeKeys (trace (snd out)) = []
      /\ collab (snd out) = w
      /\ bodies (trace (snd out)) = [Sprintf "No lock id in request" []] in
    quiet (GetLock oracle l None (init w))
    /\ quiet (DeleteLock oracle l None (init w))
    /\ quiet (DeleteLock oracle l (Some "") (init w))
    /\ storeKeys (trace (snd (GetLock oracle l (Some "") (init w)))) = [""].
Proof.
  intros World oracle l w quiet. subst quiet. cbv beta.
  split; [repeat split|]. split; [repeat split|]. split; [repeat split|].
  unfold GetLock, respond. go_unfold. run oracle; reflexivity.
Qed.

(** X3.  When [TryLock] handed out a release function, [DeleteLock] calls it
    exactly once, as the last thing it does, whatever happens in between
    (a failed deletion, a failed comment, a panic); otherwise it releases
    nothing and deletes nothing. *)
Theorem DeleteLock_releases_the_working_dir :
  forall World (oracle : Oracle Call World) l id w,
    let tr := trace (snd (DeleteLock oracle l id (init w))) in
    match tryLocked tr with
    | [Returns (Ok f)] =>
        released tr = [f]
        /\ exists r, lastOf tr = Some (EvCall (unlock_ f) r)
    | _ => released tr = [] /\ deleted tr = []
    end.
Proof.
  intros World oracle l id w tr. subst tr.
  unfold DeleteLock, commentBack, respond. go_unfold.
  destruct l as [version [lctx handler]].
  run oracle; split; try reflexivity; eexists; reflexivity.
Qed.

(** X4.  After every [DeleteForWorkspace] that returns, with an error or with
    nil, [DeleteLock] writes the line [unable to delete workspace] at
    error level, with what was returned as its [err]. *)
Theorem DeleteLock_logs_every_deletion :
  forall World (oracle : Oracle Call World) l id w,
    let tr := trace (snd (DeleteLock oracle l id (init w))) in
    deleteLines tr = returned (deleted tr).
Proof.
  intros World oracle l id w tr. subst tr.
  unfold DeleteLock, commentBack, respond. go_unfold.
  destruct l as [version [lctx handler]].
  run oracle; reflexivity.
Qed.

(** X5.  [DeleteLock] posts at most one comment, on the pull request of the
    lock it removed, naming the path and the workspace of the lock; it
    posts it whenever that pull request has a base repository and the
    handler returns. *)
Theorem DeleteLock_comments_on_the_pull :
  forall World (oracle : Oracle Call World) l id w lock,
    let out := DeleteLock oracle l id (init w) in
    let posted := (PullRequest.BaseRepo (ProjectLock.Pull lock),
                   PullRequest.Num (ProjectLock.Pull lock),
                   discardedComment lock) in
    unlocked (trace (snd out)) = [Returns (Ok (Some lock))] ->
    (commentCalls (trace (snd out)) = []
     \/ commentCalls (trace (snd out)) = [posted])
    /\ (fst out = Returns tt ->
        PullRequest.BaseRepo (ProjectLock.Pull lock) <> Repo.zero ->
        commentCalls (trace (snd out)) = [posted]).
Proof.
  intros World oracle l id w lock out posted. subst out posted.
  unfold DeleteLock, commentBack, respond. go_unfold.
  destruct l as [version [lctx handler]].
  run oracle; intros H; try discriminate H;
    inversion H; subst; clear H; cbn;
    (split; [auto|]); intros; try discriminate; try contradiction; auto.
Qed.

Lemma DeleteLock_comments_on_the_pull_witness :
  let lock := Sample.lockOf "acme/infra" Sample.pull in
  let out := DeleteLock
               (LocksScript.oracle (LocksCases.free lock (Returns None)))
               LocksScript.controller (Some "acme%2Finfra%2F.%2Fdefault")
               (init 0%nat) in
  unlocked (trace (snd out)) = [Returns (Ok (Some lock))]
  /\ fst out = Returns tt
  /\ commentCalls (trace (snd out))
     = [(Sample.repo, 7, discardedComment lock)].
Proof.
  intros lock out.
  assert (H : unlocked (trace (snd out)) = [Returns (Ok (Some lock))])
    by (vm_compute; reflexivity).
  assert (H1 : fst out = Returns tt) by (vm_compute; reflexivity).
  split; [exact H|]. split; [exact H1|].
  refine (proj2 (DeleteLock_comments_on_the_pull
                   (LocksScript.oracle (LocksCases.free lock (Returns None)))
                   LocksScript.controller (Some "acme%2Finfra%2F.%2Fdefault")
                   0%nat (lock := lock) H) H1 _).
  discriminate.
Defined.

(** X6.  What the handlers themselves write to the response.  [DeleteLock]
    hands the response writer to nobody: it writes the status line at most
    once, with one of its codes, and exactly once when it returns; it
    writes a body only with the status line, and every body is also in the
    log.  So does [GetLock] on every run that does not reach the template,
    to which it hands the writer. *)
Theorem lock_routes_answer_once :
  forall World (oracle : Oracle Call World) l id w,
    let respondsOnce (codes : list Z) (out : Result unit * State Call World) :=
      (length (headers (trace (snd out))) <= 1)%nat
      /\ length (bodies (trace (snd out))) = length (headers (trace (snd out)))
      /\ incl (headers (trace (snd out))) codes
      /\ incl (bodies (trace (snd out))) (messages (trace (snd out)))
      /\ (fst out = Returns tt -> length (headers (trace (snd out))) = 1%nat) in
    respondsOnce [200; 400; 404; 500] (DeleteLock oracle l id (init w))
    /\ (rendered (trace (snd (GetLock oracle l id (init w)))) = [] ->
        respondsOnce [400; 404; 500] (GetLock oracle l id (init w))).
Proof.
  intros World oracle l id w respondsOnce. subst respondsOnce. cbv beta.
  destruct l as [version [lctx handler]].
  split.
  - unfold DeleteLock, commentBack, respond. go_unfold.
    run oracle; (split; [lia|]); (split; [reflexivity|]);
      (split; [intros x Hx; cbn in *; tauto|]);
      (split; [intros x Hx; cbn in *; tauto|]);
      intros Hret; first [discriminate Hret | reflexivity].
  - unfold GetLock, respond. go_unfold.
    run oracle; intros Hr; try discriminate Hr;
      (split; [lia|]); (split; [reflexivity|]);
      (split; [intros x Hx; cbn in *; tauto|]);
      (split; [intros x Hx; cbn in *; tauto|]);
      intros Hret; first [discriminate Hret | reflexivity].
Qed.

Lemma lock_routes_answer_once_witness :
  let get := GetLock (LocksScript.oracle LocksCases.storeDown)
               LocksScript.controller (Some "acme%2Finfra%2F.%2Fdefault")
               (init 0%nat) in
  rendered (trace (snd get)) = []
  /\ fst get = Returns tt
  /\ headers (trace (snd get)) = [500]
  /\ (length (headers (trace (snd get))) <= 1)%nat
  /\ length (bodies (trace (snd get))) = length (headers (trace (snd get)))
  /\ incl (headers (trace (snd get))) [400; 404; 500]
  /\ incl (bodies (trace (snd get))) (messages (trace (snd get)))
  /\ (fst get = Returns tt -> length (headers (trace (snd get))) = 1%nat).
Proof.
  intros get.
  assert (H : rendered (trace (snd get)) = []) by (vm_compute; reflexivity).
  split; [exact H|]. split; [reflexivity|]. split; [reflexivity|].
  exact (proj2 (lock_routes_answer_once (LocksScript.oracle LocksCases.storeDown)
                  LocksScript.controller (Some "acme%2Finfra%2F.%2Fdefault")
                  0%nat) H).
Defined.

(** X7.  [GetLock] only reads: it never unlocks, never takes the
    working-directory lock, never deletes and never comments; it asks the
    store at most once and renders at most once. *)
Theorem GetLock_only_reads :
  forall World (oracle : Oracle Call World) l id w,
    let tr := trace (snd (GetLock oracle l id (init w))) in
    unlocked tr = []
    /\ untouched tr
    /\ (length (found tr) <= 1)%nat
    /\ (length (rendered tr) <= 1)%nat.
Proof.
  intros World oracle l id w tr. subst tr.
  unfold untouched, GetLock, respond. go_unfold.
  destruct l as [version [lctx handler]].
  run oracle; repeat split; cbn; lia.
Qed.

(** X8.  The owner and the name [GetLock] renders are the first two pieces of
    the repository full name of the lock the store returned, cut at the
    ['/']: neither contains a ['/'], and the full name is these two pieces
    and whatever pieces follow, joined by ['/']. *)
Theorem GetLock_renders_owner_and_name :
  forall World (oracle : Oracle Call World) l id w d,
    let tr := trace (snd (GetLock oracle l (Some id) (init w))) in
    rendered tr = [d] ->
    exists key lock more,
      QueryUnescape id = Ok key
      /\ found tr = [Returns (Ok (Some lock))]
      /\ d = detail l id key lock (LockDetailData.RepoOwner d)
                    (LockDetailData.RepoName d)
      /\ Project.RepoFullName (ProjectLock.Project lock)
         = Join (LockDetailData.RepoOwner d :: LockDetailData.RepoName d :: more) "/"
      /\ strings.Contains (LockDetailData.RepoOwner d) "/" = false
      /\ strings.Contains (LockDetailData.RepoName d) "/" = false.
Proof.
  intros World oracle l id w d tr. subst tr.
  unfold GetLock, respond.
  destruct (QueryUnescape id) as [key|e] eqn:Hq;
    [|go_unfold; destruct l as [version [lctx handler]]; cbn; discriminate].
  go_unfold. destruct l as [version [lctx handler]]. cbn.
  ask oracle; [|discriminate].
  match goal with
  | a : res (option ProjectLock) |- _ => destruct a as [[lock|]|e]
  end; cbn; try discriminate.
  destruct (UrlMore.Split_facts
              (Project.RepoFullName (ProjectLock.Project lock)) "/")
    as (Hj & Hf).
  destruct (strings.Split (Project.RepoFullName (ProjectLock.Project lock)) "/")
    as [|owner [|name more]] eqn:Es; cbn; try discriminate.
  apply Forall_cons_iff in Hf. destruct Hf as [Ho Hf].
  apply Forall_cons_iff in Hf. destruct Hf as [Hn _].
  ask oracle; intros H; inversion H; subst; clear H;
    exists key, lock, more; cbn; repeat split; auto.
Qed.

Lemma GetLock_renders_owner_and_name_witness :
  let lock := Sample.lockOf "gitlab/subgroup/atlantis" Sample.pull in
  let d := detail LocksScript.controller "gitlab%2Fsubgroup%2Fatlantis%2F.%2Fdefault"
                  "gitlab/subgroup/atlantis/./default" lock "gitlab" "subgroup" in
  let tr := trace (snd (GetLock
                          (LocksScript.oracle (LocksCases.free lock (Returns None)))
                          LocksScript.controller
                          (Some "gitlab%2Fsubgroup%2Fatlantis%2F.%2Fdefault")
                          (init 0%nat))) in
  rendered tr = [d]
  /\ exists key lock' more,
      QueryUnescape "gitlab%2Fsubgroup%2Fatlantis%2F.%2Fdefault" = Ok key
      /\ found tr = [Returns (Ok (Some lock'))]
      /\ d = detail LocksScript.controller
                    "gitlab%2Fsubgroup%2Fatlantis%2F.%2Fdefault" key lock'
                    (LockDetailData.RepoOwner d) (LockDetailData.RepoName d)
      /\ Project.RepoFullName (ProjectLock.Project lock')
         = Join (LockDetailData.RepoOwner d :: LockDetailData.RepoName d :: more) "/"
      /\ strings.Contains (LockDetailData.RepoOwner d) "/" = false
      /\ strings.Contains (LockDetailData.RepoName d) "/" = false.
Proof.
  intros lock d tr.
  assert (H : rendered tr = [d]) by (vm_compute; reflexivity).
  split; [exact H|].
  exact (GetLock_renders_owner_and_name
           (LocksScript.oracle (LocksCases.free lock (Returns None)))
           LocksScript.controller "gitlab%2Fsubgroup%2Fatlantis%2F.%2Fdefault"
           0%nat H).
Defined.

(** [GetLock] answers 400 to an id exactly when the id cannot be
    decoded, and so does [DeleteLock] for an id that is not empty. *)
Lemma GetLock_refuses World (oracle : Oracle Call World) l id w :
  status (GetLock oracle l (Some id) (init w)) = Some 400
  <-> exists e, QueryUnescape id = Err e.
Proof.
  unfold status, GetLock, respond.
  destruct (QueryUnescape id) as [key|e] eqn:Hq.
  - split; [|intros [e He]; discriminate He].
    go_unfold. destruct l as [version [lctx handler]].
    run oracle; intros H; discriminate H.
  - split; [eauto|]. intros _. go_unfold.
    destruct l as [version [lctx handler]]. reflexivity.
Qed.

Lemma DeleteLock_refuses World (oracle : Oracle Call World) l id w :
  String.eqb id "" = false ->
  status (DeleteLock oracle l (Some id) (init w)) = Some 400
  <-> exists e, PathUnescape id = Err e.
Proof.
  intros Hne. unfold status, DeleteLock, commentBack, respond. rewrite Hne.
  destruct (PathUnescape id) as [key|e] eqn:Hq.
  - split; [|intros [e He]; discriminate He].
    go_unfold. destruct l as [version [lctx handler]].
    run oracle; intros H; discriminate H.
  - split; [eauto|]. intros _. go_unfold.
    destruct l as [version [lctx handler]]. reflexivity.
Qed.

Lemma GetLock_refused_storeKeys World (oracle : Oracle Call World) l id e w :
  QueryUnescape id = Err e ->
  storeKeys (trace (snd (GetLock oracle l (Some id) (init w)))) = [].
Proof.
  intros Hq. unfold GetLock, respond. rewrite Hq. go_unfold.
  destruct l as [version [lctx handler]]. reflexivity.
Qed.

Lemma DeleteLock_refused_storeKeys World (oracle : Oracle Call World) l id e w :
  PathUnescape id = Err e ->
  storeKeys (trace (snd (DeleteLock oracle l (Some id) (init w)))) = [].
Proof.
  intros Hq. unfold DeleteLock, commentBack, respond. rewrite Hq. go_unfold.
  destruct l as [version [lctx handler]].
  destruct (String.eqb id ""); reflexivity.
Qed.

(** X9.  The two routes refuse the same ids: an id that is not empty gets
    400 from [GetLock] exactly when it gets 400 from [DeleteLock], and
    then neither asks the lock store anything. *)
Theorem lock_routes_refuse_the_same_ids :
  forall World (oracle : Oracle Call World) l id w,
    let get := GetLock oracle l (Some id) (init w) in
    let del := DeleteLock oracle l (Some id) (init w) in
    String.eqb id "" = false ->
    (status get = Some 400 <-> status del = Some 400)
    /\ (status get = Some 400 ->
        storeKeys (trace (snd get)) = [] /\ storeKeys (trace (snd del)) = []).
Proof.
  intros World oracle l id w get del Hne. subst get del.
  rewrite (@GetLock_refuses World oracle l id w),
    (@DeleteLock_refuses World oracle l id w Hne).
  split.
  - split; intros [e He]; exists e; apply UrlMore.unescape_modes_refuse_alike;
      exact He.
  - intros [e He]. split.
    + exact (@GetLock_refused_storeKeys World oracle l id e w He).
    + apply (@DeleteLock_refused_storeKeys World oracle l id e w).
      apply UrlMore.unescape_modes_refuse_alike. exact He.
Qed.

Lemma lock_routes_refuse_the_same_ids_witness :
  let get := GetLock (LocksScript.oracle LocksCases.storeDown)
               LocksScript.controller (Some "acme%2Finfra%2") (init 0%nat) in
  let del := DeleteLock (LocksScript.oracle LocksCases.storeDown)
               LocksScript.controller (Some "acme%2Finfra%2") (init 0%nat) in
  String.eqb "acme%2Finfra%2" "" = false
  /\ (status get = Some 400 <-> status del = Some 400)
  /\ (status get = Some 400 ->
      storeKeys (trace (snd get)) = [] /\ storeKeys (trace (snd del)) = []).
Proof.
  intros get del. split; [reflexivity|].
  exact (@lock_routes_refuse_the_same_ids nat
           (LocksScript.oracle LocksCases.storeDown) LocksScript.controller
           "acme%2Finfra%2" 0%nat eq_refl).
Defined.

(** X10.  For an id without ['+'] that is not empty, the key [GetLock] asks
    the store about is the key [DeleteLock] removes. *)
Theorem lock_routes_share_the_key_without_plus :
  forall World (oracle : Oracle Call World) l id w,
    strings.Contains id "+" = false ->
    String.eqb id "" = false ->
    storeKeys (trace (snd (GetLock oracle l (Some id) (init w))))
    = storeKeys (trace (snd (DeleteLock oracle l (Some id) (init w)))).
Proof.
  intros World oracle l id w Hp Hne.
  pose proof (UrlMore.unescape_modes_agree_without_plus id Hp) as Hagree.
  destruct (QueryUnescape id) as [key|e] eqn:Hq.
  - rewrite (@LocksSpec.GetLock_storeKeys World oracle l id key w Hq).
    rewrite (@LocksSpec.DeleteLock_storeKeys World oracle l id key w Hne
               (eq_sym Hagree)).
    reflexivity.
  - rewrite (@GetLock_refused_storeKeys World oracle l id e w Hq).
    rewrite (@DeleteLock_refused_storeKeys World oracle l id e w (eq_sym Hagree)).
    reflexivity.
Qed.

Lemma lock_routes_share_the_key_without_plus_witness :
  strings.Contains "acme%2Finfra%2F.%2Fdefault" "+" = false
  /\ String.eqb "acme%2Finfra%2F.%2Fdefault" "" = false
  /\ storeKeys (trace (snd (GetLock (LocksScript.oracle LocksCases.storeDown)
                              LocksScript.controller
                              (Some "acme%2Finfra%2F.%2Fdefault") (init 0%nat))))
     = storeKeys (trace (snd (DeleteLock (LocksScript.oracle LocksCases.storeDown)
                                LocksScript.controller
                                (Some "acme%2Finfra%2F.%2Fdefault") (init 0%nat)))).
Proof.
  split; [reflexivity|]. split; [reflexivity|].
  exact (@lock_routes_share_the_key_without_plus nat
           (LocksScript.oracle LocksCases.storeDown) LocksScript.controller
           "acme%2Finfra%2F.%2Fdefault" 0%nat eq_refl eq_refl).
Defined.

(** X11.  An id without ['%'] that is not empty is never refused:
    [DeleteLock] removes the lock at the id as it is, and [GetLock] asks
    about the id with every ['+'] read as a space. *)
Theorem lock_id_without_escape_is_the_key :
  forall World (oracle : Oracle Call World) l id w,
    let get := GetLock oracle l (Some id) (init w) in
    let del := DeleteLock oracle l (Some id) (init w) in
    strings.Contains id "%" = false ->
    String.eqb id "" = false ->
    storeKeys (trace (snd del)) = [id]
    /\ storeKeys (trace (snd get)) = [plusToSpace id]
    /\ status get <> Some 400 /\ status del <> Some 400.
Proof.
  intros World oracle l id w get del Hc Hne. subst get del.
  destruct (UrlMore.unescape_without_percent id Hc) as [Hp Hq].
  split; [exact (@LocksSpec.DeleteLock_storeKeys World oracle l id id w Hne Hp)|].
  split; [exact (@LocksSpec.GetLock_storeKeys World oracle l id _ w Hq)|].
  rewrite (@GetLock_refuses World oracle l id w),
    (@DeleteLock_refuses World oracle l id w Hne).
  split; intros [e He]; congruence.
Qed.

Lemma lock_id_without_escape_is_the_key_witness :
  let get := GetLock (LocksScript.oracle LocksCases.storeDown)
               LocksScript.controller (Some "acme/infra+prod") (init 0%nat) in
  let del := DeleteLock (LocksScript.oracle LocksCases.storeDown)
               LocksScript.controller (Some "acme/infra+prod") (init 0%nat) in
  strings.Contains "acme/infra+prod" "%" = false
  /\ String.eqb "acme/infra+prod" "" = false
  /\ storeKeys (trace (snd del)) = ["acme/infra+prod"]
  /\ storeKeys (trace (snd get)) = [plusToSpace "acme/infra+prod"]
  /\ status get <> Some 400 /\ status del <> Some 400.
Proof.
  intros get del. split; [reflexivity|]. split; [reflexivity|].
  exact (@lock_id_without_escape_is_the_key nat
           (LocksScript.oracle LocksCases.storeDown) LocksScript.controller
           "acme/infra+prod" 0%nat eq_refl eq_refl).
Defined.

End LocksMore.

(** ** The command runner *)

Module RunnerMore.

Import events Obs ObsMore.
Local Open Scope list_scope.
Local Unset Implicit Arguments.

(** X12.  A comment command whose pull request cannot be resolved ends with one
    line at error level and nothing else.  The error of the GitHub pull
    getter, of the GitLab merge request getter and of the event parser is
    wrapped with what was being done; the parser is not asked when the
    getter fails; a host that is neither GitHub nor GitLab is an error
    without any call. *)
Theorem failed_resolution_is_only_logged :
  forall World (oracle : Oracle Call World) c logger baseRepo maybeHeadRepo
         user pullNum cmd w,
    let log := pullLogger logger (Repo.FullName baseRepo) pullNum in
    let out := RunCommentCommand oracle c logger baseRepo maybeHeadRepo user
                                 pullNum cmd (init w) in
    let ends (w' : World) (calls : list (Event Call)) (err : error) :=
      out = (Returns tt,
             {| collab := w';
                trace := calls ++ [EvLog log (failureLine err)];
                history := [failureLine err] |}) in
    (forall e w',
        VCSHost.Type_ (Repo.VCSHost baseRepo) = Github ->
        DefaultCommandRunner.GithubPullGetter c = impl ->
        oracle _ (GithubPullGetter_GetPullRequest baseRepo pullNum) w
        = (Returns (Err e), w') ->
        ends w' [EvCall (GithubPullGetter_GetPullRequest baseRepo pullNum)
                        (Returns (Err e))]
             (errors_Wrap e "making pull request API call to GitHub"))
    /\ (forall ghPull w1 pull repo headRepo e w2,
          VCSHost.Type_ (Repo.VCSHost baseRepo) = Github ->
          DefaultCommandRunner.GithubPullGetter c = impl ->
          oracle _ (GithubPullGetter_GetPullRequest baseRepo pullNum) w
          = (Returns (Ok ghPull), w1) ->
          oracle _ (EventParser_ParseGithubPull ghPull) w1
          = (Returns (pull, repo, headRepo, Some e), w2) ->
          ends w2 [EvCall (GithubPullGetter_GetPullRequest baseRepo pullNum)
                          (Returns (Ok ghPull));
                   EvCall (EventParser_ParseGithubPull ghPull)
                          (Returns (pull, repo, headRepo, Some e))]
               (errors_Wrap e "extracting required fields from comment data"))
    /\ (forall e w',
          VCSHost.Type_ (Repo.VCSHost baseRepo) = Gitlab ->
          DefaultCommandRunner.GitlabMergeRequestGetter c = impl ->
          oracle _ (GitlabMergeRequestGetter_GetMergeRequest
                      (Repo.FullName baseRepo) pullNum) w
          = (Returns (Err e), w') ->
          ends w' [EvCall (GitlabMergeRequestGetter_GetMergeRequest
                             (Repo.FullName baseRepo) pullNum)
                          (Returns (Err e))]
               (errors_Wrap e "making merge request API call to GitLab"))
    /\ (forall n,
          VCSHost.Type_ (Repo.VCSHost baseRepo) = OtherHost n ->
          ends w [] (errors_New "Unknown VCS type, this is a bug!")).
Proof.
  intros World oracle c logger baseRepo maybeHeadRepo user pullNum cmd w log out
         ends.
  subst ends out log. cbv beta.
  unfold RunCommentCommand, resolvePull, getGithubData, getGitlabData,
    buildLogger, failureLine, pullLogger.
  go_unfold.
  split; [|split; [|split]].
  - intros e w' Hh Hg Ho. rewrite Hh, Hg. cbn. rewrite Ho. reflexivity.
  - intros ghPull w1 pull repo headRepo e w2 Hh Hg Ho Hp.
    rewrite Hh, Hg. cbn. rewrite Ho. cbn. rewrite Hp. reflexivity.
  - intros e w' Hh Hg Ho. rewrite Hh, Hg. cbn. rewrite Ho. reflexivity.
  - intros n Hh. rewrite Hh. reflexivity.
Qed.

Lemma failed_resolution_is_only_logged_witness :
  let oracle := RunnerScript.oracle
                  (RunnerCases.script (Returns (Err (errors_New "404 Not Found")))
                                      (Returns (Ok [])) (Returns None)) in
  let err := errors_Wrap (errors_New "404 Not Found")
                         "making pull request API call to GitHub" in
  oracle _ (GithubPullGetter_GetPullRequest Sample.repo 7) 0%nat
  = (Returns (Err (errors_New "404 Not Found")), 1%nat)
  /\ RunCommentCommand oracle RunnerScript.runner Sample.rootLogger Sample.repo
                       None Sample.alice 7 RunnerScript.planComment (init 0%nat)
     = (Returns tt,
        {| collab := 1%nat;
           trace := [EvCall (GithubPullGetter_GetPullRequest Sample.repo 7)
                            (Returns (Err (errors_New "404 Not Found")))]
                    ++ [EvLog (pullLogger Sample.rootLogger
                                          (Repo.FullName Sample.repo) 7)
                              (failureLine err)];
           history := [failureLine err] |}).
Proof.
  intros oracle err. split; [reflexivity|].
  exact (proj1 (failed_resolution_is_only_logged nat oracle RunnerScript.runner
                  Sample.rootLogger Sample.repo None Sample.alice 7
                  RunnerScript.planComment 0%nat)
               (errors_New "404 Not Found") 1%nat eq_refl eq_refl eq_refl).
Defined.

(** X13.  On GitHub the head repository the caller passes is not used: the
    run is the same with any [maybeHeadRepo]. *)
Theorem github_head_repo_comes_from_the_pull :
  forall World (oracle : Oracle Call World) c logger baseRepo maybeHeadRepo
         user pullNum cmd st,
    VCSHost.Type_ (Repo.VCSHost baseRepo) = Github ->
    RunCommentCommand oracle c logger baseRepo maybeHeadRepo user pullNum cmd st
    = RunCommentCommand oracle c logger baseRepo None user pullNum cmd st.
Proof.
  intros World oracle c logger baseRepo maybeHeadRepo user pullNum cmd st Hh.
  unfold RunCommentCommand, resolvePull. rewrite Hh. reflexivity.
Qed.

Lemma github_head_repo_comes_from_the_pull_witness :
  VCSHost.Type_ (Repo.VCSHost Sample.repo) = Github
  /\ RunCommentCommand (RunnerScript.oracle RunnerScript.steady)
       RunnerScript.runner Sample.rootLogger Sample.repo (Some Sample.fork)
       Sample.alice 7 RunnerScript.planComment (init 0%nat)
     = RunCommentCommand (RunnerScript.oracle RunnerScript.steady)
         RunnerScript.runner Sample.rootLogger Sample.repo None
         Sample.alice 7 RunnerScript.planComment (init 0%nat).
Proof.
  split; [reflexivity|].
  exact (github_head_repo_comes_from_the_pull nat
           (RunnerScript.oracle RunnerScript.steady) RunnerScript.runner
           Sample.rootLogger Sample.repo (Some Sample.fork) Sample.alice 7
           RunnerScript.planComment (init 0%nat) eq_refl).
Defined.

(** X14.  On GitLab the head repository is the one the caller passes, and the
    zero [Repo] when the caller passes none: with fork pull requests
    disallowed, a comment command without head repository on a repository
    that has an owner is refused as a fork pull request, whatever the
    merge request is. *)
Theorem gitlab_comment_without_head_repo_is_refused :
  forall World (oracle : Oracle Call World) c logger baseRepo user pullNum cmd
         w mr w1 pull w2,
    VCSHost.Type_ (Repo.VCSHost baseRepo) = Gitlab ->
    DefaultCommandRunner.GitlabMergeRequestGetter c = impl ->
    DefaultCommandRunner.AllowForkPRs c = false ->
    Repo.Owner baseRepo <> ""%string ->
    oracle _ (GitlabMergeRequestGetter_GetMergeRequest (Repo.FullName baseRepo)
                                                       pullNum) w
    = (Returns (Ok mr), w1) ->
    oracle _ (EventParser_ParseGitlabMergeRequest mr baseRepo) w1
    = (Returns pull, w2) ->
    let tr := trace (snd (RunCommentCommand oracle c logger baseRepo None user
                                            pullNum cmd (init w))) in
    statuses tr = []
    /\ exists r rest,
        tr = [EvCall (GitlabMergeRequestGetter_GetMergeRequest
                        (Repo.FullName baseRepo) pullNum) (Returns (Ok mr));
              EvCall (EventParser_ParseGitlabMergeRequest mr baseRepo)
                     (Returns pull);
              EvLog (pullLogger logger (Repo.FullName baseRepo) pullNum)
                    (infoLine (Str "command was run on a fork pull request which is disallowed"));
              EvCall (VCSClient_CreateComment baseRepo (PullRequest.Num pull)
                        (Sprintf "Atlantis commands can't be run on fork pull requests. To enable, set --%s"
                                 [AStr (DefaultCommandRunner.AllowForkPRsFlag c)]))
                     r]
             ++ rest.
Proof.
  intros World oracle c logger baseRepo user pullNum cmd w mr w1 pull w2
         Hh Hg Hf Ho Hget Hparse tr. subst tr.
  assert (Hres : resolvePull oracle c baseRepo (headOf None) pullNum (init w)
                 = (Returns (pull, Repo.zero, None),
                    {| collab := w2;
                       trace := [EvCall (GitlabMergeRequestGetter_GetMergeRequest
                                           (Repo.FullName baseRepo) pullNum)
                                        (Returns (Ok mr));
                                 EvCall (EventParser_ParseGitlabMergeRequest mr baseRepo)
                                        (Returns pull)];
                       history := [] |})).
  { unfold resolvePull, getGitlabData. rewrite Hh, Hg. go_unfold. cbn.
    rewrite Hget. cbn. rewrite Hparse. reflexivity. }
  rewrite RunnerSpec.RunCommentCommand_split. rewrite Hres. cbv zeta.
  set (ctx := mkCtx (pullLogger logger (Repo.FullName baseRepo) pullNum)
                    baseRepo Repo.zero pull user).
  assert (Hfork : forkRefused c ctx = true).
  { unfold forkRefused. rewrite Hf. cbn.
    destruct (Repo.Owner baseRepo) eqn:E; [contradiction|reflexivity]. }
  assert (Hv : valid c ctx = false).
  { unfold valid. rewrite Hfork. reflexivity. }
  unfold commentBody.
  match goal with
  | |- context [defer_recover _ _ (bind (validateCtxAndComment oracle c ctx) ?k) ?st] =>
      destruct (RunnerSpec.rejected_run _ oracle c ctx k st Hv eq_refl)
        as (r & rest & Htr & Hst & _)
  end.
  rewrite Htr. unfold rejection, rejectionLine. rewrite Hfork. cbn.
  split; [exact Hst|]. exists r, rest. reflexivity.
Qed.

Lemma gitlab_comment_without_head_repo_is_refused_witness :
  let oracle := RunnerScript.oracle RunnerScript.steady in
  let tr := trace (snd (RunCommentCommand oracle RunnerScript.gitlabOnly
                          Sample.rootLogger RunnerCases.gitlabRepo None
                          Sample.alice 7 RunnerScript.planComment (init 0%nat))) in
  Repo.Owner RunnerCases.gitlabRepo <> ""%string
  /\ PullRequest.State Sample.pull = Open
  /\ comments tr
     = [Sprintf "Atlantis commands can't be run on fork pull requests. To enable, set --%s"
                [AStr "allow-fork-prs"]]
  /\ statuses tr = []
  /\ exists r rest,
      tr = [EvCall (GitlabMergeRequestGetter_GetMergeRequest
                      (Repo.FullName RunnerCases.gitlabRepo) 7)
                   (Returns (Ok (GitlabMR "mr 7")));
            EvCall (EventParser_ParseGitlabMergeRequest (GitlabMR "mr 7")
                                                        RunnerCases.gitlabRepo)
                   (Returns Sample.pull);
            EvLog (pullLogger Sample.rootLogger
                              (Repo.FullName RunnerCases.gitlabRepo) 7)
                  (infoLine (Str "command was run on a fork pull request which is disallowed"));
            EvCall (VCSClient_CreateComment RunnerCases.gitlabRepo
                      (PullRequest.Num Sample.pull)
                      (Sprintf "Atlantis commands can't be run on fork pull requests. To enable, set --%s"
                               [AStr (DefaultCommandRunner.AllowForkPRsFlag
                                        RunnerScript.gitlabOnly)]))
                   r]
           ++ rest.
Proof.
  intros oracle tr.
  assert (Ho : Repo.Owner RunnerCases.gitlabRepo <> ""%string) by discriminate.
  split; [exact Ho|]. split; [reflexivity|]. split; [reflexivity|].
  exact (gitlab_comment_without_head_repo_is_refused nat oracle
           RunnerScript.gitlabOnly Sample.rootLogger RunnerCases.gitlabRepo
           Sample.alice 7 RunnerScript.planComment 0%nat (GitlabMR "mr 7") 1%nat
           Sample.pull 2%nat eq_refl eq_refl eq_refl Ho eq_refl eq_refl).
Defined.

End RunnerMore.

(** *** The parts of an invocation *)

Module RunnerTraces.

Import events Obs ObsMore.
Local Open Scope list_scope.
Local Unset Implicit Arguments.

(** The guarded bodies down to the calls, the loop over the units
    apart. *)
Ltac open_body :=
  unfold autoplanBody, commentBody, validateCtxAndComment, updatePull,
    warnStatus;
  go_unfold.

(** What the loop over the units left behind. *)
Ltac plan_facts :=
  repeat match goal with
         | E : planAll _ _ _ _ = (Returns _, _) |- _ =>
             let rs := fresh "rs" in
             let Hlen := fresh "Hlen" in
             let Hout := fresh "Hout" in
             let Htr := fresh "Htr" in
             let Hh := fresh "Hh" in
             apply RunnerSpec.planAll_returns in E;
             destruct E as (rs & Hlen & Hout & Htr & Hh);
             cbn in Hout, Htr, Hh; rewrite ?Htr, ?Hh; subst
         | E : planAll _ _ _ _ = (Panics _, _) |- _ =>
             let rs := fresh "rs" in
             let cmd := fresh "cmd" in
             let Htr := fresh "Htr" in
             let Hh := fresh "Hh" in
             apply RunnerSpec.planAll_panics in E;
             destruct E as (rs & cmd & _ & Htr & Hh);
             cbn in Htr, Hh; rewrite ?Htr, ?Hh
         end.

(** The end of a run of a body: its events are named. *)
Ltac body_leaf :=
  let Heq := fresh "Heq" in
  intros Heq; inversion Heq; subst; clear Heq; plan_facts;
  cbn; rewrite <- ?app_assoc;
  (eexists; split; [reflexivity|]).

(** A projection of events that have the plans of the units in their
    middle. *)
Ltac read_trace :=
  cbn; rewrite ?RunnerSpec.collect_app;
  rewrite ?RunnerSpec.planEvents_silent by reflexivity;
  cbn.

Lemma logPanics_tail World (oracle : Oracle Call World) c ctx v st :
  exists evs,
    trace (snd (logPanics oracle c ctx (Some v) st)) = trace st ++ evs
    /\ panicTail ctx v (fst (logPanics oracle c ctx (Some v) st)) evs.
Proof.
  unfold logPanics, panicTail, panicReport. go_unfold.
  run oracle; rewrite <- ?app_assoc;
    (eexists; split; [reflexivity|]);
    first [ left; eexists; split; reflexivity
          | right; left; eexists _, _; split; reflexivity
          | right; right; eexists _, _; split; reflexivity ].
Qed.

(** A guarded body that returns is the whole of the invocation; one that
    panics is followed by [logPanics]. *)
Lemma guarded_cases World (oracle : Oracle Call World) c ctx
      (body : M Call World unit) st rb st1 :
  body st = (rb, st1) ->
  let out := defer_recover (logPanics oracle c ctx) tt body st in
  match rb with
  | Returns _ => out = (Returns tt, st1)
  | Panics v =>
      exists tail,
        trace (snd out) = trace st1 ++ tail /\ panicTail ctx v (fst out) tail
  end.
Proof.
  intros Hb out. subst out. unfold defer_recover. rewrite Hb.
  destruct rb as [[]|v].
  - reflexivity.
  - destruct (logPanics_tail _ oracle c ctx v st1) as (tail & Htr & Ht).
    exists tail.
    destruct (logPanics oracle c ctx (Some v) st1) as [[[]|v'] st2];
      cbn in *; split; assumption.
Qed.

(** Pull resolution only calls the getters and the parser, and a pull it
    returns without an error is the one the parser gave. *)
Lemma resolvePull_trace World (oracle : Oracle Call World) c baseRepo headRepo
      pullNum st r st' :
  resolvePull oracle c baseRepo headRepo pullNum st = (r, st') ->
  exists evs,
    trace st' = trace st ++ evs
    /\ history st' = history st
    /\ Forall (fun e => resolves e = true) evs
    /\ match r with
       | Returns (pull, _, None) => resolved evs = [pull] /\ panics evs = []
       | Returns (_, _, Some _) => True
       | Panics v => exists X (k : Call X), lastOf evs = Some (EvCall k (Panics v))
       end.
Proof.
  unfold resolvePull, getGithubData, getGitlabData. go_unfold.
  run oracle; intros H; inversion H; subst; clear H; cbn;
    rewrite <- ?app_assoc;
    (eexists; split; [try reflexivity; symmetry; apply app_nil_r|]);
    (split; [reflexivity|]); (split; [repeat constructor|]);
    cbn; eauto.
Qed.

Lemma resolves_silent {B} (f : Event Call -> option B) evs :
  Forall (fun e => resolves e = true) evs ->
  (forall e, resolves e = true -> f e = None) ->
  collect f evs = [].
Proof.
  intros Hq Hf. apply RunnerSpec.collect_none. intros e He.
  apply Hf. rewrite Forall_forall in Hq. apply Hq, He.
Qed.

(** The side condition of [resolves_silent], for a projection that looks
    at none of the calls of pull resolution. *)
Ltac not_resolution :=
  let e := fresh "e" in
  let H := fresh "H" in
  intros e H; destruct e as [? k ?| | |]; try discriminate H;
  destruct k; try discriminate H; reflexivity.

Lemma lastOf_app {A} (l : list A) (a : A) (rest : list A) :
  lastOf (l ++ a :: rest) = lastOf (a :: rest).
Proof.
  induction l as [|b l IH]; [reflexivity|].
  change ((b :: l) ++ a :: rest) with (b :: (l ++ a :: rest)).
  cbn [lastOf]. destruct (l ++ a :: rest) eqn:E.
  - destruct l; discriminate E.
  - exact IH.
Qed.

(** The guarded body of a comment command asks the parser nothing. *)
Lemma commentBody_resolves_nothing World (oracle : Oracle Call World) c ctx cmd
      st r st' :
  commentBody oracle c ctx cmd st = (r, st') ->
  exists evs, trace st' = trace st ++ evs /\ resolved evs = [].
Proof.
  open_body. unfold resolved.
  destruct cmd as [name dir ws verbose].
  run oracle; body_leaf; read_trace; reflexivity.
Qed.

(** An invocation of [RunAutoplanCommand]: the guarded body, then what
    [logPanics] adds when the body panicked. *)
Lemma RunAutoplanCommand_trace World (oracle : Oracle Call World) c logger
      baseRepo headRepo pull user w :
  let ctx := mkCtx (pullLogger logger (Repo.FullName baseRepo) (PullRequest.Num pull))
                   baseRepo headRepo pull user in
  let out := RunAutoplanCommand oracle c logger baseRepo headRepo pull user (init w) in
  exists rb st1 tail,
    autoplanBody oracle c ctx (init w) = (rb, st1)
    /\ trace (snd out) = trace st1 ++ tail
    /\ match rb with
       | Returns _ => tail = [] /\ fst out = Returns tt
       | Panics v => panicTail ctx v (fst out) tail
       end.
Proof.
  intros ctx out. subst out. rewrite RunnerSpec.RunAutoplanCommand_split.
  fold ctx.
  destruct (autoplanBody oracle c ctx (init w)) as [rb st1] eqn:Hb.
  exists rb, st1.
  pose proof (guarded_cases _ oracle c ctx _ _ _ _ Hb) as Hg. cbv zeta in Hg.
  destruct rb as [[]|v].
  - exists []. rewrite Hg. cbn. rewrite app_nil_r. auto.
  - destruct Hg as (tail & Htr & Ht). exists tail. auto.
Qed.

(** An invocation of [RunCommentCommand]: pull resolution, then the line
    of its error, or the guarded body and what [logPanics] adds when the
    body panicked. *)
Lemma RunCommentCommand_trace World (oracle : Oracle Call World) c logger
      baseRepo maybeHeadRepo user pullNum cmd w :
  let log := pullLogger logger (Repo.FullName baseRepo) pullNum in
  let out := RunCommentCommand oracle c logger baseRepo maybeHeadRepo user
                               pullNum cmd (init w) in
  exists rr st0,
    resolvePull oracle c baseRepo (headOf maybeHeadRepo) pullNum (init w) = (rr, st0)
    /\ history st0 = []
    /\ Forall (fun e => resolves e = true) (trace st0)
    /\ match rr with
       | Panics v =>
           out = (Panics v, st0)
           /\ exists X (k : Call X), lastOf (trace st0) = Some (EvCall k (Panics v))
       | Returns (_, _, Some err) =>
           fst out = Returns tt
           /\ trace (snd out) = trace st0 ++ [EvLog log (failureLine err)]
       | Returns (pull, headRepo, None) =>
           let ctx := mkCtx log baseRepo headRepo pull user in
           resolved (trace (snd out)) = [pull]
           /\ panics (trace st0) = []
           /\ exists rb st1 tail,
               commentBody oracle c ctx cmd st0 = (rb, st1)
               /\ trace (snd out) = trace st1 ++ tail
               /\ match rb with
                  | Returns _ => tail = [] /\ fst out = Returns tt
                  | Panics v => panicTail ctx v (fst out) tail
                  end
       end.
Proof.
  intros log out. subst out. rewrite RunnerSpec.RunCommentCommand_split.
  fold log.
  destruct (resolvePull oracle c baseRepo (headOf maybeHeadRepo) pullNum (init w))
    as [rr st0] eqn:Hr.
  exists rr, st0. split; [reflexivity|].
  destruct (resolvePull_trace _ oracle c _ _ _ _ _ _ Hr)
    as (pre & Htr & Hh & Hq & Hres).
  cbn in Htr, Hh. subst pre. split; [exact Hh|]. split; [exact Hq|].
  destruct rr as [[[pull headRepo] [err|]]|v].
  - split; reflexivity.
  - cbv zeta.
    set (ctx := mkCtx log baseRepo headRepo pull user).
    destruct (commentBody oracle c ctx cmd st0) as [rb st1] eqn:Hb.
    pose proof (guarded_cases _ oracle c ctx _ _ _ _ Hb) as Hg. cbv zeta in Hg.
    destruct (commentBody_resolves_nothing _ oracle c ctx cmd _ _ _ Hb)
      as (evs & He & Hn).
    destruct Hres as [Hres Hnp].
    destruct rb as [[]|v].
    + rewrite Hg. cbn. split; [|split; [exact Hnp|]].
      * rewrite He. unfold resolved in *.
        rewrite RunnerSpec.collect_app, Hres, Hn. reflexivity.
      * exists (Returns tt), st1, []. rewrite app_nil_r. auto.
    + destruct Hg as (tail & Htr' & Ht). split; [|split; [exact Hnp|]].
      * rewrite Htr', He. unfold resolved in *.
        rewrite !RunnerSpec.collect_app, Hres, Hn.
        destruct Ht as [(v' & _ & ->)|[(stack & v' & _ & ->)|(stack & e & _ & ->)]];
          reflexivity.
      * exists (Panics v), st1, tail. auto.
  - split; [reflexivity|exact Hres].
Qed.

End RunnerTraces.


(** *** Whole invocations *)

Module RunnerRuns.

Import events Obs ObsMore RunnerTraces.
Local Open Scope list_scope.
Local Unset Implicit Arguments.

(** The cases of the end of an invocation: the body returned, or it
    panicked and [logPanics] ended in one of its three ways. *)
Ltac tail_cases H :=
  match type of H with
  | match ?rb with _ => _ end =>
      destruct rb as [[]|?v];
      [ destruct H as [-> ?]
      | destruct H as [(?v' & ? & ->)|[(?stack & ?v' & ? & ->)|(?stack & ?e & ? & ->)]] ]
  end;
  unfold panicReport.

Lemma autoplanBody_warns World (oracle : Oracle Call World) c ctx st r st' :
  autoplanBody oracle c ctx st = (r, st') ->
  exists evs,
    trace st' = trace st ++ evs
    /\ warnings evs = map statusWarning (statusErrors evs).
Proof.
  open_body. unfold warnings, statusErrors.
  run oracle; body_leaf; read_trace; reflexivity.
Qed.

Lemma commentBody_warns World (oracle : Oracle Call World) c ctx cmd st r st' :
  commentBody oracle c ctx cmd st = (r, st') ->
  exists evs,
    trace st' = trace st ++ evs
    /\ warnings evs = map statusWarning (statusErrors evs).
Proof.
  open_body. unfold warnings, statusErrors.
  destruct cmd as [name dir ws verbose].
  run oracle; body_leaf; read_trace; reflexivity.
Qed.

(** X15.  An error of the commit status updater, for the pending status or
    for the result, is logged as the warning [unable to update commit
    status] and otherwise ignored, and nothing else is ever logged at
    warning level: in both entry points the warnings are those of the
    errors the status updates returned, in order.  ([updatePull] is never
    given a result with a failure text by the entry points.) *)
Theorem status_errors_are_the_only_warnings :
  forall World (oracle : Oracle Call World) c logger baseRepo,
    (forall headRepo pull user w,
        let tr := trace (snd (RunAutoplanCommand oracle c logger baseRepo
                                headRepo pull user (init w))) in
        warnings tr = map statusWarning (statusErrors tr))
    /\ (forall maybeHeadRepo user pullNum cmd w,
          let tr := trace (snd (RunCommentCommand oracle c logger baseRepo
                                  maybeHeadRepo user pullNum cmd (init w))) in
          warnings tr = map statusWarning (statusErrors tr)).
Proof.
  intros World oracle c logger baseRepo. split.
  - intros headRepo pull user w tr. subst tr.
    destruct (RunAutoplanCommand_trace _ oracle c logger baseRepo headRepo pull
                                       user w)
      as (rb & st1 & tail & Hb & Htr & Hcase).
    apply autoplanBody_warns in Hb. destruct Hb as (evs & He & Hw).
    rewrite Htr, He. unfold warnings, statusErrors in *.
    rewrite !RunnerSpec.collect_app, !map_app, Hw.
    tail_cases Hcase; reflexivity.
  - intros maybeHeadRepo user pullNum cmd w tr. subst tr.
    destruct (RunCommentCommand_trace _ oracle c logger baseRepo maybeHeadRepo
                                      user pullNum cmd w)
      as (rr & st0 & _ & _ & Hq & Hcase).
    pose proof (resolves_silent warningOf _ Hq ltac:(not_resolution)) as Hw0.
    pose proof (resolves_silent statusErrorOf _ Hq ltac:(not_resolution)) as He0.
    unfold warnings, statusErrors in *.
    destruct rr as [[[pull headRepo] [err|]]|v].
    + destruct Hcase as [_ ->]. rewrite !RunnerSpec.collect_app, Hw0, He0.
      reflexivity.
    + destruct Hcase as (_ & _ & rb & st1 & tail & Hb & Htr & Hcase).
      apply commentBody_warns in Hb. destruct Hb as (evs & He & Hw).
      rewrite Htr, He. unfold warnings, statusErrors in *.
      rewrite !RunnerSpec.collect_app, !map_app, Hw, Hw0, He0.
      tail_cases Hcase; reflexivity.
    + destruct Hcase as [-> _]. cbn. rewrite Hw0, He0. reflexivity.
Qed.

Ltac in_order :=
  first [ left; reflexivity
        | right; left; reflexivity
        | right; right; eexists; reflexivity ].

Lemma autoplanBody_status World (oracle : Oracle Call World) c ctx st r st' :
  autoplanBody oracle c ctx st = (r, st') ->
  exists evs,
    trace st' = trace st ++ evs
    /\ pendingThenResult (CommandContext.BaseRepo ctx) (CommandContext.Pull ctx)
                         Plan (statusCalls evs).
Proof.
  open_body. unfold pendingThenResult, statusCalls.
  run oracle; body_leaf; read_trace; in_order.
Qed.

Lemma commentBody_status World (oracle : Oracle Call World) c ctx cmd st r st' :
  commentBody oracle c ctx cmd st = (r, st') ->
  exists evs,
    trace st' = trace st ++ evs
    /\ pendingThenResult (CommandContext.BaseRepo ctx) (CommandContext.Pull ctx)
                         (CommentCommand.Name cmd) (statusCalls evs).
Proof.
  open_body. unfold pendingThenResult, statusCalls.
  destruct cmd as [name dir ws verbose].
  run oracle; body_leaf; read_trace; in_order.
Qed.

(** X16.  The status updater is called at most twice in an invocation: first
    with the pending status of the pull for the command, then with the
    result; the result is never reported without the pending status
    before it.  In [RunCommentCommand] the pull is the one the event
    parser returned. *)
Theorem status_updates_in_order :
  forall World (oracle : Oracle Call World) c logger baseRepo,
    (forall headRepo pull user w,
        let tr := trace (snd (RunAutoplanCommand oracle c logger baseRepo
                                headRepo pull user (init w))) in
        pendingThenResult baseRepo pull Plan (statusCalls tr))
    /\ (forall maybeHeadRepo user pullNum cmd w,
          let tr := trace (snd (RunCommentCommand oracle c logger baseRepo
                                  maybeHeadRepo user pullNum cmd (init w))) in
          statusCalls tr = []
          \/ exists pull,
              resolved tr = [pull]
              /\ pendingThenResult baseRepo pull (CommentCommand.Name cmd)
                                   (statusCalls tr)).
Proof.
  intros World oracle c logger baseRepo. split.
  - intros headRepo pull user w tr. subst tr.
    destruct (RunAutoplanCommand_trace _ oracle c logger baseRepo headRepo pull
                                       user w)
      as (rb & st1 & tail & Hb & Htr & Hcase).
    apply autoplanBody_status in Hb. destruct Hb as (evs & He & Hs).
    rewrite Htr, He. unfold statusCalls in *.
    rewrite !RunnerSpec.collect_app.
    tail_cases Hcase; cbn; rewrite app_nil_r; exact Hs.
  - intros maybeHeadRepo user pullNum cmd w tr. subst tr.
    destruct (RunCommentCommand_trace _ oracle c logger baseRepo maybeHeadRepo
                                      user pullNum cmd w)
      as (rr & st0 & _ & _ & Hq & Hcase).
    pose proof (resolves_silent statusCallOf _ Hq ltac:(not_resolution)) as Hs0.
    destruct rr as [[[pull headRepo] [err|]]|v].
    + left. destruct Hcase as [_ ->]. unfold statusCalls.
      rewrite RunnerSpec.collect_app, Hs0. reflexivity.
    + right. exists pull.
      destruct Hcase as (Hres & _ & rb & st1 & tail & Hb & Htr & Hcase).
      split; [exact Hres|].
      apply commentBody_status in Hb. destruct Hb as (evs & He & Hs).
      rewrite Htr, He. unfold statusCalls in *.
      rewrite !RunnerSpec.collect_app, Hs0.
      tail_cases Hcase; cbn; rewrite app_nil_r; exact Hs.
    + left. destruct Hcase as [-> _]. exact Hs0.
Qed.

Lemma hd_error_app {A} (l1 l2 : list A) (a : A) :
  hd_error l1 = Some a -> hd_error (l1 ++ l2) = Some a.
Proof. destruct l1; [discriminate|auto]. Qed.

Lemma autoplanBody_build_error World (oracle : Oracle Call World) c ctx st r st'
      err :
  autoplanBody oracle c ctx st = (r, st') ->
  exists evs,
    trace st' = trace st ++ evs
    /\ (built evs = [Returns (Err err)] ->
        plans evs = []
        /\ reported evs = [CommandResult.of_Error err]
        /\ hd_error (errorMessages evs) = Some (ErrorString err)).
Proof.
  open_body. unfold built, plans, reported, errorMessages.
  run oracle; body_leaf; read_trace;
    intros Hb; try discriminate Hb; inversion Hb; subst; auto.
Qed.

Lemma commentBody_build_error World (oracle : Oracle Call World) c ctx cmd st r
      st' err :
  commentBody oracle c ctx cmd st = (r, st') ->
  exists evs,
    trace st' = trace st ++ evs
    /\ (planBuilt evs ++ applyBuilt evs = [Returns (Err err)] ->
        plans evs = [] /\ applies evs = []
        /\ reported evs = [CommandResult.of_Error err]
        /\ hd_error (errorMessages evs) = Some (ErrorString err)).
Proof.
  open_body. unfold planBuilt, applyBuilt, plans, applies, reported, errorMessages.
  destruct cmd as [name dir ws verbose].
  run oracle; body_leaf; read_trace;
    intros Hb; try discriminate Hb; inversion Hb; subst; auto.
Qed.

(** X17.  When the builder returns an error no unit is run: the error is
    logged at error level before anything else is, and it is the result
    handed to the status updater.  So for [BuildAutoplanCommands] in
    [RunAutoplanCommand], and for [BuildPlanCommand] and
    [BuildApplyCommand] in [RunCommentCommand]. *)
Theorem builder_error_is_the_result :
  forall World (oracle : Oracle Call World) c logger baseRepo err,
    (forall headRepo pull user w,
        let tr := trace (snd (RunAutoplanCommand oracle c logger baseRepo
                                headRepo pull user (init w))) in
        built tr = [Returns (Err err)] ->
        plans tr = []
        /\ reported tr = [CommandResult.of_Error err]
        /\ hd_error (errorMessages tr) = Some (ErrorString err))
    /\ (forall maybeHeadRepo user pullNum cmd w,
          let tr := trace (snd (RunCommentCommand oracle c logger baseRepo
                                  maybeHeadRepo user pullNum cmd (init w))) in
          planBuilt tr ++ applyBuilt tr = [Returns (Err err)] ->
          plans tr = [] /\ applies tr = []
          /\ reported tr = [CommandResult.of_Error err]
          /\ hd_error (errorMessages tr) = Some (ErrorString err)).
Proof.
  intros World oracle c logger baseRepo err. split.
  - intros headRepo pull user w tr. subst tr.
    destruct (RunAutoplanCommand_trace _ oracle c logger baseRepo headRepo pull
                                       user w)
      as (rb & st1 & tail & Hb & Htr & Hcase).
    apply (autoplanBody_build_error _ oracle c _ _ _ _ err) in Hb.
    destruct Hb as (evs & He & Hf).
    rewrite Htr, He. unfold built, plans, reported, errorMessages in *.
    rewrite !RunnerSpec.collect_app.
    tail_cases Hcase; cbn; rewrite ?app_nil_r; intros Hbuilt;
      destruct (Hf Hbuilt) as (H1 & H2 & H3); repeat split; auto using hd_error_app.
  - intros maybeHeadRepo user pullNum cmd w tr. subst tr.
    destruct (RunCommentCommand_trace _ oracle c logger baseRepo maybeHeadRepo
                                      user pullNum cmd w)
      as (rr & st0 & _ & _ & Hq & Hcase).
    pose proof (resolves_silent planBuiltOf _ Hq ltac:(not_resolution)) as Hp0.
    pose proof (resolves_silent applyBuiltOf _ Hq ltac:(not_resolution)) as Ha0.
    pose proof (resolves_silent planOf _ Hq ltac:(not_resolution)) as Hpl0.
    pose proof (resolves_silent applyOf _ Hq ltac:(not_resolution)) as Hap0.
    pose proof (resolves_silent reportedOf _ Hq ltac:(not_resolution)) as Hr0.
    pose proof (resolves_silent errorMessageOf _ Hq ltac:(not_resolution)) as He0.
    unfold planBuilt, applyBuilt, plans, applies, reported, errorMessages in *.
    destruct rr as [[[pull headRepo] [e|]]|v].
    + destruct Hcase as [_ ->]. rewrite !RunnerSpec.collect_app, Hp0, Ha0.
      discriminate.
    + destruct Hcase as (_ & _ & rb & st1 & tail & Hb & Htr & Hcase).
      apply (commentBody_build_error _ oracle c _ _ _ _ _ err) in Hb.
      destruct Hb as (evs & He & Hf).
      rewrite Htr, He.
      unfold planBuilt, applyBuilt, plans, applies, reported, errorMessages in *.
      rewrite !RunnerSpec.collect_app, Hp0, Ha0, Hpl0, Hap0, Hr0, He0.
      tail_cases Hcase; cbn; rewrite ?app_nil_r; intros Hbuilt;
        destruct (Hf Hbuilt) as (H1 & H2 & H3 & H4); repeat split;
        auto using hd_error_app.
    + destruct Hcase as [-> _]. cbn. rewrite Hp0, Ha0. discriminate.
Qed.

Lemma builder_error_is_the_result_witness :
  let err := errors_New "parsing atlantis.yaml" in
  let auto_ := trace (snd (RunAutoplanCommand
                             (RunnerScript.oracle
                                (RunnerCases.script
                                   (RunnerScript.getPullRequest RunnerScript.steady)
                                   (Returns (Err err)) (Returns None)))
                             RunnerScript.runner Sample.rootLogger Sample.repo
                             Sample.repo Sample.pull Sample.alice (init 0%nat))) in
  let comment := trace (snd (RunCommentCommand
                               (RunnerScript.oracle
                                  (RunnerCases.planning (Returns (Err err))
                                     (RunnerScript.plan RunnerScript.steady)
                                     (RunnerScript.stack RunnerScript.steady)))
                               RunnerScript.runner Sample.rootLogger Sample.repo
                               None Sample.alice 7 RunnerScript.planComment
                               (init 0%nat))) in
  (built auto_ = [Returns (Err err)]
   /\ plans auto_ = []
   /\ reported auto_ = [CommandResult.of_Error err]
   /\ hd_error (errorMessages auto_) = Some (ErrorString err))
  /\ (planBuilt comment ++ applyBuilt comment = [Returns (Err err)]
      /\ plans comment = [] /\ applies comment = []
      /\ reported comment = [CommandResult.of_Error err]
      /\ hd_error (errorMessages comment) = Some (ErrorString err)).
Proof.
  intros err auto_ comment.
  assert (Ha : built auto_ = [Returns (Err err)]) by (vm_compute; reflexivity).
  assert (Hc : planBuilt comment ++ applyBuilt comment = [Returns (Err err)])
    by (vm_compute; reflexivity).
  split.
  - split; [exact Ha|].
    exact (proj1 (builder_error_is_the_result nat _ RunnerScript.runner
                    Sample.rootLogger Sample.repo err)
                 Sample.repo Sample.pull Sample.alice 0%nat Ha).
  - split; [exact Hc|].
    exact (proj2 (builder_error_is_the_result nat _ RunnerScript.runner
                    Sample.rootLogger Sample.repo err)
                 None Sample.alice 7 RunnerScript.planComment 0%nat Hc).
Defined.

Ltac no_unit :=
  let p := fresh "p" in
  let H := fresh "H" in
  intros p H; cbn in H;
  repeat match goal with
         | H : _ \/ _ |- _ => destruct H as [H|H]
         end;
  first [discriminate H | contradiction].

Lemma commentBody_dispatched World (oracle : Oracle Call World) c ctx cmd st r st' :
  commentBody oracle c ctx cmd st = (r, st') ->
  exists evs, trace st' = trace st ++ evs /\ dispatched cmd evs.
Proof.
  open_body.
  unfold dispatched, oneStep, stepResult, plans, applies, planBuilt, applyBuilt,
    reported.
  destruct cmd as [name dir ws verbose].
  run oracle; body_leaf; read_trace;
    repeat split; try reflexivity; try no_unit.
Qed.

Lemma dispatched_ext cmd evs tr :
  plans tr = plans evs -> applies tr = applies evs ->
  planBuilt tr = planBuilt evs -> applyBuilt tr = applyBuilt evs ->
  reported tr = reported evs ->
  dispatched cmd evs -> dispatched cmd tr.
Proof.
  unfold dispatched. intros -> -> -> -> ->. auto.
Qed.

(** X18.  [RunCommentCommand] runs the step its command names and no other:
    a plan command never builds or runs an apply, an apply command never
    builds or runs a plan, and a command that is neither builds, runs and
    reports nothing.  The step runs at most once, on the unit the builder
    returned, and what it returns is reported as the only project result,
    under the directory and the workspace of the command. *)
Theorem comment_command_runs_its_own_step :
  forall World (oracle : Oracle Call World) c logger baseRepo maybeHeadRepo
         user pullNum cmd w,
    let tr := trace (snd (RunCommentCommand oracle c logger baseRepo
                            maybeHeadRepo user pullNum cmd (init w))) in
    dispatched cmd tr.
Proof.
  intros World oracle c logger baseRepo maybeHeadRepo user pullNum cmd w tr.
  subst tr.
  destruct (RunCommentCommand_trace _ oracle c logger baseRepo maybeHeadRepo
                                    user pullNum cmd w)
    as (rr & st0 & _ & _ & Hq & Hcase).
  pose proof (resolves_silent planBuiltOf _ Hq ltac:(not_resolution)) as Hp0.
  pose proof (resolves_silent applyBuiltOf _ Hq ltac:(not_resolution)) as Ha0.
  pose proof (resolves_silent planOf _ Hq ltac:(not_resolution)) as Hpl0.
  pose proof (resolves_silent applyOf _ Hq ltac:(not_resolution)) as Hap0.
  pose proof (resolves_silent reportedOf _ Hq ltac:(not_resolution)) as Hr0.
  assert (Hnone : forall evs : list (Event Call),
             plans evs = [] -> applies evs = [] -> planBuilt evs = [] ->
             applyBuilt evs = [] -> reported evs = [] -> dispatched cmd evs).
  { intros evs H1 H2 H3 H4 H5. unfold dispatched, oneStep.
    rewrite H1, H2, H3, H4, H5.
    destruct (CommentCommand.Name cmd); repeat split; intros p []. }
  destruct rr as [[[pull headRepo] [e|]]|v].
  - destruct Hcase as [_ ->].
    apply Hnone; unfold plans, applies, planBuilt, applyBuilt, reported;
      rewrite RunnerSpec.collect_app;
      rewrite ?Hp0, ?Ha0, ?Hpl0, ?Hap0, ?Hr0; reflexivity.
  - destruct Hcase as (_ & _ & rb & st1 & tail & Hb & Htr & Hcase).
    apply commentBody_dispatched in Hb. destruct Hb as (evs & He & Hd).
    rewrite Htr, He. apply (dispatched_ext cmd evs); [ | | | | |exact Hd];
      unfold plans, applies, planBuilt, applyBuilt, reported;
      rewrite !RunnerSpec.collect_app;
      rewrite ?Hp0, ?Ha0, ?Hpl0, ?Hap0, ?Hr0;
      tail_cases Hcase; cbn; rewrite ?app_nil_r; reflexivity.
  - destruct Hcase as [-> _]. apply Hnone; assumption.
Qed.

Lemma autoplanBody_places World (oracle : Oracle Call World) c ctx st r st' :
  autoplanBody oracle c ctx st = (r, st') ->
  exists evs,
    trace st' = trace st ++ evs
    /\ Forall (eq (CommandContext.BaseRepo ctx,
                   PullRequest.Num (CommandContext.Pull ctx)))
              (commentPlaces evs).
Proof.
  open_body. unfold commentPlaces.
  run oracle; body_leaf; read_trace; repeat constructor.
Qed.

Lemma commentBody_places World (oracle : Oracle Call World) c ctx cmd st r st' :
  commentBody oracle c ctx cmd st = (r, st') ->
  exists evs,
    trace st' = trace st ++ evs
    /\ Forall (eq (CommandContext.BaseRepo ctx,
                   PullRequest.Num (CommandContext.Pull ctx)))
              (commentPlaces evs).
Proof.
  open_body. unfold commentPlaces.
  destruct cmd as [name dir ws verbose].
  run oracle; body_leaf; read_trace; repeat constructor.
Qed.

(** X19.  Every comment of an invocation, the one of [logPanics] included,
    is posted on the base repository, under the number of the pull of the
    context: in [RunCommentCommand] that is the number of the pull the
    event parser returned, not the [pullNum] the command came with. *)
Theorem comments_go_to_the_pull_of_the_context :
  forall World (oracle : Oracle Call World) c logger baseRepo,
    (forall headRepo pull user w,
        let tr := trace (snd (RunAutoplanCommand oracle c logger baseRepo
                                headRepo pull user (init w))) in
        Forall (eq (baseRepo, PullRequest.Num pull)) (commentPlaces tr))
    /\ (forall maybeHeadRepo user pullNum cmd w,
          let tr := trace (snd (RunCommentCommand oracle c logger baseRepo
                                  maybeHeadRepo user pullNum cmd (init w))) in
          commentPlaces tr = []
          \/ exists pull,
              resolved tr = [pull]
              /\ Forall (eq (baseRepo, PullRequest.Num pull)) (commentPlaces tr)).
Proof.
  intros World oracle c logger baseRepo. split.
  - intros headRepo pull user w tr. subst tr.
    destruct (RunAutoplanCommand_trace _ oracle c logger baseRepo headRepo pull
                                       user w)
      as (rb & st1 & tail & Hb & Htr & Hcase).
    apply autoplanBody_places in Hb. destruct Hb as (evs & He & Hp).
    rewrite Htr, He. unfold commentPlaces in *.
    rewrite !RunnerSpec.collect_app. cbn [app].
    apply Forall_app. split; [exact Hp|].
    tail_cases Hcase; repeat constructor.
  - intros maybeHeadRepo user pullNum cmd w tr. subst tr.
    destruct (RunCommentCommand_trace _ oracle c logger baseRepo maybeHeadRepo
                                      user pullNum cmd w)
      as (rr & st0 & _ & _ & Hq & Hcase).
    pose proof (resolves_silent commentPlaceOf _ Hq ltac:(not_resolution)) as Hc0.
    destruct rr as [[[pull headRepo] [err|]]|v].
    + left. destruct Hcase as [_ ->]. unfold commentPlaces.
      rewrite RunnerSpec.collect_app, Hc0. reflexivity.
    + right. exists pull.
      destruct Hcase as (Hres & _ & rb & st1 & tail & Hb & Htr & Hcase).
      split; [exact Hres|].
      apply commentBody_places in Hb. destruct Hb as (evs & He & Hp).
      rewrite Htr, He. unfold commentPlaces in *.
      rewrite !RunnerSpec.collect_app, Hc0. cbn [app].
      apply Forall_app. split; [exact Hp|].
      tail_cases Hcase; repeat constructor.
    + left. destruct Hcase as [-> _]. exact Hc0.
Qed.

Ltac at_most_once :=
  first [ left; reflexivity
        | right; eexists; repeat split; reflexivity ].

Lemma autoplanBody_renders World (oracle : Oracle Call World) c ctx st r st' :
  autoplanBody oracle c ctx st = (r, st') ->
  exists evs,
    trace st' = trace st ++ evs
    /\ renderedOnce (CommandName_of AutoplanCommand_lit)
                    (IsVerbose AutoplanCommand_lit)
                    (IsAutoplan AutoplanCommand_lit) evs.
Proof.
  open_body. unfold renderedOnce, renders, reported, reportsReturned.
  run oracle; body_leaf; read_trace; at_most_once.
Qed.

Lemma commentBody_renders World (oracle : Oracle Call World) c ctx cmd st r st' :
  commentBody oracle c ctx cmd st = (r, st') ->
  exists evs,
    trace st' = trace st ++ evs
    /\ renderedOnce (CommandName_of cmd) (IsVerbose cmd) (IsAutoplan cmd) evs.
Proof.
  open_body. unfold renderedOnce, renders, reported, reportsReturned.
  destruct cmd as [name dir ws verbose].
  run oracle; body_leaf; read_trace; at_most_once.
Qed.

Lemma renderedOnce_ext name verbose autoplan evs tr :
  renders tr = renders evs -> reported tr = reported evs ->
  reportsReturned tr = reportsReturned evs ->
  renderedOnce name verbose autoplan evs -> renderedOnce name verbose autoplan tr.
Proof.
  unfold renderedOnce. intros -> -> ->. auto.
Qed.

(** X20.  The renderer is called at most once in an invocation, and only
    for the one result that was handed to the status updater, after that
    update returned; it is given the name, the verbosity and the autoplan
    flag of the command [updatePull] was called with: [AutoplanCommand{}]
    in [RunAutoplanCommand], the comment command in
    [RunCommentCommand]. *)
Theorem renderer_is_called_at_most_once :
  forall World (oracle : Oracle Call World) c logger baseRepo,
    (forall headRepo pull user w,
        let tr := trace (snd (RunAutoplanCommand oracle c logger baseRepo
                                headRepo pull user (init w))) in
        renderedOnce (CommandName_of AutoplanCommand_lit)
                     (IsVerbose AutoplanCommand_lit)
                     (IsAutoplan AutoplanCommand_lit) tr)
    /\ (forall maybeHeadRepo user pullNum cmd w,
          let tr := trace (snd (RunCommentCommand oracle c logger baseRepo
                                  maybeHeadRepo user pullNum cmd (init w))) in
          renderedOnce (CommandName_of cmd) (IsVerbose cmd) (IsAutoplan cmd) tr).
Proof.
  intros World oracle c logger baseRepo. split.
  - intros headRepo pull user w tr. subst tr.
    destruct (RunAutoplanCommand_trace _ oracle c logger baseRepo headRepo pull
                                       user w)
      as (rb & st1 & tail & Hb & Htr & Hcase).
    apply autoplanBody_renders in Hb.
    destruct Hb as (evs & He & Honce).
    rewrite Htr, He. cbn [trace init app] in *.
    apply (renderedOnce_ext _ _ _ evs); [ | | |exact Honce];
      unfold renders, reported, reportsReturned; rewrite RunnerSpec.collect_app;
      tail_cases Hcase; cbn; rewrite ?app_nil_r; reflexivity.
  - intros maybeHeadRepo user pullNum cmd w tr. subst tr.
    destruct (RunCommentCommand_trace _ oracle c logger baseRepo maybeHeadRepo
                                      user pullNum cmd w)
      as (rr & st0 & _ & _ & Hq & Hcase).
    pose proof (resolves_silent renderOf _ Hq ltac:(not_resolution)) as Hr0.
    pose proof (resolves_silent reportedOf _ Hq ltac:(not_resolution)) as Hp0.
    pose proof (resolves_silent reportReturnedOf _ Hq ltac:(not_resolution)) as Hu0.
    destruct rr as [[[pull headRepo] [err|]]|v].
    + destruct Hcase as [_ ->].
      left. unfold renders. rewrite RunnerSpec.collect_app, Hr0. reflexivity.
    + destruct Hcase as (_ & _ & rb & st1 & tail & Hb & Htr & Hcase).
      apply commentBody_renders in Hb.
      destruct Hb as (evs & He & Honce).
      rewrite Htr, He, <- app_assoc.
      apply (renderedOnce_ext _ _ _ evs); [ | | |exact Honce];
        unfold renders, reported, reportsReturned in *;
        rewrite !RunnerSpec.collect_app;
        rewrite ?Hr0, ?Hp0, ?Hu0;
        tail_cases Hcase; cbn; rewrite ?app_nil_r; reflexivity.
    + destruct Hcase as [-> _]. left. exact Hr0.
Qed.

Lemma autoplanBody_panics World (oracle : Oracle Call World) c ctx st r st' :
  autoplanBody oracle c ctx st = (r, st') ->
  exists evs,
    trace st' = trace st ++ evs
    /\ panics evs = match r with Returns _ => [] | Panics v => [v] end.
Proof.
  open_body. unfold panics.
  run oracle; body_leaf; read_trace; reflexivity.
Qed.

Lemma commentBody_panics World (oracle : Oracle Call World) c ctx cmd st r st' :
  commentBody oracle c ctx cmd st = (r, st') ->
  exists evs,
    trace st' = trace st ++ evs
    /\ panics evs = match r with Returns _ => [] | Panics v => [v] end.
Proof.
  open_body. unfold panics.
  destruct cmd as [name dir ws verbose].
  run oracle; body_leaf; read_trace; reflexivity.
Qed.

Lemma reportPanicked_tail ctx evs v0 v tail :
  panics evs = [v0] ->
  panicTail ctx v0 (Panics v) tail ->
  reportPanicked (CommandContext.BaseRepo ctx) (CommandContext.Pull ctx) v
                 (evs ++ tail).
Proof.
  intros Hp [(v' & Hv & ->)|[(stack & v' & Hv & ->)|(stack & e & Hv & _)]];
    try discriminate Hv; inversion Hv; subst v'; exists v0;
    unfold panics in *; rewrite RunnerSpec.collect_app, Hp, lastOf_app;
    (split; [reflexivity|]).
  - left. reflexivity.
  - right. exists stack. reflexivity.
Qed.

(** X21.  A panic leaves an entry point only from where the recovery
    boundary does not reach.  When [RunAutoplanCommand] panics, a
    collaborator had panicked in the guarded body and then, in
    [logPanics], [recovery.Stack] or the comment client panicked in turn:
    that call is the last event of the invocation.  When
    [RunCommentCommand] panics it is either so, for the pull the parser
    returned, or the panic is the one of a pull getter or of the event
    parser, and nothing else happened. *)
Theorem panics_leave_only_from_logPanics_or_resolution :
  forall World (oracle : Oracle Call World) c logger baseRepo v,
    (forall headRepo pull user w,
        let out := RunAutoplanCommand oracle c logger baseRepo headRepo pull
                                      user (init w) in
        fst out = Panics v ->
        reportPanicked baseRepo pull v (trace (snd out)))
    /\ (forall maybeHeadRepo user pullNum cmd w,
          let out := RunCommentCommand oracle c logger baseRepo maybeHeadRepo
                                       user pullNum cmd (init w) in
          fst out = Panics v ->
          (Forall (fun e => resolves e = true) (trace (snd out))
           /\ exists X (k : Call X),
               lastOf (trace (snd out)) = Some (EvCall k (Panics v)))
          \/ exists pull,
              resolved (trace (snd out)) = [pull]
              /\ reportPanicked baseRepo pull v (trace (snd out))).
Proof.
  intros World oracle c logger baseRepo v. split.
  - intros headRepo pull user w out Hout. subst out.
    destruct (RunAutoplanCommand_trace _ oracle c logger baseRepo headRepo pull
                                       user w)
      as (rb & st1 & tail & Hb & Htr & Hcase).
    apply autoplanBody_panics in Hb. destruct Hb as (evs & He & Hp).
    rewrite Htr, He. cbn [trace init app].
    destruct rb as [[]|v0].
    + destruct Hcase as [_ Hf]. rewrite Hf in Hout. discriminate.
    + rewrite Hout in Hcase.
      exact (reportPanicked_tail _ evs v0 v tail Hp Hcase).
  - intros maybeHeadRepo user pullNum cmd w out Hout. subst out.
    destruct (RunCommentCommand_trace _ oracle c logger baseRepo maybeHeadRepo
                                      user pullNum cmd w)
      as (rr & st0 & _ & _ & Hq & Hcase).
    destruct rr as [[[pull headRepo] [err|]]|v0].
    + destruct Hcase as [Hf _]. rewrite Hf in Hout. discriminate.
    + right. exists pull.
      destruct Hcase as (Hres & Hp0 & rb & st1 & tail & Hb & Htr & Hcase).
      split; [exact Hres|].
      apply commentBody_panics in Hb. destruct Hb as (evs & He & Hp).
      destruct rb as [[]|v0].
      * destruct Hcase as [_ Hf]. rewrite Hf in Hout. discriminate.
      * rewrite Hout in Hcase. rewrite Htr, He.
        refine (reportPanicked_tail
                  (mkCtx (pullLogger logger (Repo.FullName baseRepo) pullNum)
                         baseRepo headRepo pull user)
                  (trace st0 ++ evs) v0 v tail _ Hcase).
        unfold panics in *. rewrite RunnerSpec.collect_app, Hp0, Hp. reflexivity.
    + left. destruct Hcase as [Ho Hlast]. rewrite Ho in *. cbn in Hout.
      inversion Hout; subst v0. split; [exact Hq|exact Hlast].
Qed.

Lemma panics_leave_only_from_logPanics_or_resolution_witness :
  let oracle := RunnerScript.oracle
                  (RunnerCases.planning (Returns (Ok (RunnerScript.unit_ "network")))
                     (fun _ => Panics "index out of range")
                     (Panics "stack overflow")) in
  let auto_ := RunAutoplanCommand oracle RunnerScript.runner Sample.rootLogger
                 Sample.repo Sample.repo Sample.pull Sample.alice (init 0%nat) in
  let comment := RunCommentCommand oracle RunnerScript.runner Sample.rootLogger
                   Sample.repo None Sample.alice 7 RunnerScript.planComment
                   (init 0%nat) in
  (fst auto_ = Panics "stack overflow"
   /\ reportPanicked Sample.repo Sample.pull "stack overflow" (trace (snd auto_)))
  /\ (fst comment = Panics "stack overflow"
      /\ ((Forall (fun e => resolves e = true) (trace (snd comment))
           /\ exists X (k : Call X),
               lastOf (trace (snd comment))
               = Some (EvCall k (Panics "stack overflow")))
          \/ exists pull,
              resolved (trace (snd comment)) = [pull]
              /\ reportPanicked Sample.repo pull "stack overflow"
                                (trace (snd comment)))).
Proof.
  intros oracle auto_ comment.
  assert (Ha : fst auto_ = Panics "stack overflow") by (vm_compute; reflexivity).
  assert (Hc : fst comment = Panics "stack overflow") by (vm_compute; reflexivity).
  split.
  - split; [exact Ha|].
    exact (proj1 (panics_leave_only_from_logPanics_or_resolution nat oracle
                    RunnerScript.runner Sample.rootLogger Sample.repo
                    "stack overflow")
                 Sample.repo Sample.pull Sample.alice 0%nat Ha).
  - split; [exact Hc|].
    exact (proj2 (panics_leave_only_from_logPanics_or_resolution nat oracle
                    RunnerScript.runner Sample.rootLogger Sample.repo
                    "stack overflow")
                 None Sample.alice 7 RunnerScript.planComment 0%nat Hc).
Defined.


Lemma autoplanBody_loggers World (oracle : Oracle Call World) c ctx st r st' :
  autoplanBody oracle c ctx st = (r, st') ->
  exists evs,
    trace st' = trace st ++ evs
    /\ Forall (eq (CommandContext.Logger ctx)) (loggers evs).
Proof.
  open_body. unfold loggers.
  run oracle; body_leaf; read_trace; repeat constructor.
Qed.

Lemma commentBody_loggers World (oracle : Oracle Call World) c ctx cmd st r st' :
  commentBody oracle c ctx cmd st = (r, st') ->
  exists evs,
    trace st' = trace st ++ evs
    /\ Forall (eq (CommandContext.Logger ctx)) (loggers evs).
Proof.
  open_body. unfold loggers.
  destruct cmd as [name dir ws verbose].
  run oracle; body_leaf; read_trace; repeat constructor.
Qed.

(** X23.  Everything an invocation logs goes to the logger [buildLogger]
    makes: the caller's logger with the pair [pull], [<repo full
    name>#<number>] added to its context, and the history handler.  The
    number is the one of the pull in [RunAutoplanCommand], and the
    [pullNum] argument in [RunCommentCommand], whatever pull is later
    resolved. *)
Theorem every_line_goes_to_the_pull_logger :
  forall World (oracle : Oracle Call World) c logger baseRepo,
    (forall headRepo pull user w,
        let tr := trace (snd (RunAutoplanCommand oracle c logger baseRepo
                                headRepo pull user (init w))) in
        Forall (eq {| Logger.Ctx :=
                        Logger.Ctx logger
                        ++ [("pull", Sprintf "%s#%d"
                                       [AStr (Repo.FullName baseRepo);
                                        AInt (PullRequest.Num pull)])];
                      Logger.Handler := HistoryHandler |})
               (loggers tr))
    /\ (forall maybeHeadRepo user pullNum cmd w,
          let tr := trace (snd (RunCommentCommand oracle c logger baseRepo
                                  maybeHeadRepo user pullNum cmd (init w))) in
          Forall (eq {| Logger.Ctx :=
                          Logger.Ctx logger
                          ++ [("pull", Sprintf "%s#%d"
                                         [AStr (Repo.FullName baseRepo);
                                          AInt pullNum])];
                        Logger.Handler := HistoryHandler |})
                 (loggers tr)).
Proof.
  intros World oracle c logger baseRepo. split.
  - intros headRepo pull user w tr. subst tr.
    destruct (RunAutoplanCommand_trace _ oracle c logger baseRepo headRepo pull
                                       user w)
      as (rb & st1 & tail & Hb & Htr & Hcase).
    apply autoplanBody_loggers in Hb. destruct Hb as (evs & He & Hl).
    rewrite Htr, He. unfold loggers in *.
    rewrite !RunnerSpec.collect_app. cbn [app].
    apply Forall_app. split; [exact Hl|].
    tail_cases Hcase; repeat constructor.
  - intros maybeHeadRepo user pullNum cmd w tr. subst tr.
    destruct (RunCommentCommand_trace _ oracle c logger baseRepo maybeHeadRepo
                                      user pullNum cmd w)
      as (rr & st0 & _ & _ & Hq & Hcase).
    pose proof (resolves_silent loggerOf _ Hq ltac:(not_resolution)) as Hl0.
    unfold loggers in *.
    destruct rr as [[[pull headRepo] [err|]]|v].
    + destruct Hcase as [_ ->]. rewrite RunnerSpec.collect_app, Hl0.
      repeat constructor.
    + destruct Hcase as (_ & _ & rb & st1 & tail & Hb & Htr & Hcase).
      apply commentBody_loggers in Hb. destruct Hb as (evs & He & Hl).
      rewrite Htr, He. unfold loggers in *.
      rewrite !RunnerSpec.collect_app, Hl0. cbn [app].
      apply Forall_app. split; [exact Hl|].
      tail_cases Hcase; repeat constructor.
    + destruct Hcase as [-> _]. cbn. rewrite Hl0. constructor.
Qed.

End RunnerRuns.
